(** * quibble: multi-trial warm-started nonlinear programming

    A shallow embedding of the Python package [quibble]
    (components.py, functions.py, problem.py, result.py, solver.py, nlp.py)
    and the properties of its component model, result views and trial
    orchestration.

    Python [float] is IEEE 754 binary64 and is embedded as Rocq's primitive
    [float]; [inf], [-inf] and NaN are the values the code really sees.
    Exceptions are an error monad.  casadi (the symbolic expressions and the
    NLP engine) is external to the repository and enters as the type class
    [Casadi]; Python's global [random()] enters as a stream of draws.
    Terminal output ([print], [cprint], [pprint]) is not modelled. *)

From Stdlib Require Import List String ZArith Lia Bool Floats DecimalString.
From Stdlib Require DecimalFacts DecimalNat.
Import ListNotations.

Set Warnings "-inexact-float".
Set Implicit Arguments.

(* ================================================================= *)
(** ** Python runtime: exceptions, dynamic values, dicts *)

Module Py.

Inductive exn :=
| ValueError
| NotImplementedError
| AttributeError
| KeyError
| TypeError
| RuntimeError.

(** A computation that returns or raises. *)
Inductive res (A : Type) :=
| Ok (a : A)
| Raise (e : exn).
Arguments Ok {A} a.
Arguments Raise {A} e.

Definition bind {A B} (c : res A) (k : A -> res B) : res B :=
  match c with
  | Ok a => k a
  | Raise e => Raise e
  end.

Fixpoint mapM {A B} (f : A -> res B) (l : list A) : res (list B) :=
  match l with
  | [] => Ok []
  | a :: l' =>
      bind (f a) (fun b => bind (mapM f l') (fun bs => Ok (b :: bs)))
  end.

(** The values the result views hand out. *)
Inductive pyval :=
| PyNone
| PyBool (b : bool)
| PyInt (z : Z)
| PyFloat (f : float).

(** [float(z)] for a Python int: the nearest binary64. *)
Definition float_of_Z (z : Z) : float :=
  SF2Prim (binary_normalize prec emax z 0 false).

(** [a + b] on numbers; [None] is not a number. *)
Definition add (a b : pyval) : res pyval :=
  let int_of (b : bool) := if b then 1%Z else 0%Z in
  match a, b with
  | PyNone, _ | _, PyNone => Raise TypeError
  | PyFloat x, PyFloat y => Ok (PyFloat (x + y))
  | PyFloat x, PyInt z => Ok (PyFloat (x + float_of_Z z))
  | PyFloat x, PyBool c => Ok (PyFloat (x + float_of_Z (int_of c)))
  | PyInt z, PyFloat y => Ok (PyFloat (float_of_Z z + y))
  | PyBool c, PyFloat y => Ok (PyFloat (float_of_Z (int_of c) + y))
  | PyInt z, PyInt w => Ok (PyInt (z + w))
  | PyInt z, PyBool c => Ok (PyInt (z + int_of c))
  | PyBool c, PyInt w => Ok (PyInt (int_of c + w))
  | PyBool c, PyBool d => Ok (PyInt (int_of c + int_of d))
  end.

(** The builtin [sum(iterable)]: start at the int 0, add left to right
    (the package pins numpy 1.18, hence a CPython whose [sum] does no
    compensated summation). *)
Fixpoint sum_from (acc : pyval) (l : list pyval) : res pyval :=
  match l with
  | [] => Ok acc
  | v :: l' => bind (add acc v) (fun acc' => sum_from acc' l')
  end.

Definition sum (l : list pyval) : res pyval := sum_from (PyInt 0) l.

(** A dict keeps insertion order; assigning to a present key replaces the
    value in place. *)
Definition dict (K V : Type) := list (K * V).

Fixpoint setitem {K V} (eqb : K -> K -> bool) (d : dict K V) (k : K) (v : V)
  : dict K V :=
  match d with
  | [] => [(k, v)]
  | (k', v') :: d' =>
      if eqb k' k then (k', v) :: d' else (k', v') :: setitem eqb d' k v
  end.

(** [==] on [Optional[str]]. *)
Definition optstr_eqb (a b : option string) : bool :=
  match a, b with
  | None, None => true
  | Some x, Some y => String.eqb x y
  | _, _ => false
  end.

(** [v[i] for i in range(n)]; an index past the end raises. *)
Definition index_range {A} (v : list A) (n : nat) : res (list A) :=
  mapM (fun i => match nth_error v i with
                 | Some a => Ok a
                 | None => Raise RuntimeError
                 end) (seq 0 n).

(** [str(n)] for a non-negative int. *)
Definition str_of_nat (n : nat) : string :=
  NilZero.string_of_uint (Nat.to_uint n).

(** [d[k]]: a missing key raises. *)
Fixpoint getitem {K V} (eqb : K -> K -> bool) (d : dict K V) (k : K)
  : res V :=
  match d with
  | [] => Raise KeyError
  | (k', v) :: d' => if eqb k' k then Ok v else getitem eqb d' k
  end.

End Py.

Import Py.

Notation "x <- c1 ;; c2" := (Py.bind c1 (fun x => c2))
  (at level 61, c1 at next level, right associativity).
Notation "' pat <- c1 ;; c2" :=
  (Py.bind c1 (fun x => match x with pat => c2 end))
  (at level 61, pat pattern, c1 at next level, right associativity).

(* ================================================================= *)
(** ** functions.py *)

Module Functions.

(** [replace_inf(value, replace_value=10 ** 10)].  The default is the int
    10000000000, which binary64 holds exactly, so the float arithmetic it
    later enters is the same as with [1e10]. *)
Definition replace_inf (value : float) (replace_value : float) : float :=
  if (value =? infinity)%float then replace_value
  else if (value =? neg_infinity)%float then (-1 * replace_value)%float
  else value.

Definition default_replace_value : float := 1e10%float.

End Functions.

(* ================================================================= *)
(** ** The casadi interface *)

(** The dict given to [cd.nlpsol]: ['x'] is [vcat] of the decision
    variables, ['f'] is Python's [sum] over the objective expressions and
    ['g'] is [vcat] of the constraint expressions; the three are kept as the
    lists they are built from. *)
Record NlpDict (SX : Type) := mkNlpDict {
  nlp_x : list SX;
  nlp_f : list SX;
  nlp_g : list SX
}.

(** A solver option value: a bool, a str or an int. *)
Inductive optval :=
| OBool (b : bool)
| OStr (s : string)
| OInt (z : Z).

(** The keyword arguments of one engine invocation. *)
Record EngineArgs := mkEngineArgs {
  x0 : list float;
  lbx : list float;
  ubx : list float;
  lbg : list float;
  ubg : list float
}.

(** The dict one engine invocation returns. *)
Record SolverOutput := mkSolverOutput {
  out_x : list float;
  out_f : float;
  out_g : list float;
  out_lam_x : list float;
  out_lam_g : list float
}.

(** [solver_instance.stats()]. *)
Record Stats := mkStats {
  success : bool;
  return_status : string
}.

Class Casadi := {
  (** symbolic expressions, [cd.SX] *)
  SX : Type;
  (** [SX.sym(name)] *)
  SX_sym : string -> SX;
  (** [float(cd.Function(name, vars, [e]).call(values)[0])] *)
  Function_call : list SX -> SX -> list float -> float;
  (** a solver instance, with the internal state [stats()] reads *)
  NlpSolver : Type;
  (** [cd.nlpsol('F', solver_name, dict, options)] *)
  nlpsol : string -> NlpDict SX -> Py.dict string optval -> NlpSolver;
  (** calling the instance: the instance after the call and its output
      (an engine that raises is outside the model) *)
  solver_call : NlpSolver -> EngineArgs -> NlpSolver * SolverOutput;
  solver_stats : NlpSolver -> Stats
}.

(* ================================================================= *)
(** ** components.py *)

Module ResultComponent.

Record t := mk {
  name : option string;
  group : option string;
  optimal_value : option float;
  lower_bound_active : bool;
  upper_bound_active : bool
}.

(** [ResultComponent(name, group)] *)
Definition init (name : option string) (group : option string) : t :=
  mk name group None false false.

Definition set_optimal_value (rc : t) (value : float) : t :=
  mk (name rc) (group rc) (Some value)
     (lower_bound_active rc) (upper_bound_active rc).

Definition set_lower_bound_active (rc : t) (value : bool) : t :=
  mk (name rc) (group rc) (optimal_value rc) value (upper_bound_active rc).

Definition set_upper_bound_active (rc : t) (value : bool) : t :=
  mk (name rc) (group rc) (optimal_value rc) (lower_bound_active rc) value.

End ResultComponent.

Module OptimizationComponent.
Section WithCasadi.
Context {cd : Casadi}.

Record t := mk {
  name : option string;
  variable : SX;
  lower_bound : float;
  upper_bound : float;
  group : option string
}.

(** The constructor stores its arguments; it raises nothing. *)
Definition init (variable : SX) (lower_bound upper_bound : float)
           (name group : option string) : res t :=
  Ok (mk name variable lower_bound upper_bound group).

Definition to_result_component (c : t) : ResultComponent.t :=
  ResultComponent.init (name c) (group c).

End WithCasadi.
Arguments t : clear implicits.
End OptimizationComponent.

Module DecisionVariable.
Section WithCasadi.
Context {cd : Casadi}.

Record t := mk {
  base : OptimizationComponent.t cd;
  is_discrete : bool
}.

Definition init (variable : SX) (lower_bound upper_bound : float)
           (name group : option string) (is_discrete : bool) : res t :=
  b <- OptimizationComponent.init variable lower_bound upper_bound name group ;;
  Ok (mk b is_discrete).

(** The inherited properties. *)
Definition name (v : t) := OptimizationComponent.name (base v).
Definition variable (v : t) := OptimizationComponent.variable (base v).
Definition lower_bound (v : t) := OptimizationComponent.lower_bound (base v).
Definition upper_bound (v : t) := OptimizationComponent.upper_bound (base v).
Definition group (v : t) := OptimizationComponent.group (base v).
Definition to_result_component (v : t) : ResultComponent.t :=
  OptimizationComponent.to_result_component (base v).

End WithCasadi.
Arguments t : clear implicits.
End DecisionVariable.

Module Constraint.
Section WithCasadi.
Context {cd : Casadi}.

Definition t := OptimizationComponent.t cd.

Definition init (equation : SX) (lower_bound upper_bound : float)
           (name group : option string) : res t :=
  OptimizationComponent.init equation lower_bound upper_bound name group.

End WithCasadi.
Arguments t : clear implicits.
End Constraint.

Module Objective.
Section WithCasadi.
Context {cd : Casadi}.

Definition t := OptimizationComponent.t cd.

(** An objective takes no bounds: the base defaults [-inf], [inf] apply. *)
Definition init (equation : SX) (name group : option string) : res t :=
  OptimizationComponent.init equation neg_infinity infinity name group.

End WithCasadi.
Arguments t : clear implicits.
End Objective.

(* ================================================================= *)
(** ** result.py *)

Module OptimizationResult.

(** The result lists hold [ResultComponent]s (the source annotates them
    with the component classes, but [_save_optimal_values] appends what
    [to_result_component] returns). *)
Record t := mk {
  constraints : list ResultComponent.t;
  objectives : list ResultComponent.t;
  decision_variables : list ResultComponent.t
}.

(** [OptimizationResult()] *)
Definition init : t := mk [] [] [].

(** What an extraction method returns: a list, or a dict keyed by name. *)
Inductive view :=
| AsList (l : list pyval)
| AsDict (d : Py.dict (option string) pyval).

(** [obj.optimal_value] as a Python value. *)
Definition value_of (obj : ResultComponent.t) : pyval :=
  match ResultComponent.optimal_value obj with
  | Some f => PyFloat f
  | None => PyNone
  end.

(** [obj.group == group] for a [group] that is a str. *)
Definition in_group (group : string) (obj : ResultComponent.t) : bool :=
  Py.optstr_eqb (ResultComponent.group obj) (Some group).

Definition enumerate {A} (l : list A) : list (nat * A) :=
  combine (seq 0 (List.length l)) l.

(** The three [_extract_*] static methods.  Their bodies are the same text
    in the source, and so they are here: each reads [obj.optimal_value]. *)
Definition _extract_optimal_values (as_dict : bool) (group : option string)
           (category : list ResultComponent.t) : view :=
  let '(out_list, out_dict) :=
    match group with
    | None =>
        let out_list := map value_of category in
        let out_dict :=
          fold_left
            (fun d '(count, obj) =>
               Py.setitem Py.optstr_eqb d (ResultComponent.name obj)
                          (nth count out_list PyNone))
            (enumerate category) [] in
        (out_list, out_dict)
    | Some g =>
        let out_list := map value_of (filter (in_group g) category) in
        let out_dict :=
          fold_left
            (fun d '(_, obj) =>
               Py.setitem Py.optstr_eqb d (ResultComponent.name obj)
                          (value_of obj))
            (enumerate (filter (in_group g) category)) [] in
        (out_list, out_dict)
    end in
  if as_dict then AsDict out_dict else AsList out_list.

Definition _extract_active_upper_bound (as_dict : bool)
           (group : option string)
           (category : list ResultComponent.t) : view :=
  let '(out_list, out_dict) :=
    match group with
    | None =>
        let out_list := map value_of category in
        let out_dict :=
          fold_left
            (fun d '(count, obj) =>
               Py.setitem Py.optstr_eqb d (ResultComponent.name obj)
                          (nth count out_list PyNone))
            (enumerate category) [] in
        (out_list, out_dict)
    | Some g =>
        let out_list := map value_of (filter (in_group g) category) in
        let out_dict :=
          fold_left
            (fun d '(_, obj) =>
               Py.setitem Py.optstr_eqb d (ResultComponent.name obj)
                          (value_of obj))
            (enumerate (filter (in_group g) category)) [] in
        (out_list, out_dict)
    end in
  if as_dict then AsDict out_dict else AsList out_list.

Definition _extract_active_lower_bound (as_dict : bool)
           (group : option string)
           (category : list ResultComponent.t) : view :=
  let '(out_list, out_dict) :=
    match group with
    | None =>
        let out_list := map value_of category in
        let out_dict :=
          fold_left
            (fun d '(count, obj) =>
               Py.setitem Py.optstr_eqb d (ResultComponent.name obj)
                          (nth count out_list PyNone))
            (enumerate category) [] in
        (out_list, out_dict)
    | Some g =>
        let out_list := map value_of (filter (in_group g) category) in
        let out_dict :=
          fold_left
            (fun d '(_, obj) =>
               Py.setitem Py.optstr_eqb d (ResultComponent.name obj)
                          (value_of obj))
            (enumerate (filter (in_group g) category)) [] in
        (out_list, out_dict)
    end in
  if as_dict then AsDict out_dict else AsList out_list.

Definition optimal_decision_variables (self : t) (as_dict : bool)
           (group : option string) : view :=
  _extract_optimal_values as_dict group (decision_variables self).

Definition optimal_constraint_values (self : t) (as_dict : bool)
           (group : option string) : view :=
  _extract_optimal_values as_dict group (constraints self).

Definition optimal_objective_values (self : t) (as_dict : bool)
           (group : option string) : view :=
  _extract_optimal_values as_dict group (objectives self).

(** [sum] over what an extraction returned; over a dict it would add the
    keys to the int 0. *)
Definition sum_view (v : view) : res pyval :=
  match v with
  | AsList l => Py.sum l
  | AsDict [] => Ok (PyInt 0)
  | AsDict (_ :: _) => Raise TypeError
  end.

Definition optimal_objective_sum (self : t) (group : option string)
  : res pyval :=
  sum_view (_extract_optimal_values false group (objectives self)).

Definition active_lower_bounds_constraints (self : t) (as_dict : bool)
           (group : option string) : view :=
  _extract_active_lower_bound as_dict group (constraints self).

Definition active_upper_bounds_constraints (self : t) (as_dict : bool)
           (group : option string) : view :=
  _extract_active_upper_bound as_dict group (constraints self).

Definition active_lower_bounds_decision_variables (self : t)
           (as_dict : bool) (group : option string) : view :=
  _extract_active_lower_bound as_dict group (decision_variables self).

Definition active_upper_bounds_decision_variables (self : t)
           (as_dict : bool) (group : option string) : view :=
  _extract_active_upper_bound as_dict group (decision_variables self).

(** What the docstrings of the active-bound methods promise ("List or
    dictionary of active upper bounds", [List[bool]]): the flags
    themselves.  Used only to compare with the methods above. *)
Definition documented_flags (flag : ResultComponent.t -> bool)
           (as_dict : bool) (group : option string)
           (category : list ResultComponent.t) : view :=
  let selected :=
    match group with
    | None => category
    | Some g => filter (in_group g) category
    end in
  if as_dict
  then AsDict (fold_left
                 (fun d obj =>
                    Py.setitem Py.optstr_eqb d (ResultComponent.name obj)
                               (PyBool (flag obj)))
                 selected [])
  else AsList (map (fun obj => PyBool (flag obj)) selected).

End OptimizationResult.

(* ================================================================= *)
(** ** problem.py *)

Module OptimizationProblem.
Section WithCasadi.
Context {cd : Casadi}.

Record t := mk {
  decision_variables : list (DecisionVariable.t cd);
  objectives : list (Objective.t cd);
  constraints : list (Constraint.t cd);
  result : option OptimizationResult.t;
  verbose : bool;
  solved : bool;
  solver_name : string;
  solver_options : Py.dict string optval
}.

Definition set_solved (p : t) (value : bool) : t :=
  mk (decision_variables p) (objectives p) (constraints p) (result p)
     (verbose p) value (solver_name p) (solver_options p).

Definition set_result (p : t) (value : option OptimizationResult.t) : t :=
  mk (decision_variables p) (objectives p) (constraints p) value
     (verbose p) (solved p) (solver_name p) (solver_options p).

Definition set_solver_options (p : t) (value : Py.dict string optval) : t :=
  mk (decision_variables p) (objectives p) (constraints p) (result p)
     (verbose p) (solved p) (solver_name p) value.

Definition reset_solver_options (p : t) (delete_all : bool) : t :=
  if delete_all then set_solver_options p []
  else
    let solver_output := if verbose p then "no"%string else "yes"%string in
    if String.eqb (solver_name p) "ipopt"
    then set_solver_options p
           [("print_time"%string, OBool (verbose p));
            ("ipopt.suppress_all_output"%string, OStr solver_output);
            ("ipopt.linear_solver"%string, OStr "mumps");
            ("ipopt.print_level"%string, OInt 4)]
    else set_solver_options p [("print_time"%string, OBool (verbose p))].

(** [OptimizationProblem(solver_name, verbose)] *)
Definition init (solver_name : string) (verbose : bool) : t :=
  reset_solver_options (mk [] [] [] None verbose false solver_name []) false.

(** [_check_bounds(name, upper_bound, lower_bound)] *)
Definition _check_bounds (upper_bound lower_bound : float) : res unit :=
  if (upper_bound <? lower_bound)%float then Raise ValueError else Ok tt.

Definition lower_bounds_constraints (p : t) : list float :=
  map (fun c => OptimizationComponent.lower_bound c) (constraints p).

Definition upper_bounds_constraints (p : t) : list float :=
  map (fun c => OptimizationComponent.upper_bound c) (constraints p).

Definition names_constraints (p : t) : list (option string) :=
  map (fun c => OptimizationComponent.name c) (constraints p).

Definition lower_bounds_decision_variables (p : t) : list float :=
  map (fun v => DecisionVariable.lower_bound v) (decision_variables p).

Definition upper_bounds_decision_variables (p : t) : list float :=
  map (fun v => DecisionVariable.upper_bound v) (decision_variables p).

Definition add_constraint (p : t) (equation : SX)
           (lower_bound upper_bound : float)
           (name group : option string) : res t :=
  _ <- _check_bounds upper_bound lower_bound ;;
  let name :=
    match name with
    | None =>
        ("Constraint_" ++ Py.str_of_nat (List.length (constraints p) + 1))%string
    | Some n => n
    end in
  c <- Constraint.init equation lower_bound upper_bound (Some name) group ;;
  Ok (mk (decision_variables p) (objectives p) (constraints p ++ [c])
         (result p) (verbose p) (solved p) (solver_name p)
         (solver_options p)).

Definition add_objective (p : t) (objective : SX)
           (name group : option string) : res t :=
  let name :=
    match name with
    | None =>
        ("Objective_" ++ Py.str_of_nat (List.length (objectives p) + 1))%string
    | Some n => n
    end in
  o <- Objective.init objective (Some name) group ;;
  Ok (mk (decision_variables p) (objectives p ++ [o]) (constraints p)
         (result p) (verbose p) (solved p) (solver_name p)
         (solver_options p)).

Definition add_decision_variable (p : t) (name : string)
           (lower_bound upper_bound : float) (group : option string)
  : res (t * SX) :=
  _ <- _check_bounds upper_bound lower_bound ;;
  let temp := SX_sym name in
  v <- DecisionVariable.init temp lower_bound upper_bound (Some name)
                             group false ;;
  Ok (mk (decision_variables p ++ [v]) (objectives p) (constraints p)
         (result p) (verbose p) (solved p) (solver_name p)
         (solver_options p),
      temp).

(** [self.add_constraint(...)] as a call on the problem object: the object
    as the call leaves it, also when the call raises, and how the call
    ended.  The object is touched by the [append] only. *)
Definition add_constraint_call (self : t) (equation : SX)
           (lower_bound upper_bound : float)
           (name group : option string) : t * res unit :=
  match _check_bounds upper_bound lower_bound with
  | Raise e => (self, Raise e)
  | Ok _ =>
      let name :=
        match name with
        | None =>
            ("Constraint_"
             ++ Py.str_of_nat (List.length (constraints self) + 1))%string
        | Some n => n
        end in
      match Constraint.init equation lower_bound upper_bound (Some name)
                            group with
      | Raise e => (self, Raise e)
      | Ok c =>
          (mk (decision_variables self) (objectives self)
              (constraints self ++ [c]) (result self) (verbose self)
              (solved self) (solver_name self) (solver_options self),
           Ok tt)
      end
  end.

(** [self.add_decision_variable(...)] as a call on the problem object. *)
Definition add_decision_variable_call (self : t) (name : string)
           (lower_bound upper_bound : float) (group : option string)
  : t * res SX :=
  match _check_bounds upper_bound lower_bound with
  | Raise e => (self, Raise e)
  | Ok _ =>
      let temp := SX_sym name in
      match DecisionVariable.init temp lower_bound upper_bound (Some name)
                                  group false with
      | Raise e => (self, Raise e)
      | Ok v =>
          (mk (decision_variables self ++ [v]) (objectives self)
              (constraints self) (result self) (verbose self)
              (solved self) (solver_name self) (solver_options self),
           Ok temp)
      end
  end.

(** [add_solver_options(prefix, **kwargs)]; [kwargs] in the order the
    caller wrote the keywords. *)
Definition add_solver_options (p : t) (prefix : option string)
           (kwargs : Py.dict string optval) : t :=
  let prefix :=
    match prefix with
    | Some s => (s ++ ".")%string
    | None => ""%string
    end in
  set_solver_options
    p
    (fold_left
       (fun d '(key, value) =>
          Py.setitem String.eqb d (prefix ++ key)%string value)
       kwargs (solver_options p)).

(** The setter of [solver_name]: store the name, reset the options. *)
Definition set_solver_name (p : t) (name : string) : t :=
  reset_solver_options
    (mk (decision_variables p) (objectives p) (constraints p) (result p)
        (verbose p) (solved p) name (solver_options p))
    false.

End WithCasadi.
Arguments t : clear implicits.
End OptimizationProblem.

(* ================================================================= *)
(** ** solver.py *)

(** [int(np.argmin(values))]: the index of the first minimum; a NaN counts
    as minimal (the scan stops at the first one); an empty sequence raises. *)
Module Numpy.

Fixpoint argmin_scan (mp : float) (min_ind i : nat) (l : list float) : nat :=
  match l with
  | [] => min_ind
  | v :: l' =>
      if negb (mp <=? v)%float
      then if is_nan v then i else argmin_scan v i (S i) l'
      else argmin_scan mp min_ind (S i) l'
  end.

Definition argmin (l : list float) : res nat :=
  match l with
  | [] => Raise ValueError
  | v :: l' => Ok (if is_nan v then 0 else argmin_scan v 0 1 l')
  end.

End Numpy.

Module Solver.
Section WithCasadi.
Context {cd : Casadi}.

(** The solver holds a reference to the problem it mutates; the model
    keeps the problem inside the solver and hands it back to the caller. *)
Record t := mk {
  problem : option (OptimizationProblem.t cd);
  name : string;
  solver_instance : option NlpSolver;
  solver_result : option SolverOutput
}.

(** [Solver(name, problem)] *)
Definition init (name : string) (problem : option (OptimizationProblem.t cd))
  : res t :=
  if negb (String.eqb name "ipopt") then Raise NotImplementedError
  else match problem with
       | None => Raise NotImplementedError
       | Some p => Ok (mk (Some p) name None None)
       end.

(** [10 ** -5] *)
Definition activation_epsilon : float := 1e-5%float.

(** [self._solver_result['x']] *)
Definition result_x (self : t) : res (list float) :=
  match solver_result self with
  | Some r => Ok (out_x r)
  | None => Raise KeyError
  end.

(** Build [cd.Function(name, decision variables, [expression])] and call
    it on [x[0], ..., x[n-1]] of the stored solver result. *)
Definition evaluate_at_result (self : t) (p : OptimizationProblem.t cd)
           (expression : SX) : res float :=
  x <- result_x self ;;
  values <- Py.index_range
              x (List.length (OptimizationProblem.decision_variables p)) ;;
  Ok (Function_call
        (map (fun v => DecisionVariable.variable v)
             (OptimizationProblem.decision_variables p))
        expression values).

Definition constraint_result (self : t) (p : OptimizationProblem.t cd)
           (constraint : Constraint.t cd) : res ResultComponent.t :=
  let constraint_result :=
    OptimizationComponent.to_result_component constraint in
  temp_result <- evaluate_at_result
                   self p (OptimizationComponent.variable constraint) ;;
  let constraint_result :=
    ResultComponent.set_optimal_value constraint_result temp_result in
  let constraint_result :=
    ResultComponent.set_upper_bound_active constraint_result
      (abs (OptimizationComponent.upper_bound constraint - temp_result)
       <? activation_epsilon)%float in
  let constraint_result :=
    ResultComponent.set_lower_bound_active constraint_result
      (abs (OptimizationComponent.lower_bound constraint - temp_result)
       <? activation_epsilon)%float in
  Ok constraint_result.

Definition decision_variable_result (self : t)
           (entry : nat * DecisionVariable.t cd) : res ResultComponent.t :=
  let '(count, dec_var) := entry in
  let dec_var_result := DecisionVariable.to_result_component dec_var in
  x <- result_x self ;;
  match nth_error x count with
  | Some v => Ok (ResultComponent.set_optimal_value dec_var_result v)
  | None => Raise RuntimeError
  end.

Definition objective_result (self : t) (p : OptimizationProblem.t cd)
           (objective : Objective.t cd) : res ResultComponent.t :=
  let objective_result :=
    OptimizationComponent.to_result_component objective in
  temp_result <- evaluate_at_result
                   self p (OptimizationComponent.variable objective) ;;
  Ok (ResultComponent.set_optimal_value objective_result temp_result).

Definition set_problem (self : t) (p : OptimizationProblem.t cd) : t :=
  mk (Some p) (name self) (solver_instance self) (solver_result self).

Definition _save_optimal_values (self : t) : res t :=
  match problem self with
  | None => Raise AttributeError
  | Some p =>
      if OptimizationProblem.solved p then
        cs <- Py.mapM (constraint_result self p)
                      (OptimizationProblem.constraints p) ;;
        ds <- Py.mapM (decision_variable_result self)
                      (OptimizationResult.enumerate
                         (OptimizationProblem.decision_variables p)) ;;
        os <- Py.mapM (objective_result self p)
                      (OptimizationProblem.objectives p) ;;
        Ok (set_problem
              self
              (OptimizationProblem.set_result
                 p (Some (OptimizationResult.mk cs os ds))))
      else Ok self
  end.

(** What a run of the orchestrator does to the world outside the solver
    object: writes of the problem's solved flag, and engine invocations
    with what the engine answered. *)
Inductive event :=
| EvSolved (value : bool)
| EvInvoke (args : EngineArgs) (result : SolverOutput) (ok : bool).

(** The variables the trial loop updates. *)
Record trial_state := mkTrial {
  instance : NlpSolver;
  initial_guess : list float;
  successful_trials : list SolverOutput;
  failed_trials : list SolverOutput;
  log : list event
}.

(** One pass through the body of [for trial in range(trials)]. *)
Definition trial (p : OptimizationProblem.t cd) (st : trial_state)
  : res trial_state :=
  let args :=
    mkEngineArgs (initial_guess st)
                 (OptimizationProblem.lower_bounds_decision_variables p)
                 (OptimizationProblem.upper_bounds_decision_variables p)
                 (OptimizationProblem.lower_bounds_constraints p)
                 (OptimizationProblem.upper_bounds_constraints p) in
  let '(instance', result) := solver_call (instance st) args in
  let n := List.length (OptimizationProblem.decision_variables p) in
  if negb (success (solver_stats instance')) then
    (* trial failed *)
    next_guess <- Py.index_range (out_lam_x result) n ;;
    Ok (mkTrial instance' next_guess
                (successful_trials st) (failed_trials st ++ [result])
                (log st ++ [EvInvoke args result false]))
  else
    (* trial successful *)
    next_guess <- Py.index_range (out_x result) n ;;
    Ok (mkTrial instance' next_guess
                (successful_trials st ++ [result]) (failed_trials st)
                (log st ++ [EvInvoke args result true])).

Fixpoint trial_loop (p : OptimizationProblem.t cd) (count : nat)
         (st : trial_state) : res trial_state :=
  match count with
  | O => Ok st
  | S count' => st' <- trial p st ;; trial_loop p count' st'
  end.

(** The guess made up when the caller gives none; [random k] is the k-th
    value Python's [random()] yields from now on. *)
Definition synthesize_guess (random : nat -> float)
           (p : OptimizationProblem.t cd) : list float :=
  map (fun '(k, var) =>
         (Functions.replace_inf (DecisionVariable.lower_bound var)
                                Functions.default_replace_value
          + random k
            * (Functions.replace_inf (DecisionVariable.upper_bound var)
                                     Functions.default_replace_value
               - Functions.replace_inf (DecisionVariable.lower_bound var)
                                       Functions.default_replace_value))%float)
      (OptimizationResult.enumerate
         (OptimizationProblem.decision_variables p)).

(** The part of [_ipopt_start] after the trial loop: pick the best
    successful trial, write the solved flag, save the optimal values. *)
Definition conclude (self : t) (p : OptimizationProblem.t cd)
           (st : trial_state) : res (t * list event) :=
  match successful_trials st with
  | [] =>
      let p := OptimizationProblem.set_solved p false in
      self' <- _save_optimal_values
                 (mk (Some p) (name self) (Some (instance st))
                     (solver_result self)) ;;
      Ok (self', log st ++ [EvSolved false])
  | _ :: _ =>
      best_result_index <-
        Numpy.argmin (map out_f (successful_trials st)) ;;
      match nth_error (successful_trials st) best_result_index with
      | None => Raise RuntimeError
      | Some best =>
          let p := OptimizationProblem.set_solved p true in
          self' <- _save_optimal_values
                     (mk (Some p) (name self) (Some (instance st))
                         (Some best)) ;;
          Ok (self', log st ++ [EvSolved true])
      end
  end.

(** The dict of symbolic inputs [_ipopt_start] assembles. *)
Definition nlp_of (p : OptimizationProblem.t cd) : NlpDict SX :=
  mkNlpDict
    (map (fun v => DecisionVariable.variable v)
         (OptimizationProblem.decision_variables p))
    (map (fun o => OptimizationComponent.variable o)
         (OptimizationProblem.objectives p))
    (map (fun c => OptimizationComponent.variable c)
         (OptimizationProblem.constraints p)).

Definition _ipopt_start (random : nat -> float) (self : t) (trials : Z)
           (initial_guess : option (list float)) : res (t * list event) :=
  match problem self with
  | None => Raise ValueError
  | Some p =>
      let solver_instance :=
        nlpsol (OptimizationProblem.solver_name p) (nlp_of p)
               (OptimizationProblem.solver_options p) in
      let initial_guess :=
        match initial_guess with
        | None => synthesize_guess random p
        | Some g => g
        end in
      let p := OptimizationProblem.set_solved p false in
      st <- trial_loop p (Z.to_nat trials)
                       (mkTrial solver_instance initial_guess [] []
                                [EvSolved false]) ;;
      conclude self p st
  end.

Definition start (random : nat -> float) (self : t) (trials : Z)
           (initial_guess : option (list float)) : res (t * list event) :=
  if String.eqb (name self) "ipopt"
  then _ipopt_start random self trials initial_guess
  else Ok (self, []).

(** The loop of [_check_constraints] over the constraints still to check,
    with the values collected so far. *)
Fixpoint check_loop (p : OptimizationProblem.t cd) (candidate : list float)
         (todo : list (Constraint.t cd)) (constraint_values : list float)
  : option (list float) :=
  match todo with
  | [] => Some constraint_values
  | constraint :: todo' =>
      let constraint_value :=
        Function_call
          (map (fun v => DecisionVariable.variable v)
               (OptimizationProblem.decision_variables p))
          (OptimizationComponent.variable constraint) candidate in
      if negb ((OptimizationComponent.lower_bound constraint
                <=? constraint_value)%float
               && (constraint_value
                   <=? OptimizationComponent.upper_bound constraint)%float)
      then None
      else check_loop p candidate todo'
                      (constraint_values ++ [constraint_value])
  end.

(** [_check_constraints(candidate)]: [None] if the candidate violates a
    constraint, the list of constraint values otherwise. *)
Definition _check_constraints (self : t) (candidate : list float)
  : res (option (list float)) :=
  match problem self with
  | None => Raise AttributeError
  | Some p =>
      Ok (check_loop p candidate (OptimizationProblem.constraints p) [])
  end.

End WithCasadi.
Arguments t : clear implicits.
End Solver.

(* ================================================================= *)
(** ** nlp.py *)

Module NonLinearProgramming.
Section WithCasadi.
Context {cd : Casadi}.

(** [NonLinearProgramming(solver_name='ipopt', verbose=False)] *)
Definition init (solver_name : string) (verbose : bool)
  : OptimizationProblem.t cd :=
  OptimizationProblem.init solver_name verbose.

(** [self.solve(solver_name, initial_guess, trials)]: the problem after
    the call and the value returned, [self._result]. *)
Definition solve (random : nat -> float) (self : OptimizationProblem.t cd)
           (solver_name : option string)
           (initial_guess : option (list float)) (trials : Z)
  : res (OptimizationProblem.t cd * option OptimizationResult.t) :=
  let self :=
    match solver_name with
    | Some n =>
        OptimizationProblem.mk
          (OptimizationProblem.decision_variables self)
          (OptimizationProblem.objectives self)
          (OptimizationProblem.constraints self)
          (OptimizationProblem.result self)
          (OptimizationProblem.verbose self)
          (OptimizationProblem.solved self)
          n
          (OptimizationProblem.solver_options self)
    | None => self
    end in
  solver <- Solver.init (OptimizationProblem.solver_name self) (Some self) ;;
  '(solver, _) <- Solver.start random solver trials initial_guess ;;
  match Solver.problem solver with
  | Some self => Ok (self, OptimizationProblem.result self)
  | None => Raise AttributeError
  end.

End WithCasadi.
End NonLinearProgramming.

(* ================================================================= *)
(** ** A scripted engine for concrete runs *)

(** casadi instantiated by a small expression language and an engine that
    answers from a script, one scripted answer per invocation. *)
Module Stub.

Inductive expr :=
| Sym (name : string)
| Num (c : float)
| Plus (a b : expr)
| Times (a b : expr).

(** The value bound to the symbol [name] when [vars] are given [values]. *)
Fixpoint lookup (vars : list expr) (values : list float) (name : string)
  : float :=
  match vars, values with
  | Sym n :: vars', v :: values' =>
      if String.eqb n name then v else lookup vars' values' name
  | _ :: vars', _ :: values' => lookup vars' values' name
  | _, _ => nan
  end.

Fixpoint eval (vars : list expr) (e : expr) (values : list float) : float :=
  match e with
  | Sym n => lookup vars values n
  | Num c => c
  | Plus a b => (eval vars a values + eval vars b values)%float
  | Times a b => (eval vars a values * eval vars b values)%float
  end.

(** One scripted answer: the success flag, the primal vector, the
    multipliers of the variable bounds, the objective value. *)
Record answer := mkAnswer {
  ok : bool;
  x : list float;
  lam_x : list float;
  f : float
}.

(** The answers still to give, the success flag of the last call, and the
    number of decision variables of the NLP the instance was built for. *)
Record engine := mkEngine {
  remaining : list answer;
  last_ok : bool;
  dim : nat
}.

(** An exhausted script reports failure with zero vectors. *)
Definition call (e : engine) (args : EngineArgs) : engine * SolverOutput :=
  match remaining e with
  | [] =>
      (mkEngine [] false (dim e),
       mkSolverOutput (repeat 0%float (dim e)) nan []
                      (repeat 0%float (dim e)) [])
  | a :: rest =>
      (mkEngine rest (ok a) (dim e),
       mkSolverOutput (x a) (f a) [] (lam_x a) [])
  end.

(** The script may depend on the NLP the instance is built for. *)
Definition casadi (script : NlpDict expr -> list answer) : Casadi := {|
  SX := expr;
  SX_sym := Sym;
  Function_call := eval;
  NlpSolver := engine;
  nlpsol := fun _ d _ => mkEngine (script d) false (List.length (nlp_x d));
  solver_call := call;
  solver_stats := fun e => mkStats (last_ok e) ""
|}.

(** Every answer still to give has [n] entries in both vectors. *)
Definition well_formed (n : nat) (e : engine) : bool :=
  Nat.eqb (dim e) n
  && forallb (fun a => Nat.eqb (List.length (x a)) n
                       && Nat.eqb (List.length (lam_x a)) n)
             (remaining e).

End Stub.

(* ================================================================= *)
(** ** Concrete problems *)

Module Scenario.

Import Stub.

(** One decision variable [x] in [0, 10], the constraint [3 <= x] and the
    objective [x], built through the problem's add-operations. *)
Definition build (cd : Casadi) : res (OptimizationProblem.t cd) :=
  let p := NonLinearProgramming.init "ipopt" false in
  '(p, x) <- OptimizationProblem.add_decision_variable
               p "x" 0%float 10%float None ;;
  p <- OptimizationProblem.add_constraint
         p x 3%float infinity None None ;;
  OptimizationProblem.add_objective p x None None.

(** The draws of [random()] in the concrete runs. *)
Definition half (k : nat) : float := 0.5%float.

(** The engine finds [x = 3] at the first trial. *)
Definition solves_at_once : Casadi :=
  casadi (fun _ => [mkAnswer true [3%float] [0%float] 3%float]).

(** Three successes with objective values 5, 2, 3. *)
Definition three_successes : Casadi :=
  casadi (fun _ => [mkAnswer true [5%float] [0%float] 5%float;
                    mkAnswer true [4%float] [0%float] 2%float;
                    mkAnswer true [3%float] [0%float] 3%float]).

(** Trial 1 fails and returns the dual vector [7.25]; trial 2 succeeds. *)
Definition fails_then_solves : Casadi :=
  casadi (fun _ => [mkAnswer false [1%float] [7.25%float] 9%float;
                    mkAnswer true [3%float] [0%float] 3%float]).

(** The engine solves an NLP with at most one constraint at once and
    fails on every trial of an NLP with more. *)
Definition solves_one_constraint : Casadi :=
  casadi (fun d =>
            if Nat.leb (List.length (nlp_g d)) 1
            then [mkAnswer true [3%float] [0%float] 3%float]
            else []).

(** The engine stops at [x = 10], the upper bound of the variable. *)
Definition solves_at_bound : Casadi :=
  casadi (fun _ => [mkAnswer true [10%float] [0%float] 10%float]).

(** Solve, then add the contradictory constraints [x <= 1] and [5 <= x]
    and start a fresh solver on the problem with three trials. *)
Definition solve_then_fail
  : res (Solver.t solves_one_constraint * list Solver.event) :=
  p <- build solves_one_constraint ;;
  '(p, _) <- NonLinearProgramming.solve half p None None 1 ;;
  p <- OptimizationProblem.add_constraint
         p (Sym "x") neg_infinity 1%float None None ;;
  p <- OptimizationProblem.add_constraint
         p (Sym "x") 5%float infinity None None ;;
  solver <- Solver.init "ipopt" (Some p) ;;
  Solver.start half solver 3 None.

(** The same through [solve]: solve, add the contradictory constraints
    and solve again with three trials. *)
Definition solve_twice
  : res (OptimizationProblem.t solves_one_constraint
         * option OptimizationResult.t) :=
  p <- build solves_one_constraint ;;
  '(p, _) <- NonLinearProgramming.solve half p None None 1 ;;
  p <- OptimizationProblem.add_constraint
         p (Sym "x") neg_infinity 1%float None None ;;
  p <- OptimizationProblem.add_constraint
         p (Sym "x") 5%float infinity None None ;;
  NonLinearProgramming.solve half p None None 3.

(** An unbounded decision variable [y] and the objective [y]. *)
Definition unbounded (cd : Casadi) : res (OptimizationProblem.t cd) :=
  let p := NonLinearProgramming.init "ipopt" false in
  '(p, y) <- OptimizationProblem.add_decision_variable
               p "y" neg_infinity infinity None ;;
  OptimizationProblem.add_objective p y None None.

(** The value of a construction that does not raise. *)
Definition built {cd : Casadi} (c : res (OptimizationProblem.t cd))
  : OptimizationProblem.t cd :=
  match c with
  | Ok p => p
  | Raise _ => NonLinearProgramming.init "ipopt" false
  end.

Definition warm_problem : OptimizationProblem.t fails_then_solves :=
  built (build fails_then_solves).

Definition three_problem : OptimizationProblem.t three_successes :=
  built (build three_successes).

Definition once_problem : OptimizationProblem.t solves_at_once :=
  built (build solves_at_once).

Definition free_problem : OptimizationProblem.t solves_at_once :=
  built (unbounded solves_at_once).

Definition bound_problem : OptimizationProblem.t solves_at_bound :=
  built (build solves_at_bound).

(** The engine instances whose remaining answers have one entry each. *)
Definition one_entry (e : Stub.engine) : Prop :=
  Stub.well_formed 1 e = true.

(** A fresh solver on a problem: what [Solver('ipopt', p)] returns. *)
Definition solver_on {cd : Casadi} (p : OptimizationProblem.t cd)
  : Solver.t cd :=
  Solver.mk (Some p) "ipopt" None None.

End Scenario.

(* ================================================================= *)
(** ** Vocabulary of the statements *)

(** The order of the binary64 numbers, read off their specification: every
    number gets a position on the extended real line (sign class, then
    exponent and mantissa, negated below zero), compared
    lexicographically. *)
Module FloatOrder.

Local Open Scope Z_scope.

Definition key (x : spec_float) : Z * Z * Z :=
  match x with
  | S754_zero _ => (0, 0, 0)
  | S754_infinity s => (if s then -2 else 2, 0, 0)
  | S754_nan => (0, 0, 0)
  | S754_finite s m e =>
      if s then (-1, - e, - Z.pos m) else (1, e, Z.pos m)
  end.

Definition lt3 (a b : Z * Z * Z) : Prop :=
  let '(a1, a2, a3) := a in
  let '(b1, b2, b3) := b in
  a1 < b1 \/ (a1 = b1 /\ (a2 < b2 \/ (a2 = b2 /\ a3 < b3))).

Definition le3 (a b : Z * Z * Z) : Prop :=
  let '(a1, a2, a3) := a in
  let '(b1, b2, b3) := b in
  a1 < b1 \/ (a1 = b1 /\ (a2 < b2 \/ (a2 = b2 /\ a3 <= b3))).

Definition fkey (x : float) : Z * Z * Z := key (Prim2SF x).

(** A sequence without NaN. *)
Definition numbers (l : list float) : Prop :=
  Forall (fun v => is_nan v = false) l.

Ltac cmp_cases :=
  repeat match goal with
  | |- context [(?a ?= ?b)%Z] => destruct (Z.compare_spec a b)
  | |- context [PosDef.Pos.compare_cont Eq ?a ?b] =>
      change (PosDef.Pos.compare_cont Eq a b) with (Pos.compare a b);
      destruct (Pos.compare_spec a b)
  end.


Ltac by_keys :=
  unfold lt3, le3 in *;
  repeat match goal with
  | |- context [fkey ?x] =>
      let a := fresh "a" in let b := fresh "b" in let c := fresh "c" in
      destruct (fkey x) as [[a b] c]
  | H : context [fkey ?x] |- _ =>
      let a := fresh "a" in let b := fresh "b" in let c := fresh "c" in
      destruct (fkey x) as [[a b] c]
  end; lia.

End FloatOrder.

Section Vocabulary.
Context {cd : Casadi}.

(** What the orchestrator relies on from the engine: on the instances a
    run can reach (those satisfying [Inv]) every answer carries a primal
    vector and a multiplier vector with one entry per decision variable. *)
Definition engine_contract (Inv : NlpSolver -> Prop) (n : nat) : Prop :=
  forall (e : NlpSolver) (a : EngineArgs),
    Inv e ->
    Inv (fst (solver_call e a))
    /\ List.length (out_x (snd (solver_call e a))) = n
    /\ List.length (out_lam_x (snd (solver_call e a))) = n.

(** A solver ready to start: a problem is attached, the solver is the
    ipopt one, and the engine built for the problem keeps its contract. *)
Definition ready (Inv : NlpSolver -> Prop) (self : Solver.t cd)
           (p : OptimizationProblem.t cd) : Prop :=
  Solver.problem self = Some p
  /\ Solver.name self = "ipopt"%string
  /\ Inv (nlpsol (OptimizationProblem.solver_name p) (Solver.nlp_of p)
                 (OptimizationProblem.solver_options p))
  /\ engine_contract
       Inv (List.length (OptimizationProblem.decision_variables p)).

(** The answers of the successful invocations of a log, in trial order. *)
Fixpoint successes (evs : list Solver.event) : list SolverOutput :=
  match evs with
  | [] => []
  | Solver.EvInvoke _ r true :: evs' => r :: successes evs'
  | _ :: evs' => successes evs'
  end.

Fixpoint failures (evs : list Solver.event) : list SolverOutput :=
  match evs with
  | [] => []
  | Solver.EvInvoke _ r false :: evs' => r :: failures evs'
  | _ :: evs' => failures evs'
  end.

(** The keyword arguments of an invocation on the guess [g]. *)
Definition args_of (p : OptimizationProblem.t cd) (g : list float)
  : EngineArgs :=
  mkEngineArgs g
               (OptimizationProblem.lower_bounds_decision_variables p)
               (OptimizationProblem.upper_bounds_decision_variables p)
               (OptimizationProblem.lower_bounds_constraints p)
               (OptimizationProblem.upper_bounds_constraints p).

(** A log of invocations only, the first on the guess [g], each later one
    on the primal vector of the answer before it if that reported
    success and on its multiplier vector if not. *)
Fixpoint chained (p : OptimizationProblem.t cd) (n : nat) (g : list float)
         (evs : list Solver.event) : Prop :=
  match evs with
  | [] => True
  | Solver.EvInvoke a r ok :: evs' =>
      a = args_of p g
      /\ List.length (out_x r) = n /\ List.length (out_lam_x r) = n
      /\ chained p n (if ok then out_x r else out_lam_x r) evs'
  | Solver.EvSolved _ :: _ => False
  end.

(** The guess the first trial is given. *)
Definition first_guess (random : nat -> float)
           (p : OptimizationProblem.t cd) (guess : option (list float))
  : list float :=
  match guess with
  | None => Solver.synthesize_guess random p
  | Some g => g
  end.

(** The expression [e] evaluated with the decision variables at [x]. *)
Definition value_at (p : OptimizationProblem.t cd) (x : list float)
           (e : SX) : float :=
  Function_call (map (fun v => DecisionVariable.variable v)
                     (OptimizationProblem.decision_variables p))
                e x.

(** The result the three loops of [_save_optimal_values] build from the
    primal vector [x], when [x] has an entry for every decision
    variable. *)
Definition saved (p : OptimizationProblem.t cd) (x : list float)
  : OptimizationResult.t :=
  OptimizationResult.mk
    (map (fun c =>
            let v := value_at p x (OptimizationComponent.variable c) in
            ResultComponent.mk
              (OptimizationComponent.name c) (OptimizationComponent.group c)
              (Some v)
              (abs (OptimizationComponent.lower_bound c - v)
               <? Solver.activation_epsilon)%float
              (abs (OptimizationComponent.upper_bound c - v)
               <? Solver.activation_epsilon)%float)
         (OptimizationProblem.constraints p))
    (map (fun o =>
            ResultComponent.mk
              (OptimizationComponent.name o) (OptimizationComponent.group o)
              (Some (value_at p x (OptimizationComponent.variable o)))
              false false)
         (OptimizationProblem.objectives p))
    (map (fun '(count, v) =>
            ResultComponent.mk
              (DecisionVariable.name v) (DecisionVariable.group v)
              (Some (nth count x 0%float)) false false)
         (OptimizationResult.enumerate
            (OptimizationProblem.decision_variables p))).

(** No active-bound flag is set on any decision variable of the result,
    if there is a result. *)
Definition decision_flags_clear (p : OptimizationProblem.t cd) : Prop :=
  match OptimizationProblem.result p with
  | None => True
  | Some r =>
      Forall (fun rc => ResultComponent.lower_bound_active rc = false
                        /\ ResultComponent.upper_bound_active rc = false)
             (OptimizationResult.decision_variables r)
  end.

(** The invocations of a log are calls of the engine, one after the other
    on the instance the call before left behind, starting from [e] and
    leaving [e']: each logged answer is what the engine returned to the
    logged arguments, each logged outcome is the success entry of the
    statistics read after that call. *)
Fixpoint threaded (e : NlpSolver) (evs : list Solver.event)
         (e' : NlpSolver) : Prop :=
  match evs with
  | [] => e' = e
  | Solver.EvInvoke a r ok :: evs' =>
      r = snd (solver_call e a)
      /\ ok = success (solver_stats (fst (solver_call e a)))
      /\ threaded (fst (solver_call e a)) evs' e'
  | Solver.EvSolved _ :: _ => False
  end.

End Vocabulary.

(** The components an extraction looks at. *)
Definition selected (group : option string)
           (category : list ResultComponent.t) : list ResultComponent.t :=
  match group with
  | None => category
  | Some g => filter (OptimizationResult.in_group g) category
  end.

Section Assembly.
Context {cd : Casadi}.

(** The problems a caller can assemble before solving: a fresh problem,
    changed by the add-operations and the option methods. *)
Inductive assembled : OptimizationProblem.t cd -> Prop :=
| assembled_init (solver_name : string) (verbose : bool) :
    assembled (OptimizationProblem.init solver_name verbose)
| assembled_variable p name lower_bound upper_bound group p' x :
    assembled p ->
    OptimizationProblem.add_decision_variable
      p name lower_bound upper_bound group = Ok (p', x) ->
    assembled p'
| assembled_constraint p equation lower_bound upper_bound name group p' :
    assembled p ->
    OptimizationProblem.add_constraint
      p equation lower_bound upper_bound name group = Ok p' ->
    assembled p'
| assembled_objective p objective name group p' :
    assembled p ->
    OptimizationProblem.add_objective p objective name group = Ok p' ->
    assembled p'
| assembled_options p prefix kwargs :
    assembled p ->
    assembled (OptimizationProblem.add_solver_options p prefix kwargs)
| assembled_reset p delete_all :
    assembled p ->
    assembled (OptimizationProblem.reset_solver_options p delete_all)
| assembled_solver_name p name :
    assembled p ->
    assembled (OptimizationProblem.set_solver_name p name).

(** The upper bound is not below the lower bound. *)
Definition bounds_ordered (c : OptimizationComponent.t cd) : Prop :=
  (OptimizationComponent.upper_bound c
   <? OptimizationComponent.lower_bound c)%float = false.

(** Constraints added one after the other without a name, each given by
    its expression, bounds and group. *)
Fixpoint add_unnamed_constraints
         (p : OptimizationProblem.t cd)
         (specs : list (SX * (float * float) * option string))
  : res (OptimizationProblem.t cd) :=
  match specs with
  | [] => Ok p
  | (equation, (lower_bound, upper_bound), group) :: specs' =>
      p' <- OptimizationProblem.add_constraint
              p equation lower_bound upper_bound None group ;;
      add_unnamed_constraints p' specs'
  end.

(** Objectives added one after the other without a name, each given by
    its expression and group. *)
Fixpoint add_unnamed_objectives
         (p : OptimizationProblem.t cd)
         (specs : list (SX * option string))
  : res (OptimizationProblem.t cd) :=
  match specs with
  | [] => Ok p
  | (objective, group) :: specs' =>
      p' <- OptimizationProblem.add_objective p objective None group ;;
      add_unnamed_objectives p' specs'
  end.

(** The value of the constraint [c] at the candidate. *)
Definition constraint_value (p : OptimizationProblem.t cd)
           (candidate : list float) (c : Constraint.t cd) : float :=
  value_at p candidate (OptimizationComponent.variable c).

(** The candidate keeps the constraint [c]: [lb <= value <= ub]. *)
Definition satisfied (p : OptimizationProblem.t cd)
           (candidate : list float) (c : Constraint.t cd) : Prop :=
  (OptimizationComponent.lower_bound c
   <=? constraint_value p candidate c)%float = true
  /\ (constraint_value p candidate c
      <=? OptimizationComponent.upper_bound c)%float = true.

End Assembly.

(** Concrete values for the statements that follow. *)
Module Cases.

(** Two result components with different names. *)
Definition pair : list ResultComponent.t :=
  [ResultComponent.mk (Some "a"%string) (Some "g"%string) (Some 1%float)
                      false false;
   ResultComponent.mk (Some "b"%string) None (Some 2%float) false true].

(** Two result components that share the name [c]. *)
Definition twins : list ResultComponent.t :=
  [ResultComponent.mk (Some "c"%string) None (Some 1%float) false false;
   ResultComponent.mk (Some "c"%string) None (Some 2%float) true false].

(** The end-to-end problem, stage by stage. *)
Definition fresh : OptimizationProblem.t Scenario.solves_at_once :=
  NonLinearProgramming.init "ipopt" false.

Definition with_variable : OptimizationProblem.t Scenario.solves_at_once :=
  match OptimizationProblem.add_decision_variable
          fresh "x" 0%float 10%float None with
  | Ok (p, _) => p
  | Raise _ => fresh
  end.

Definition with_constraint : OptimizationProblem.t Scenario.solves_at_once :=
  Scenario.built
    (OptimizationProblem.add_constraint
       with_variable (Stub.Sym "x") 3%float infinity None None).

(** What [solve()] hands back on the end-to-end problem: the problem after
    the call and the value returned. *)
Definition solved_once
  : OptimizationProblem.t Scenario.solves_at_once
    * option OptimizationResult.t :=
  match NonLinearProgramming.solve
          Scenario.half Scenario.once_problem None None 1 with
  | Ok r => r
  | Raise _ => (Scenario.once_problem, None)
  end.

(** Two constraints added without a name. *)
Definition two_unnamed
  : list (@SX Scenario.solves_at_once * (float * float) * option string) :=
  [(Stub.Sym "x", (0%float, 1%float), None);
   (Stub.Sym "x", (neg_infinity, 5%float), Some "g"%string)].

(** The keyword arguments [print_level=0, max_iter=100]. *)
Definition two_options : Py.dict string optval :=
  [("print_level"%string, OInt 0); ("max_iter"%string, OInt 100)].

End Cases.

Unset Implicit Arguments.

(* ================================================================= *)
(** ** The order of binary64 numbers *)

Module FloatOrderFacts.

Import FloatOrder.
Local Open Scope Z_scope.

Lemma SFltb_key (x y : spec_float) :
  x <> S754_nan -> y <> S754_nan ->
  (SFltb x y = true <-> lt3 (key x) (key y)).
Proof.
  intros Hx Hy. unfold SFltb.
  destruct x as [sx|sx| |sx mx ex]; try congruence;
    destruct y as [sy|sy| |sy my ey]; try congruence;
    try destruct sx; try destruct sy; simpl; cmp_cases; simpl;
    split; intros; try discriminate; try reflexivity; try lia.
Qed.

Lemma SFleb_key (x y : spec_float) :
  x <> S754_nan -> y <> S754_nan ->
  (SFleb x y = true <-> le3 (key x) (key y)).
Proof.
  intros Hx Hy. unfold SFleb.
  destruct x as [sx|sx| |sx mx ex]; try congruence;
    destruct y as [sy|sy| |sy my ey]; try congruence;
    try destruct sx; try destruct sy; simpl; cmp_cases; simpl;
    split; intros; try discriminate; try reflexivity; try lia.
Qed.

Lemma SFeqb_refl (x : spec_float) : x <> S754_nan -> SFeqb x x = true.
Proof.
  intros Hx. unfold SFeqb.
  destruct x as [sx|sx| |sx mx ex]; try congruence;
    try destruct sx; simpl; try reflexivity;
    rewrite Z.compare_refl;
    change (PosDef.Pos.compare_cont Eq mx mx) with (Pos.compare mx mx);
    rewrite Pos.compare_refl; reflexivity.
Qed.

(** [is_nan] tells the NaN of the specification. *)
Lemma number_iff (x : float) : is_nan x = false <-> Prim2SF x <> S754_nan.
Proof.
  unfold is_nan. rewrite eqb_spec. split.
  - intros H E. rewrite E in H. discriminate.
  - intros H. rewrite SFeqb_refl by assumption. reflexivity.
Qed.

Lemma ltb_key (x y : float) :
  is_nan x = false -> is_nan y = false ->
  ((x <? y)%float = true <-> lt3 (fkey x) (fkey y)).
Proof.
  intros Hx Hy. rewrite ltb_spec.
  apply SFltb_key; apply number_iff; assumption.
Qed.

Lemma leb_key (x y : float) :
  is_nan x = false -> is_nan y = false ->
  ((x <=? y)%float = true <-> le3 (fkey x) (fkey y)).
Proof.
  intros Hx Hy. rewrite leb_spec.
  apply SFleb_key; apply number_iff; assumption.
Qed.

(** A comparison that holds is between numbers. *)
Lemma ltb_numbers (x y : float) :
  (x <? y)%float = true -> is_nan x = false /\ is_nan y = false.
Proof.
  rewrite ltb_spec. unfold SFltb. intros H.
  split; apply number_iff; intros E; rewrite E in H;
    [ | destruct (Prim2SF x) ]; discriminate.
Qed.

Lemma ltb_asym (x y : float) :
  (x <? y)%float = true -> (y <? x)%float = false.
Proof.
  intros H. destruct (ltb_numbers _ _ H) as [Hx Hy].
  apply (ltb_key x y Hx Hy) in H.
  destruct (y <? x)%float eqn:E; [ | reflexivity ].
  apply (ltb_key y x Hy Hx) in E. exfalso. by_keys.
Qed.

Lemma leb_refl (x : float) : is_nan x = false -> (x <=? x)%float = true.
Proof.
  intros Hx. apply (leb_key x x Hx Hx). by_keys.
Qed.

Lemma not_leb_ltb (x y : float) :
  is_nan x = false -> is_nan y = false ->
  (x <=? y)%float = false -> (y <? x)%float = true.
Proof.
  intros Hx Hy H. apply (ltb_key y x Hy Hx).
  assert (N : ~ le3 (fkey x) (fkey y)).
  { intros L. apply (leb_key x y Hx Hy) in L. congruence. }
  by_keys.
Qed.

Lemma ltb_leb (x y : float) :
  (x <? y)%float = true -> (x <=? y)%float = true.
Proof.
  intros H. destruct (ltb_numbers _ _ H) as [Hx Hy].
  apply (ltb_key x y Hx Hy) in H. apply (leb_key x y Hx Hy). by_keys.
Qed.

Lemma leb_trans (x y z : float) :
  is_nan x = false -> is_nan y = false -> is_nan z = false ->
  (x <=? y)%float = true -> (y <=? z)%float = true ->
  (x <=? z)%float = true.
Proof.
  intros Hx Hy Hz H1 H2.
  apply (leb_key x y Hx Hy) in H1. apply (leb_key y z Hy Hz) in H2.
  apply (leb_key x z Hx Hz). by_keys.
Qed.

Lemma ltb_leb_trans (x y z : float) :
  is_nan z = false ->
  (x <? y)%float = true -> (y <=? z)%float = true ->
  (x <? z)%float = true.
Proof.
  intros Hz H1 H2. destruct (ltb_numbers _ _ H1) as [Hx Hy].
  apply (ltb_key x y Hx Hy) in H1. apply (leb_key y z Hy Hz) in H2.
  apply (ltb_key x z Hx Hz). by_keys.
Qed.

End FloatOrderFacts.

(* ================================================================= *)
(** ** [np.argmin] finds the first minimum *)

Module NumpyFacts.

Import FloatOrder FloatOrderFacts Numpy.

Lemma argmin_scan_bound (l : list float) :
  forall mp min_ind i,
    min_ind < i -> argmin_scan mp min_ind i l < i + List.length l.
Proof.
  induction l as [|v l IH]; intros mp min_ind i Hlt; simpl.
  - lia.
  - destruct (negb (mp <=? v)%float).
    + destruct (is_nan v); [lia|].
      specialize (IH v i (S i)). lia.
    + specialize (IH mp min_ind (S i)). lia.
Qed.

Lemma argmin_bound (l : list float) :
  l <> [] -> exists k, argmin l = Ok k /\ k < List.length l.
Proof.
  destruct l as [|v l]; [congruence|]. intros _. simpl.
  eexists. split; [reflexivity|].
  destruct (is_nan v); [lia|].
  pose proof (argmin_scan_bound l v 0 1). lia.
Qed.

Lemma nth_error_snoc {A} (pre : list A) (v : A) (j : nat) (w : A) :
  nth_error (pre ++ [v]) j = Some w ->
  nth_error pre j = Some w \/ (j = List.length pre /\ w = v).
Proof.
  intros H. destruct (Nat.lt_ge_cases j (List.length pre)) as [Hj|Hj].
  - left. rewrite nth_error_app1 in H by assumption. exact H.
  - right. rewrite nth_error_app2 in H by assumption.
    destruct (j - List.length pre) as [|d] eqn:E; simpl in H.
    + split; [lia|congruence].
    + destruct d; discriminate.
Qed.

Lemma argmin_scan_first_min (l : list float) :
  forall pre mp min_ind,
    numbers (pre ++ l) ->
    nth_error pre min_ind = Some mp ->
    (forall j v, nth_error pre j = Some v -> (mp <=? v)%float = true) ->
    (forall j v, j < min_ind -> nth_error pre j = Some v ->
                 (mp <? v)%float = true) ->
    exists m,
      nth_error (pre ++ l)
                (argmin_scan mp min_ind (List.length pre) l) = Some m
      /\ (forall j v, nth_error (pre ++ l) j = Some v ->
                      (m <=? v)%float = true)
      /\ (forall j v, j < argmin_scan mp min_ind (List.length pre) l ->
                      nth_error (pre ++ l) j = Some v ->
                      (m <? v)%float = true).
Proof.
  induction l as [|v l IH]; intros pre mp min_ind Hnum Hmp Hle Hlt.
  - simpl. rewrite app_nil_r. exists mp. auto.
  - assert (Hv : is_nan v = false).
    { unfold numbers in Hnum. rewrite Forall_forall in Hnum.
      apply Hnum. apply in_or_app. right. left. reflexivity. }
    assert (Hm : is_nan mp = false).
    { unfold numbers in Hnum. rewrite Forall_forall in Hnum.
      apply Hnum. apply in_or_app. left.
      eapply nth_error_In. exact Hmp. }
    assert (Hpre : forall j w, nth_error pre j = Some w -> is_nan w = false).
    { intros j w Hj. unfold numbers in Hnum. rewrite Forall_forall in Hnum.
      apply Hnum. apply in_or_app. left. eapply nth_error_In. exact Hj. }
    assert (Hlen : List.length (pre ++ [v]) = S (List.length pre)).
    { rewrite length_app. simpl. lia. }
    assert (Happ : (pre ++ [v]) ++ l = pre ++ v :: l).
    { rewrite <- app_assoc. reflexivity. }
    simpl. destruct (mp <=? v)%float eqn:E; simpl.
    + specialize (IH (pre ++ [v]) mp min_ind).
      rewrite Hlen, Happ in IH. apply IH; clear IH.
      * exact Hnum.
      * rewrite nth_error_app1; [exact Hmp|].
        apply nth_error_Some. congruence.
      * intros j w Hj. apply nth_error_snoc in Hj.
        destruct Hj as [Hj|[_ ->]]; [eapply Hle; exact Hj|exact E].
      * intros j w Hjlt Hj. apply nth_error_snoc in Hj.
        destruct Hj as [Hj|[-> _]]; [eapply Hlt; eassumption|].
        assert (min_ind < List.length pre)
          by (apply nth_error_Some; congruence).
        lia.
    + rewrite Hv.
      assert (Hvm : (v <? mp)%float = true)
        by (apply not_leb_ltb; assumption).
      specialize (IH (pre ++ [v]) v (List.length pre)).
      rewrite Hlen, Happ in IH. apply IH; clear IH.
      * exact Hnum.
      * rewrite nth_error_app2 by lia. rewrite Nat.sub_diag. reflexivity.
      * intros j w Hj. apply nth_error_snoc in Hj.
        destruct Hj as [Hj|[_ ->]].
        -- apply ltb_leb. apply ltb_leb_trans with mp.
           ++ eapply Hpre; exact Hj.
           ++ exact Hvm.
           ++ eapply Hle; exact Hj.
        -- apply leb_refl. exact Hv.
      * intros j w Hjlt Hj. apply nth_error_snoc in Hj.
        destruct Hj as [Hj|[-> _]]; [|lia].
        apply ltb_leb_trans with mp.
        -- eapply Hpre; exact Hj.
        -- exact Hvm.
        -- eapply Hle; exact Hj.
Qed.

Lemma argmin_first_min (l : list float) (k : nat) :
  numbers l ->
  argmin l = Ok k ->
  exists m,
    nth_error l k = Some m
    /\ (forall j v, nth_error l j = Some v -> (m <=? v)%float = true)
    /\ (forall j v, j < k -> nth_error l j = Some v ->
                    (m <? v)%float = true).
Proof.
  destruct l as [|v l]; simpl; [discriminate|].
  intros Hnum Hk. injection Hk as <-.
  assert (Hv : is_nan v = false) by (inversion Hnum; assumption).
  rewrite Hv.
  apply (argmin_scan_first_min l [v] v 0 Hnum).
  - reflexivity.
  - intros [|[|j]] w Hj; simpl in Hj; try discriminate.
    injection Hj as <-. apply leb_refl. exact Hv.
  - intros j w Hj. lia.
Qed.

End NumpyFacts.

(* ================================================================= *)
(** ** Sequencing computations that may raise *)

Module PyFacts.

Lemma mapM_map {A B} (f : A -> res B) (g : A -> B) (l : list A) :
  (forall a, In a l -> f a = Ok (g a)) ->
  Py.mapM f l = Ok (map g l).
Proof.
  induction l as [|a l IH]; intros H; simpl.
  - reflexivity.
  - rewrite (H a) by (left; reflexivity). simpl.
    rewrite IH by (intros b Hb; apply H; right; exact Hb).
    reflexivity.
Qed.

Lemma index_from {A} (suf : list A) :
  forall pre : list A,
    Py.mapM (fun i => match nth_error (pre ++ suf) i with
                      | Some a => Ok a
                      | None => Raise RuntimeError
                      end)
            (seq (List.length pre) (List.length suf))
    = Ok suf.
Proof.
  induction suf as [|a suf IH]; intros pre; simpl.
  - reflexivity.
  - rewrite nth_error_app2 by lia. rewrite Nat.sub_diag. simpl.
    specialize (IH (pre ++ [a])).
    rewrite length_app, <- app_assoc in IH. simpl in IH.
    rewrite Nat.add_1_r in IH. rewrite IH. reflexivity.
Qed.

(** Reading exactly as many entries as the vector has gives the vector. *)
Lemma index_range_all {A} (v : list A) (n : nat) :
  List.length v = n -> Py.index_range v n = Ok v.
Proof.
  intros <-. exact (index_from v []).
Qed.

Lemma enumerate_bound {A} (l : list A) (i : nat) (a : A) :
  In (i, a) (OptimizationResult.enumerate l) -> i < List.length l.
Proof.
  intros H. apply in_combine_l in H. apply in_seq in H. lia.
Qed.

Lemma enumerate_nth {A} (l : list A) (i : nat) (a : A) :
  nth_error l i = Some a ->
  nth_error (OptimizationResult.enumerate l) i = Some (i, a).
Proof.
  unfold OptimizationResult.enumerate.
  assert (G : forall k, nth_error l i = Some a ->
                        nth_error (combine (seq k (List.length l)) l) i
                        = Some (k + i, a)).
  { revert i. induction l as [|b l IH]; intros [|i] k H;
      simpl in *; try discriminate.
    - injection H as ->. rewrite Nat.add_0_r. reflexivity.
    - rewrite (IH i (S k) H). f_equal. f_equal. lia. }
  exact (G 0).
Qed.

End PyFacts.

(* ================================================================= *)
(** ** The trial loop and what follows it *)

Module SolverFacts.
Section WithCasadi.
Context {cd : Casadi}.

Import PyFacts.

Lemma trial_spec (Inv : NlpSolver -> Prop) (p : OptimizationProblem.t cd)
      (st : Solver.trial_state) :
  engine_contract
    Inv (List.length (OptimizationProblem.decision_variables p)) ->
  Inv (Solver.instance st) ->
  exists (r : SolverOutput) (ok : bool) e',
    Solver.trial p st
    = Ok (Solver.mkTrial
            e' (if ok then out_x r else out_lam_x r)
            (if ok then Solver.successful_trials st ++ [r]
             else Solver.successful_trials st)
            (if ok then Solver.failed_trials st
             else Solver.failed_trials st ++ [r])
            (Solver.log st
             ++ [Solver.EvInvoke (args_of p (Solver.initial_guess st))
                                 r ok]))
    /\ Inv e'
    /\ List.length (out_x r)
       = List.length (OptimizationProblem.decision_variables p)
    /\ List.length (out_lam_x r)
       = List.length (OptimizationProblem.decision_variables p).
Proof.
  intros Hc Hi. unfold Solver.trial.
  change (mkEngineArgs _ _ _ _ _)
    with (args_of p (Solver.initial_guess st)).
  destruct (Hc (Solver.instance st)
               (args_of p (Solver.initial_guess st)) Hi)
    as (Hi' & Hx & Hl).
  destruct (solver_call (Solver.instance st)
                        (args_of p (Solver.initial_guess st)))
    as [e' r]; simpl in Hi', Hx, Hl.
  exists r, (success (solver_stats e')), e'.
  split; [|auto].
  destruct (success (solver_stats e')); simpl.
  - rewrite (index_range_all _ _ Hx). reflexivity.
  - rewrite (index_range_all _ _ Hl). reflexivity.
Qed.

Lemma trial_loop_spec (Inv : NlpSolver -> Prop)
      (p : OptimizationProblem.t cd) (count : nat) :
  engine_contract
    Inv (List.length (OptimizationProblem.decision_variables p)) ->
  forall st,
    Inv (Solver.instance st) ->
    exists st' evs,
      Solver.trial_loop p count st = Ok st'
      /\ Solver.log st' = Solver.log st ++ evs
      /\ List.length evs = count
      /\ chained p (List.length (OptimizationProblem.decision_variables p))
                 (Solver.initial_guess st) evs
      /\ Solver.successful_trials st'
         = Solver.successful_trials st ++ successes evs.
Proof.
  intros Hc. induction count as [|count IH]; intros st Hi; simpl.
  - exists st, (@nil Solver.event). rewrite !app_nil_r. simpl. auto.
  - destruct (trial_spec Inv p st Hc Hi) as (r & ok & e' & E & Hi' & Hx & Hl).
    rewrite E. simpl.
    match goal with
    | |- context [Solver.trial_loop p count ?s] =>
        destruct (IH s Hi') as (st' & evs & L & Hlog & Hlen & Hch & Hs)
    end.
    simpl in Hlog, Hch, Hs.
    exists st', (Solver.EvInvoke (args_of p (Solver.initial_guess st)) r ok
                 :: evs).
    split; [exact L|]. split.
    { rewrite Hlog, <- app_assoc. reflexivity. }
    split; [simpl; congruence|]. split.
    { simpl. auto. }
    rewrite Hs. destruct ok; simpl; [rewrite <- app_assoc|]; reflexivity.
Qed.

(** The solved flag plays no part in what an invocation is given. *)
Lemma chained_set_solved (p : OptimizationProblem.t cd) (b : bool)
      (n : nat) (evs : list Solver.event) :
  forall g,
    chained (OptimizationProblem.set_solved p b) n g evs ->
    chained p n g evs.
Proof.
  induction evs as [|[v|a r ok] evs IH]; intros g H; simpl in *; auto.
  destruct H as (Ha & Hx & Hl & H). auto.
Qed.

Lemma start_run (Inv : NlpSolver -> Prop) (random : nat -> float)
      (self : Solver.t cd) (p : OptimizationProblem.t cd) (trials : Z)
      (guess : option (list float)) :
  ready Inv self p ->
  exists st evs,
    Solver.start random self trials guess
    = Solver.conclude self (OptimizationProblem.set_solved p false) st
    /\ Solver.log st = Solver.EvSolved false :: evs
    /\ List.length evs = Z.to_nat trials
    /\ chained p (List.length (OptimizationProblem.decision_variables p))
               (first_guess random p guess) evs
    /\ Solver.successful_trials st = successes evs.
Proof.
  intros (Hp & Hn & Hi & Hc).
  unfold Solver.start, Solver._ipopt_start. rewrite Hn, Hp. simpl.
  set (p0 := OptimizationProblem.set_solved p false).
  set (st0 := Solver.mkTrial _ _ _ _ _).
  destruct (trial_loop_spec Inv p0 (Z.to_nat trials) Hc st0 Hi)
    as (st & evs & L & Hlog & Hlen & Hch & Hs).
  exists st, evs. rewrite L. simpl.
  split; [reflexivity|]. split; [exact Hlog|]. split; [exact Hlen|].
  split; [apply (chained_set_solved p false); exact Hch|exact Hs].
Qed.

Lemma save_unsolved (self : Solver.t cd) (p : OptimizationProblem.t cd) :
  Solver.problem self = Some p ->
  OptimizationProblem.solved p = false ->
  Solver._save_optimal_values self = Ok self.
Proof.
  intros Hp Hs. unfold Solver._save_optimal_values.
  rewrite Hp, Hs. reflexivity.
Qed.

Lemma evaluate_at_result_ok (self : Solver.t cd)
      (p : OptimizationProblem.t cd) (best : SolverOutput) (e : SX) :
  Solver.solver_result self = Some best ->
  List.length (out_x best)
  = List.length (OptimizationProblem.decision_variables p) ->
  Solver.evaluate_at_result self p e = Ok (value_at p (out_x best) e).
Proof.
  intros Hr Hx. unfold Solver.evaluate_at_result, Solver.result_x.
  rewrite Hr. simpl. rewrite (index_range_all _ _ Hx). reflexivity.
Qed.

Lemma save_solved (self : Solver.t cd) (p : OptimizationProblem.t cd)
      (best : SolverOutput) :
  Solver.problem self = Some p ->
  OptimizationProblem.solved p = true ->
  Solver.solver_result self = Some best ->
  List.length (out_x best)
  = List.length (OptimizationProblem.decision_variables p) ->
  Solver._save_optimal_values self
  = Ok (Solver.set_problem
          self
          (OptimizationProblem.set_result p (Some (saved p (out_x best))))).
Proof.
  intros Hp Hs Hr Hx. unfold Solver._save_optimal_values.
  rewrite Hp, Hs.
  rewrite (mapM_map _ (fun c =>
             let v := value_at p (out_x best)
                               (OptimizationComponent.variable c) in
             ResultComponent.mk
               (OptimizationComponent.name c)
               (OptimizationComponent.group c) (Some v)
               (abs (OptimizationComponent.lower_bound c - v)
                <? Solver.activation_epsilon)%float
               (abs (OptimizationComponent.upper_bound c - v)
                <? Solver.activation_epsilon)%float)).
  2:{ intros c _. unfold Solver.constraint_result.
      rewrite (evaluate_at_result_ok self p best _ Hr Hx). reflexivity. }
  simpl.
  rewrite (mapM_map _ (fun '(count, v) =>
             ResultComponent.mk
               (DecisionVariable.name v) (DecisionVariable.group v)
               (Some (nth count (out_x best) 0%float)) false false)).
  2:{ intros [count v] Hin. apply enumerate_bound in Hin.
      unfold Solver.decision_variable_result, Solver.result_x.
      rewrite Hr. simpl.
      rewrite (nth_error_nth' (out_x best) 0%float) by lia.
      reflexivity. }
  simpl.
  rewrite (mapM_map _ (fun o =>
             ResultComponent.mk
               (OptimizationComponent.name o)
               (OptimizationComponent.group o)
               (Some (value_at p (out_x best)
                               (OptimizationComponent.variable o)))
               false false)).
  2:{ intros o _. unfold Solver.objective_result.
      rewrite (evaluate_at_result_ok self p best _ Hr Hx). reflexivity. }
  reflexivity.
Qed.

Lemma chained_successes (p : OptimizationProblem.t cd) (n : nat)
      (evs : list Solver.event) :
  forall g r,
    chained p n g evs -> In r (successes evs) -> List.length (out_x r) = n.
Proof.
  induction evs as [|[v|a r0 ok] evs IH]; intros g r H Hin;
    simpl in *; try contradiction.
  destruct H as (_ & Hx & _ & H).
  destruct ok; [destruct Hin as [<-|Hin]|]; eauto.
Qed.

(** What a run of [start] comes to, for an engine that keeps its
    contract: every trial is run, and either none succeeded and the solver
    leaves the result alone, or the first minimum of the successful
    objective values is stored and its optimal values saved. *)
Lemma start_outcome (Inv : NlpSolver -> Prop) (random : nat -> float)
      (self : Solver.t cd) (p : OptimizationProblem.t cd) (trials : Z)
      (guess : option (list float)) :
  ready Inv self p ->
  exists evs inst,
    List.length evs = Z.to_nat trials
    /\ chained p (List.length (OptimizationProblem.decision_variables p))
               (first_guess random p guess) evs
    /\ ((successes evs = []
         /\ Solver.start random self trials guess
            = Ok (Solver.mk
                    (Some (OptimizationProblem.set_solved p false))
                    (Solver.name self) (Some inst)
                    (Solver.solver_result self),
                  Solver.EvSolved false :: evs ++ [Solver.EvSolved false]))
        \/ (exists k best,
              Numpy.argmin (map out_f (successes evs)) = Ok k
              /\ nth_error (successes evs) k = Some best
              /\ Solver.start random self trials guess
                 = Ok (Solver.mk
                         (Some (OptimizationProblem.set_result
                                  (OptimizationProblem.set_solved p true)
                                  (Some (saved p (out_x best)))))
                         (Solver.name self) (Some inst) (Some best),
                       Solver.EvSolved false
                         :: evs ++ [Solver.EvSolved true]))).
Proof.
  intros Hready.
  destruct (start_run Inv random self p trials guess Hready)
    as (st & evs & E & Hlog & Hlen & Hch & Hs).
  exists evs, (Solver.instance st).
  split; [exact Hlen|]. split; [exact Hch|].
  rewrite E. unfold Solver.conclude. rewrite Hs, Hlog.
  destruct (successes evs) as [|r0 rest] eqn:Hsucc.
  - left. split; [reflexivity|].
    rewrite (save_unsolved _ (OptimizationProblem.set_solved
                                (OptimizationProblem.set_solved p false)
                                false))
      by reflexivity.
    reflexivity.
  - right.
    destruct (NumpyFacts.argmin_bound (map out_f (r0 :: rest)))
      as (k & Hk & Hlt); [discriminate|].
    rewrite length_map in Hlt.
    destruct (nth_error (r0 :: rest) k) as [best|] eqn:Hbest;
      [|apply nth_error_None in Hbest; lia].
    exists k, best. split; [exact Hk|]. split; [exact Hbest|].
    rewrite Hk. simpl Py.bind. rewrite Hbest.
    assert (Hx : List.length (out_x best)
                 = List.length (OptimizationProblem.decision_variables p)).
    { apply (chained_successes p _ evs _ best Hch).
      rewrite Hsucc. eapply nth_error_In. exact Hbest. }
    rewrite (save_solved _ (OptimizationProblem.set_solved
                              (OptimizationProblem.set_solved p false)
                              true) best)
      by (reflexivity || exact Hx).
    reflexivity.
Qed.

(** One pass through the loop body is one call of the engine. *)
Lemma trial_threaded (p : OptimizationProblem.t cd)
      (st st' : Solver.trial_state) :
  Solver.trial p st = Ok st' ->
  exists a,
    Solver.log st'
    = Solver.log st
      ++ [Solver.EvInvoke
            a (snd (solver_call (Solver.instance st) a))
            (success (solver_stats
                        (fst (solver_call (Solver.instance st) a))))]
    /\ Solver.instance st' = fst (solver_call (Solver.instance st) a).
Proof.
  unfold Solver.trial.
  set (a := mkEngineArgs _ _ _ _ _).
  destruct (solver_call (Solver.instance st) a) as [e' r] eqn:Ecall.
  intros H. exists a. rewrite Ecall. cbn [fst snd].
  destruct (success (solver_stats e')); cbn [negb] in H.
  - destruct (Py.index_range (out_x r) _); [|discriminate].
    cbn [Py.bind] in H. injection H as <-. split; reflexivity.
  - destruct (Py.index_range (out_lam_x r) _); [|discriminate].
    cbn [Py.bind] in H. injection H as <-. split; reflexivity.
Qed.

Lemma trial_loop_threaded (p : OptimizationProblem.t cd) (count : nat) :
  forall st st',
    Solver.trial_loop p count st = Ok st' ->
    exists evs,
      Solver.log st' = Solver.log st ++ evs
      /\ threaded (Solver.instance st) evs (Solver.instance st').
Proof.
  induction count as [|count IH]; intros st st' H; simpl in H.
  - injection H as <-. exists (@nil Solver.event).
    rewrite app_nil_r. split; reflexivity.
  - destruct (Solver.trial p st) as [st1|] eqn:E; [|discriminate].
    cbn [Py.bind] in H.
    destruct (trial_threaded p st st1 E) as (a & Hlog & Hinst).
    destruct (IH st1 st' H) as (evs & Hlog' & Hth).
    eexists (_ :: evs). split.
    + rewrite Hlog', Hlog, <- app_assoc. reflexivity.
    + simpl. split; [reflexivity|]. split; [reflexivity|].
      rewrite <- Hinst. exact Hth.
Qed.

(** Whatever the engine does: a run that returns has logged the first
    write of the flag, calls of the engine threaded from the instance
    [nlpsol] built to the one the solver keeps, and the last write of the
    flag; the problem it hands back has its components, and a result of
    its own exactly when it is solved. *)
Lemma start_returned (random : nat -> float) (self self' : Solver.t cd)
      (p : OptimizationProblem.t cd) (trials : Z)
      (guess : option (list float)) (log : list Solver.event) :
  Solver.problem self = Some p ->
  Solver.name self = "ipopt"%string ->
  Solver.start random self trials guess = Ok (self', log) ->
  exists evs b inst p',
    log = Solver.EvSolved false :: evs ++ [Solver.EvSolved b]
    /\ threaded (nlpsol (OptimizationProblem.solver_name p)
                        (Solver.nlp_of p)
                        (OptimizationProblem.solver_options p))
                evs inst
    /\ Solver.solver_instance self' = Some inst
    /\ Solver.problem self' = Some p'
    /\ OptimizationProblem.solved p' = b
    /\ OptimizationProblem.constraints p' = OptimizationProblem.constraints p
    /\ OptimizationProblem.decision_variables p'
       = OptimizationProblem.decision_variables p
    /\ OptimizationProblem.objectives p' = OptimizationProblem.objectives p
    /\ OptimizationProblem.solver_name p'
       = OptimizationProblem.solver_name p
    /\ (b = false ->
        OptimizationProblem.result p' = OptimizationProblem.result p)
    /\ (b = true -> exists r, OptimizationProblem.result p' = Some r).
Proof.
  intros Hp Hn. unfold Solver.start, Solver._ipopt_start.
  rewrite Hn, Hp. cbn [String.eqb Ascii.eqb Bool.eqb].
  set (p0 := OptimizationProblem.set_solved p false).
  set (st0 := Solver.mkTrial _ _ _ _ _).
  destruct (Solver.trial_loop p0 (Z.to_nat trials) st0) as [st|] eqn:L;
    [|discriminate].
  cbn [Py.bind].
  destruct (trial_loop_threaded p0 (Z.to_nat trials) st0 st L)
    as (evs & Hlog & Hth).
  subst st0. cbn [Solver.log Solver.instance] in Hlog, Hth.
  unfold Solver.conclude. rewrite Hlog.
  destruct (Solver.successful_trials st) as [|r0 rest].
  - rewrite (save_unsolved _ (OptimizationProblem.set_solved p0 false))
      by reflexivity.
    cbn [Py.bind]. intros H. injection H as <- <-.
    exists evs, false, (Solver.instance st),
      (OptimizationProblem.set_solved p0 false).
    repeat split; try reflexivity; try exact Hth. discriminate.
  - destruct (Numpy.argmin (map out_f (r0 :: rest))) as [k|];
      [|discriminate].
    cbn [Py.bind].
    destruct (nth_error (r0 :: rest) k) as [best|]; [|discriminate].
    unfold Solver._save_optimal_values.
    cbn [Solver.problem OptimizationProblem.set_solved
         OptimizationProblem.solved].
    destruct (Py.mapM _ (OptimizationProblem.constraints _)) as [cs|];
      [|discriminate].
    cbn [Py.bind].
    destruct (Py.mapM _ (OptimizationResult.enumerate _)) as [ds|];
      [|discriminate].
    cbn [Py.bind].
    destruct (Py.mapM _ (OptimizationProblem.objectives _)) as [os|];
      [|discriminate].
    cbn [Py.bind]. intros H. injection H as <- <-.
    exists evs, true, (Solver.instance st). eexists.
    split; [reflexivity|]. split; [exact Hth|].
    split; [reflexivity|]. split; [reflexivity|].
    repeat split; try reflexivity; try discriminate.
    intros _. eexists. reflexivity.
Qed.

End WithCasadi.
End SolverFacts.

(* ================================================================= *)
(** ** Reading a log of invocations *)

Module LogFacts.
Section WithCasadi.
Context {cd : Casadi}.

Variable p : OptimizationProblem.t cd.
Variable n : nat.

Lemma chained_head (evs : list Solver.event) (g : list float)
      (a : EngineArgs) (r : SolverOutput) (ok : bool) :
  chained p n g evs ->
  nth_error evs 0 = Some (Solver.EvInvoke a r ok) ->
  x0 a = g.
Proof.
  destruct evs as [|ev evs]; simpl; [discriminate|].
  intros H E. injection E as ->. destruct H as (-> & _). reflexivity.
Qed.

Lemma chained_next (evs : list Solver.event) :
  forall (g : list float) (i : nat)
         (a : EngineArgs) (r : SolverOutput) (ok : bool)
         (a' : EngineArgs) (r' : SolverOutput) (ok' : bool),
    chained p n g evs ->
    nth_error evs i = Some (Solver.EvInvoke a r ok) ->
    nth_error evs (S i) = Some (Solver.EvInvoke a' r' ok') ->
    x0 a' = (if ok then out_x r else out_lam_x r)
    /\ List.length (out_x r) = n /\ List.length (out_lam_x r) = n.
Proof.
  induction evs as [|ev evs IH]; intros g i a r ok a' r' ok' H E E'.
  - destruct i; discriminate.
  - destruct ev as [v|a0 r0 ok0]; simpl in H; [contradiction|].
    destruct H as (Ha & Hx & Hl & H). destruct i as [|i]; simpl in E, E'.
    + injection E as <- <- <-.
      split; [|auto]. eapply chained_head; eassumption.
    + eapply IH; eassumption.
Qed.

Lemma chained_invokes (evs : list Solver.event) :
  forall g : list float,
    chained p n g evs ->
    Forall (fun ev => exists a r ok, ev = Solver.EvInvoke a r ok) evs.
Proof.
  induction evs as [|[v|a r ok] evs IH]; intros g H; simpl in H.
  - constructor.
  - contradiction.
  - destruct H as (_ & _ & _ & H). constructor; eauto.
Qed.

Lemma chained_bounds (evs : list Solver.event) :
  forall (g : list float) (a : EngineArgs) (r : SolverOutput) (ok : bool),
    chained p n g evs ->
    In (Solver.EvInvoke a r ok) evs ->
    lbx a = OptimizationProblem.lower_bounds_decision_variables p
    /\ ubx a = OptimizationProblem.upper_bounds_decision_variables p
    /\ lbg a = OptimizationProblem.lower_bounds_constraints p
    /\ ubg a = OptimizationProblem.upper_bounds_constraints p.
Proof.
  induction evs as [|[v|a0 r0 ok0] evs IH]; intros g a r ok H Hin;
    simpl in H, Hin; try contradiction.
  destruct H as (Ha & _ & _ & H). destruct Hin as [E|Hin].
  - injection E as <- _ _. rewrite Ha. simpl. auto.
  - eapply IH; eassumption.
Qed.

End WithCasadi.
End LogFacts.

(* ================================================================= *)
(** ** The scripted engine keeps the engine contract *)

Module StubFacts.

Lemma contract (script : NlpDict Stub.expr -> list Stub.answer) (n : nat) :
  @engine_contract (Stub.casadi script)
                   (fun e => Stub.well_formed n e = true) n.
Proof.
  intros [rem lo d] a H. unfold Stub.well_formed in H. simpl in H.
  apply andb_prop in H. destruct H as [Hd Hrem].
  apply Nat.eqb_eq in Hd. subst d.
  destruct rem as [|ans rest]; simpl in *.
  - rewrite !repeat_length. unfold Stub.well_formed. simpl.
    rewrite Nat.eqb_refl. auto.
  - apply andb_prop in Hrem. destruct Hrem as [Hans Hrest].
    apply andb_prop in Hans. destruct Hans as [Hx Hl].
    apply Nat.eqb_eq in Hx. apply Nat.eqb_eq in Hl.
    unfold Stub.well_formed. simpl. rewrite Nat.eqb_refl. auto.
Qed.

(** A fresh solver on a problem whose scripted answers all have one entry
    per decision variable is ready to start. *)
Lemma ready_solver (script : NlpDict Stub.expr -> list Stub.answer)
      (p : OptimizationProblem.t (Stub.casadi script)) :
  Stub.well_formed
    (List.length (OptimizationProblem.decision_variables p))
    (Stub.mkEngine (script (Solver.nlp_of p)) false
                   (List.length (nlp_x (Solver.nlp_of p)))) = true ->
  @ready (Stub.casadi script)
         (fun e : Stub.engine =>
            Stub.well_formed
              (List.length (OptimizationProblem.decision_variables p))
              e = true)
         (Scenario.solver_on p) p.
Proof.
  intros H. split; [reflexivity|]. split; [reflexivity|].
  split; [exact H|]. apply contract.
Qed.

End StubFacts.

(* ================================================================= *)
(** ** The trial loop: count, warm start, bounds *)

Section TrialLoop.
Context {cd : Casadi}.

Variable Inv : NlpSolver -> Prop.
Variable random : nat -> float.
Variable self : Solver.t cd.
Variable p : OptimizationProblem.t cd.

(** C4. For every call [start(trials, initial_guess)] with [trials >= 1]
    on a ready solver, the run returns, and its log is: the write
    [solved = False], then exactly [trials] engine invocations and nothing
    else, whatever they reported, then the final write of the flag.  The
    loop never stops early.  The invocations are calls of the engine, in
    sequence: the first on the instance [nlpsol] built for the problem,
    each later one on the instance the call before it left behind; each
    logged answer is what that call returned, each logged outcome the
    success entry read after it; and the instance the solver keeps is the
    one the last call left behind. *)
Theorem start_runs_every_trial (trials : Z) (guess : option (list float)) :
  ready Inv self p ->
  (1 <= trials)%Z ->
  exists self' evs b,
    Solver.start random self trials guess
    = Ok (self', Solver.EvSolved false :: evs ++ [Solver.EvSolved b])
    /\ Z.of_nat (List.length evs) = trials
    /\ Forall (fun ev => exists a r ok, ev = Solver.EvInvoke a r ok) evs
    /\ exists inst,
         threaded (nlpsol (OptimizationProblem.solver_name p)
                          (Solver.nlp_of p)
                          (OptimizationProblem.solver_options p))
                  evs inst
         /\ Solver.solver_instance self' = Some inst.
Proof.
  intros Hready Htrials.
  destruct (SolverFacts.start_outcome Inv random self p trials guess Hready)
    as (evs & inst & Hlen & Hch & Hout).
  assert (Hn : Z.of_nat (List.length evs) = trials) by lia.
  pose proof (LogFacts.chained_invokes p _ evs _ Hch) as Hinv.
  destruct Hready as (Hp & Hname & _).
  assert (Hth : forall self' b,
             Solver.start random self trials guess
             = Ok (self',
                   Solver.EvSolved false :: evs ++ [Solver.EvSolved b]) ->
             exists inst',
               threaded (nlpsol (OptimizationProblem.solver_name p)
                                (Solver.nlp_of p)
                                (OptimizationProblem.solver_options p))
                        evs inst'
               /\ Solver.solver_instance self' = Some inst').
  { intros self' b E.
    destruct (SolverFacts.start_returned random self self' p trials guess
                                         _ Hp Hname E)
      as (evs' & b' & inst' & p' & Hlog & Hthr & Hinst & _).
    injection Hlog as Hlog. apply app_inj_tail in Hlog.
    destruct Hlog as [-> _]. exists inst'. split; assumption. }
  destruct Hout as [(_ & E)|(k & best & _ & _ & E)];
    pose proof (Hth _ _ E) as Hthr;
    rewrite E; eexists; exists evs; eexists;
    (split; [reflexivity|]); (split; [exact Hn|]);
    (split; [exact Hinv|exact Hthr]).
Qed.

(** C2. In the log of a run, every invocation after the first is given as
    initial guess the vector the invocation before it returned: the
    multipliers of the variable bounds ([lam_x], one entry per decision
    variable) if that one reported failure, the primal vector [x] if it
    reported success. *)
Theorem next_guess_follows_outcome (trials : Z)
        (guess : option (list float)) :
  ready Inv self p ->
  exists self' evs b,
    Solver.start random self trials guess
    = Ok (self', Solver.EvSolved false :: evs ++ [Solver.EvSolved b])
    /\ Z.to_nat trials = List.length evs
    /\ forall i a r ok a' r' ok',
         nth_error evs i = Some (Solver.EvInvoke a r ok) ->
         nth_error evs (S i) = Some (Solver.EvInvoke a' r' ok') ->
         (ok = false ->
          x0 a' = out_lam_x r
          /\ List.length (out_lam_x r)
             = List.length (OptimizationProblem.decision_variables p))
         /\ (ok = true -> x0 a' = out_x r).
Proof.
  intros Hready.
  destruct (SolverFacts.start_outcome Inv random self p trials guess Hready)
    as (evs & inst & Hlen & Hch & Hout).
  assert (Hnext : forall i a r ok a' r' ok',
             nth_error evs i = Some (Solver.EvInvoke a r ok) ->
             nth_error evs (S i) = Some (Solver.EvInvoke a' r' ok') ->
             (ok = false ->
              x0 a' = out_lam_x r
              /\ List.length (out_lam_x r)
                 = List.length (OptimizationProblem.decision_variables p))
             /\ (ok = true -> x0 a' = out_x r)).
  { intros i a r ok a' r' ok' E E'.
    destruct (LogFacts.chained_next p _ evs _ i a r ok a' r' ok' Hch E E')
      as (Hg & Hx & Hl).
    split; intros ->; auto. }
  destruct Hout as [(_ & E)|(k & best & _ & _ & E)];
    rewrite E; eexists; exists evs; eexists; split; eauto.
Qed.

(** C9. Every invocation of a run is given the declared bounds of the
    decision variables and of the constraints as they are, infinite
    entries included, and the run leaves the components of the problem
    as they were.  When no initial guess is supplied, the first
    invocation is given, for the k-th decision variable,
    [lo + random() * (hi - lo)] with [lo], [hi] the variable's bounds
    passed through [replace_inf]; [replace_inf] turns [inf] into 10^10,
    [-inf] into -10^10 and keeps every other value. *)
Theorem guess_sampled_bounds_untouched (trials : Z)
        (guess : option (list float)) :
  ready Inv self p ->
  exists self' evs b p',
    Solver.start random self trials guess
    = Ok (self', Solver.EvSolved false :: evs ++ [Solver.EvSolved b])
    /\ Z.to_nat trials = List.length evs
    /\ (forall a r ok,
           In (Solver.EvInvoke a r ok) evs ->
           lbx a = map (fun v => DecisionVariable.lower_bound v)
                       (OptimizationProblem.decision_variables p)
           /\ ubx a = map (fun v => DecisionVariable.upper_bound v)
                          (OptimizationProblem.decision_variables p)
           /\ lbg a = map (fun c => OptimizationComponent.lower_bound c)
                          (OptimizationProblem.constraints p)
           /\ ubg a = map (fun c => OptimizationComponent.upper_bound c)
                          (OptimizationProblem.constraints p))
    /\ Solver.problem self' = Some p'
    /\ OptimizationProblem.decision_variables p'
       = OptimizationProblem.decision_variables p
    /\ OptimizationProblem.constraints p'
       = OptimizationProblem.constraints p
    /\ (guess = None ->
        forall a r ok,
          nth_error evs 0 = Some (Solver.EvInvoke a r ok) ->
          List.length (x0 a)
          = List.length (OptimizationProblem.decision_variables p)
          /\ forall k var,
               nth_error (OptimizationProblem.decision_variables p) k
               = Some var ->
               let lo := Functions.replace_inf
                           (DecisionVariable.lower_bound var) 1e10%float in
               let hi := Functions.replace_inf
                           (DecisionVariable.upper_bound var) 1e10%float in
               nth_error (x0 a) k = Some (lo + random k * (hi - lo))%float)
    /\ Functions.replace_inf infinity 1e10%float = 1e10%float
    /\ Functions.replace_inf neg_infinity 1e10%float = (-1e10)%float
    /\ (forall v,
           (v =? infinity)%float = false ->
           (v =? neg_infinity)%float = false ->
           Functions.replace_inf v 1e10%float = v).
Proof.
  intros Hready.
  destruct (SolverFacts.start_outcome Inv random self p trials guess Hready)
    as (evs & inst & Hlen & Hch & Hout).
  assert (Hrest :
    (forall a r ok,
        In (Solver.EvInvoke a r ok) evs ->
        lbx a = map (fun v => DecisionVariable.lower_bound v)
                    (OptimizationProblem.decision_variables p)
        /\ ubx a = map (fun v => DecisionVariable.upper_bound v)
                       (OptimizationProblem.decision_variables p)
        /\ lbg a = map (fun c => OptimizationComponent.lower_bound c)
                       (OptimizationProblem.constraints p)
        /\ ubg a = map (fun c => OptimizationComponent.upper_bound c)
                       (OptimizationProblem.constraints p))
    /\ (guess = None ->
        forall a r ok,
          nth_error evs 0 = Some (Solver.EvInvoke a r ok) ->
          List.length (x0 a)
          = List.length (OptimizationProblem.decision_variables p)
          /\ forall k var,
               nth_error (OptimizationProblem.decision_variables p) k
               = Some var ->
               let lo := Functions.replace_inf
                           (DecisionVariable.lower_bound var) 1e10%float in
               let hi := Functions.replace_inf
                           (DecisionVariable.upper_bound var) 1e10%float in
               nth_error (x0 a) k = Some (lo + random k * (hi - lo))%float)
    /\ Functions.replace_inf infinity 1e10%float = 1e10%float
    /\ Functions.replace_inf neg_infinity 1e10%float = (-1e10)%float
    /\ (forall v,
           (v =? infinity)%float = false ->
           (v =? neg_infinity)%float = false ->
           Functions.replace_inf v 1e10%float = v)).
  { split; [|split; [|split; [|split]]].
    - intros a r ok Hin.
      exact (LogFacts.chained_bounds p _ evs _ a r ok Hch Hin).
    - intros -> a r ok E.
      rewrite (LogFacts.chained_head p _ evs _ a r ok Hch E). simpl.
      unfold Solver.synthesize_guess. split.
      + rewrite length_map. unfold OptimizationResult.enumerate.
        rewrite length_combine, length_seq. lia.
      + intros k var Hk. simpl.
        rewrite nth_error_map, (PyFacts.enumerate_nth _ _ _ Hk).
        reflexivity.
    - reflexivity.
    - reflexivity.
    - intros v H1 H2. unfold Functions.replace_inf.
      rewrite H1, H2. reflexivity. }
  destruct Hout as [(_ & E)|(k & best & _ & _ & E)];
    rewrite E; eexists; exists evs; do 2 eexists;
    (split; [reflexivity|]); (split; [symmetry; exact Hlen|]);
    (split; [apply Hrest|]); (split; [reflexivity|]);
    (split; [reflexivity|]); (split; [reflexivity|]); apply Hrest.
Qed.

End TrialLoop.

Lemma start_runs_every_trial_witness :
  @ready Scenario.fails_then_solves Scenario.one_entry
         (Scenario.solver_on Scenario.warm_problem) Scenario.warm_problem
  /\ (1 <= 2)%Z
  /\ (exists self' evs b,
        Solver.start Scenario.half (Scenario.solver_on Scenario.warm_problem)
                     2 (Some [1.5%float])
        = Ok (self', Solver.EvSolved false :: evs ++ [Solver.EvSolved b])
        /\ Z.of_nat (List.length evs) = 2%Z
        /\ Forall (fun ev => exists a r ok, ev = Solver.EvInvoke a r ok) evs
        /\ exists inst,
             @threaded Scenario.fails_then_solves
                       (nlpsol (OptimizationProblem.solver_name
                                  Scenario.warm_problem)
                               (Solver.nlp_of Scenario.warm_problem)
                               (OptimizationProblem.solver_options
                                  Scenario.warm_problem))
                       evs inst
             /\ Solver.solver_instance self' = Some inst)
  /\ match Solver.start Scenario.half
                        (Scenario.solver_on Scenario.warm_problem)
                        2 (Some [1.5%float]) with
     | Ok (self', _) =>
         List.length
           (Stub.remaining
              (nlpsol (OptimizationProblem.solver_name Scenario.warm_problem)
                      (Solver.nlp_of Scenario.warm_problem)
                      (OptimizationProblem.solver_options
                         Scenario.warm_problem)))
         = 2
         /\ option_map Stub.remaining (Solver.solver_instance self')
            = Some []
     | Raise _ => False
     end.
Proof.
  assert (H : @ready Scenario.fails_then_solves Scenario.one_entry
                     (Scenario.solver_on Scenario.warm_problem)
                     Scenario.warm_problem)
    by (apply StubFacts.ready_solver; reflexivity).
  split; [exact H|]. split; [lia|]. split.
  - apply (@start_runs_every_trial
             Scenario.fails_then_solves Scenario.one_entry Scenario.half
             (Scenario.solver_on Scenario.warm_problem) Scenario.warm_problem
             2 (Some [1.5%float]) H).
    lia.
  - vm_compute. split; reflexivity.
Defined.

(** The stub of the spec's warm-start test: trial 1 fails with the dual
    vector [7.25], and [7.25] is the guess of trial 2. *)
Lemma next_guess_follows_outcome_witness :
  @ready Scenario.fails_then_solves Scenario.one_entry
         (Scenario.solver_on Scenario.warm_problem) Scenario.warm_problem
  /\ (exists self' evs b,
       Solver.start Scenario.half (Scenario.solver_on Scenario.warm_problem)
                    2 (Some [1.5%float])
       = Ok (self', Solver.EvSolved false :: evs ++ [Solver.EvSolved b])
       /\ Z.to_nat 2 = List.length evs
       /\ forall i a r ok a' r' ok',
            nth_error evs i = Some (Solver.EvInvoke a r ok) ->
            nth_error evs (S i) = Some (Solver.EvInvoke a' r' ok') ->
            (ok = false ->
             x0 a' = out_lam_x r
             /\ List.length (out_lam_x r)
                = List.length (OptimizationProblem.decision_variables
                                 Scenario.warm_problem))
            /\ (ok = true -> x0 a' = out_x r))
  /\ match Solver.start Scenario.half
                        (Scenario.solver_on Scenario.warm_problem)
                        2 (Some [1.5%float]) with
     | Ok (_, [Solver.EvSolved false;
               Solver.EvInvoke a1 r1 ok1; Solver.EvInvoke a2 r2 ok2;
               Solver.EvSolved true]) =>
         x0 a1 = [1.5%float] /\ ok1 = false /\ out_lam_x r1 = [7.25%float]
         /\ x0 a2 = [7.25%float] /\ ok2 = true
     | _ => False
     end.
Proof.
  assert (H : @ready Scenario.fails_then_solves Scenario.one_entry
                     (Scenario.solver_on Scenario.warm_problem)
                     Scenario.warm_problem)
    by (apply StubFacts.ready_solver; reflexivity).
  split; [exact H|]. split.
  - exact (@next_guess_follows_outcome
             Scenario.fails_then_solves Scenario.one_entry Scenario.half
             (Scenario.solver_on Scenario.warm_problem) Scenario.warm_problem
             2 (Some [1.5%float]) H).
  - vm_compute. repeat split.
Defined.

Lemma guess_sampled_bounds_untouched_witness :
  @ready Scenario.solves_at_once Scenario.one_entry
         (Scenario.solver_on Scenario.free_problem) Scenario.free_problem
  /\ (exists self' evs b,
        Solver.start Scenario.half (Scenario.solver_on Scenario.free_problem)
                     1 None
        = Ok (self', Solver.EvSolved false :: evs ++ [Solver.EvSolved b])
        /\ List.length evs = 1)
  /\ match Solver.start Scenario.half
                        (Scenario.solver_on Scenario.free_problem) 1 None with
     | Ok (_, [Solver.EvSolved false; Solver.EvInvoke a _ _;
               Solver.EvSolved true]) =>
         x0 a = [(-1e10 + 0.5 * (1e10 - -1e10))%float]
         /\ lbx a = [neg_infinity] /\ ubx a = [infinity]
         /\ lbg a = [] /\ ubg a = []
     | _ => False
     end.
Proof.
  assert (H : @ready Scenario.solves_at_once Scenario.one_entry
                     (Scenario.solver_on Scenario.free_problem)
                     Scenario.free_problem)
    by (apply StubFacts.ready_solver; reflexivity).
  split; [exact H|]. split.
  - destruct (@guess_sampled_bounds_untouched
                Scenario.solves_at_once Scenario.one_entry Scenario.half
                (Scenario.solver_on Scenario.free_problem)
                Scenario.free_problem 1 None H)
      as (self' & evs & b & p' & E & Hlen & _).
    exists self', evs, b. split; [exact E|]. symmetry. exact Hlen.
  - vm_compute. repeat split.
Defined.

(* ================================================================= *)
(** ** Sums of result views *)

Module SumFacts.

Lemma finite_spec (f : float) :
  is_finite f = true ->
  (exists s, Prim2SF f = S754_zero s)
  \/ (exists s m e, Prim2SF f = S754_finite s m e).
Proof.
  unfold is_finite, is_infinity, is_nan. rewrite !eqb_spec, abs_spec.
  change (Prim2SF infinity) with (S754_infinity false).
  destruct (Prim2SF f) as [s|s| |s m e]; simpl; intros H;
    try discriminate; eauto.
  destruct s; discriminate.
Qed.

(** A finite number is at distance zero from itself. *)
Lemma self_distance (f : float) :
  is_finite f = true -> (abs (f - f) <=? 1e-9)%float = true.
Proof.
  intros H. rewrite leb_spec, abs_spec, sub_spec.
  destruct (finite_spec f H) as [[s ->]|(s & m & e & ->)].
  - destruct s; vm_compute; reflexivity.
  - unfold SF64sub, SFsub. rewrite Z.sub_diag. vm_compute. reflexivity.
Qed.

(** Adding floats to a number never raises. *)
Lemma sum_from_floats (l : list pyval) :
  (forall v, In v l -> exists f, v = PyFloat f) ->
  forall acc,
    (exists z, acc = PyInt z) \/ (exists f, acc = PyFloat f) ->
    exists v, Py.sum_from acc l = Ok v.
Proof.
  induction l as [|w l IH]; intros Hl acc Hacc; simpl.
  - eauto.
  - destruct (Hl w (or_introl eq_refl)) as [f ->].
    destruct Hacc as [[z ->]|[g ->]]; simpl;
      apply IH; eauto; intros v Hv; apply Hl; right; exact Hv.
Qed.

(** The list view of a category whose values are all set holds floats. *)
Lemma extract_floats (group : option string)
      (category : list ResultComponent.t) :
  Forall (fun rc => exists f, ResultComponent.optimal_value rc = Some f)
         category ->
  exists l,
    OptimizationResult._extract_optimal_values false group category
    = OptimizationResult.AsList l
    /\ forall v, In v l -> exists f, v = PyFloat f.
Proof.
  intros H. rewrite Forall_forall in H.
  unfold OptimizationResult._extract_optimal_values.
  destruct group as [g|]; simpl; eexists; (split; [reflexivity|]);
    intros v Hv; apply in_map_iff in Hv; destruct Hv as (rc & <- & Hrc).
  - apply filter_In in Hrc. destruct Hrc as [Hrc _].
    destruct (H rc Hrc) as [f Hf].
    exists f. unfold OptimizationResult.value_of. rewrite Hf. reflexivity.
  - destruct (H rc Hrc) as [f Hf].
    exists f. unfold OptimizationResult.value_of. rewrite Hf. reflexivity.
Qed.

End SumFacts.

(* ================================================================= *)
(** ** What a run leaves behind *)

Section Outcome.
Context {cd : Casadi}.

Variable Inv : NlpSolver -> Prop.
Variable random : nat -> float.
Variable self : Solver.t cd.
Variable p : OptimizationProblem.t cd.

(** C3. When at least one trial of a run succeeded (and no successful
    trial reported NaN as its objective value), the solver result kept
    as the solution is a successful trial whose objective value is at
    most that of every successful trial and strictly below that of every
    successful trial before it: the first minimum in trial order.  The
    problem is marked solved and its result holds the values saved at
    that trial's primal vector. *)
Theorem best_successful_trial_selected (trials : Z)
        (guess : option (list float)) :
  ready Inv self p ->
  exists self' evs b,
    Solver.start random self trials guess
    = Ok (self', Solver.EvSolved false :: evs ++ [Solver.EvSolved b])
    /\ Z.to_nat trials = List.length evs
    /\ (successes evs <> [] ->
        FloatOrder.numbers (map out_f (successes evs)) ->
        exists k best p',
          nth_error (successes evs) k = Some best
          /\ Solver.solver_result self' = Some best
          /\ Solver.problem self' = Some p'
          /\ OptimizationProblem.solved p' = true
          /\ b = true
          /\ OptimizationProblem.result p' = Some (saved p (out_x best))
          /\ (forall j r, nth_error (successes evs) j = Some r ->
                          (out_f best <=? out_f r)%float = true)
          /\ (forall j r, j < k ->
                          nth_error (successes evs) j = Some r ->
                          (out_f best <? out_f r)%float = true)).
Proof.
  intros Hready.
  destruct (SolverFacts.start_outcome Inv random self p trials guess Hready)
    as (evs & inst & Hlen & Hch & Hout).
  destruct Hout as [(Hnone & E)|(k & best & Hk & Hbest & E)];
    rewrite E; eexists; exists evs; eexists;
    (split; [reflexivity|]); (split; [symmetry; exact Hlen|]).
  - intros Hsome. congruence.
  - intros _ Hnum.
    destruct (NumpyFacts.argmin_first_min _ k Hnum Hk)
      as (m & Hm & Hle & Hlt).
    rewrite nth_error_map, Hbest in Hm. simpl in Hm. injection Hm as <-.
    exists k, best. eexists.
    do 6 (split; [reflexivity || exact Hbest|]).
    split.
    + intros j r Hj. apply (Hle j).
      rewrite nth_error_map, Hj. reflexivity.
    + intros j r Hjk Hj. apply (Hlt j); [exact Hjk|].
      rewrite nth_error_map, Hj. reflexivity.
Qed.

(** C7. After a run that ends solved, the result lists one component per
    constraint, in order; the i-th one carries the name and group of the
    i-th constraint, as optimal value the constraint expression evaluated
    at the primal vector of the selected trial, [upper_bound_active]
    exactly when [abs(upper_bound - value) < 1e-5], [lower_bound_active]
    exactly when [abs(lower_bound - value) < 1e-5], and both flags false
    when the value is more than 1e-5 from both bounds. *)
Theorem constraint_values_and_activity (trials : Z)
        (guess : option (list float)) :
  ready Inv self p ->
  exists self' log,
    Solver.start random self trials guess = Ok (self', log)
    /\ forall p',
         Solver.problem self' = Some p' ->
         OptimizationProblem.solved p' = true ->
         exists best r,
           Solver.solver_result self' = Some best
           /\ In best (successes log)
           /\ OptimizationProblem.result p' = Some r
           /\ List.length (OptimizationResult.constraints r)
              = List.length (OptimizationProblem.constraints p)
           /\ forall i c,
                nth_error (OptimizationProblem.constraints p) i = Some c ->
                exists rc v,
                  nth_error (OptimizationResult.constraints r) i = Some rc
                  /\ v = value_at p (out_x best)
                                  (OptimizationComponent.variable c)
                  /\ ResultComponent.name rc = OptimizationComponent.name c
                  /\ ResultComponent.group rc
                     = OptimizationComponent.group c
                  /\ ResultComponent.optimal_value rc = Some v
                  /\ (ResultComponent.upper_bound_active rc = true <->
                      (abs (OptimizationComponent.upper_bound c - v)
                       <? 1e-5)%float = true)
                  /\ (ResultComponent.lower_bound_active rc = true <->
                      (abs (OptimizationComponent.lower_bound c - v)
                       <? 1e-5)%float = true)
                  /\ ((1e-5 <? abs (OptimizationComponent.upper_bound c - v))
                        %float = true ->
                      (1e-5 <? abs (OptimizationComponent.lower_bound c - v))
                        %float = true ->
                      ResultComponent.upper_bound_active rc = false
                      /\ ResultComponent.lower_bound_active rc = false).
Proof.
  intros Hready.
  destruct (SolverFacts.start_outcome Inv random self p trials guess Hready)
    as (evs & inst & Hlen & Hch & Hout).
  destruct Hout as [(Hnone & E)|(k & best & Hk & Hbest & E)];
    rewrite E; do 2 eexists; (split; [reflexivity|]);
    intros p' Hp' Hsolved; simpl in Hp'; injection Hp' as <-;
    simpl in Hsolved; [discriminate|].
  exists best, (saved p (out_x best)).
  split; [reflexivity|]. split.
  { simpl. assert (G : forall l1 l2,
                      successes (l1 ++ l2) = successes l1 ++ successes l2).
    { induction l1 as [|[v|a r [|]] l1 IH]; intros l2; simpl;
        rewrite ?IH; reflexivity. }
    rewrite G. apply in_or_app. left. eapply nth_error_In. exact Hbest. }
  split; [reflexivity|]. split; [apply length_map|].
  intros i c Hc. do 2 eexists.
  split.
  { unfold saved. cbn [OptimizationResult.constraints].
    unfold Constraint.t in Hc. rewrite nth_error_map, Hc. reflexivity. }
  split; [reflexivity|]. cbn [option_map].
  do 3 (split; [reflexivity|]).
  split; [reflexivity|]. split; [reflexivity|].
  intros Hu Hl. split; apply FloatOrderFacts.ltb_asym; assumption.
Qed.

(** C8. A run never sets an active-bound flag on a decision variable: if
    the result the problem carried before (if any) has both flags false
    on every decision variable, so has the result it carries after, and
    a run that ends solved writes one component per decision variable,
    all with both flags false, whatever the optimal values and the
    declared bounds are. *)
Theorem decision_variable_flags_never_set (trials : Z)
        (guess : option (list float)) :
  ready Inv self p ->
  decision_flags_clear p ->
  exists self' log p',
    Solver.start random self trials guess = Ok (self', log)
    /\ Solver.problem self' = Some p'
    /\ decision_flags_clear p'
    /\ (OptimizationProblem.solved p' = true ->
        exists r,
          OptimizationProblem.result p' = Some r
          /\ List.length (OptimizationResult.decision_variables r)
             = List.length (OptimizationProblem.decision_variables p)
          /\ Forall (fun rc =>
                       ResultComponent.lower_bound_active rc = false
                       /\ ResultComponent.upper_bound_active rc = false)
                    (OptimizationResult.decision_variables r)).
Proof.
  intros Hready Hclear.
  destruct (SolverFacts.start_outcome Inv random self p trials guess Hready)
    as (evs & inst & Hlen & Hch & Hout).
  assert (Hflags : forall x,
             Forall (fun rc =>
                       ResultComponent.lower_bound_active rc = false
                       /\ ResultComponent.upper_bound_active rc = false)
                    (OptimizationResult.decision_variables (saved p x))).
  { intros x. simpl. apply Forall_forall. intros rc Hrc.
    apply in_map_iff in Hrc. destruct Hrc as ([count v] & <- & _).
    split; reflexivity. }
  destruct Hout as [(Hnone & E)|(k & best & Hk & Hbest & E)];
    rewrite E; do 3 eexists; (split; [reflexivity|]);
    (split; [reflexivity|]); split.
  - exact Hclear.
  - simpl. discriminate.
  - apply Hflags.
  - intros _. eexists. split; [reflexivity|]. split; [|apply Hflags].
    simpl. rewrite length_map. unfold OptimizationResult.enumerate.
    rewrite length_combine, length_seq. lia.
Qed.

(** C10. After a run that ends solved, for every group filter, summing
    the sequence [optimal_objective_values(group=g)] and calling
    [optimal_objective_sum(group=g)] both return, and return the same
    number; when it is a finite float its distance to itself is within
    1e-9. *)
Theorem objective_sum_round_trip (trials : Z)
        (guess : option (list float)) :
  ready Inv self p ->
  exists self' log,
    Solver.start random self trials guess = Ok (self', log)
    /\ forall p' r,
         Solver.problem self' = Some p' ->
         OptimizationProblem.solved p' = true ->
         OptimizationProblem.result p' = Some r ->
         forall group : option string,
         exists v,
           OptimizationResult.sum_view
             (OptimizationResult.optimal_objective_values r false group)
           = Ok v
           /\ OptimizationResult.optimal_objective_sum r group = Ok v
           /\ (forall f, v = PyFloat f -> is_finite f = true ->
                         (abs (f - f) <=? 1e-9)%float = true).
Proof.
  intros Hready.
  destruct (SolverFacts.start_outcome Inv random self p trials guess Hready)
    as (evs & inst & Hlen & Hch & Hout).
  destruct Hout as [(Hnone & E)|(k & best & Hk & Hbest & E)];
    rewrite E; do 2 eexists; (split; [reflexivity|]);
    intros p' r Hp' Hsolved Hr group; simpl in Hp'; injection Hp' as <-;
    simpl in Hsolved, Hr; [discriminate|].
  injection Hr as <-.
  unfold OptimizationResult.optimal_objective_sum,
    OptimizationResult.optimal_objective_values.
  destruct (SumFacts.extract_floats
              group (OptimizationResult.objectives (saved p (out_x best))))
    as (l & El & Hl).
  { simpl. apply Forall_forall. intros rc Hrc.
    apply in_map_iff in Hrc. destruct Hrc as (o & <- & _).
    simpl. eauto. }
  rewrite El. simpl.
  destruct (SumFacts.sum_from_floats l Hl (PyInt 0)) as [v Hv]; [eauto|].
  exists v. unfold Py.sum. rewrite Hv.
  split; [reflexivity|]. split; [reflexivity|].
  intros f _ Hf. apply SumFacts.self_distance. exact Hf.
Qed.

End Outcome.

(** The spec's best-of-N test: successes with objective values 5, 2, 3;
    the trial with objective value 2 is kept and the problem is solved. *)
Lemma best_successful_trial_selected_witness :
  @ready Scenario.three_successes Scenario.one_entry
         (Scenario.solver_on Scenario.three_problem) Scenario.three_problem
  /\ (exists self' evs b,
        Solver.start Scenario.half (Scenario.solver_on Scenario.three_problem)
                     3 None
        = Ok (self', Solver.EvSolved false :: evs ++ [Solver.EvSolved b])
        /\ Z.to_nat 3 = List.length evs
        /\ (successes evs <> [] ->
            FloatOrder.numbers (map out_f (successes evs)) ->
            exists k best p',
              nth_error (successes evs) k = Some best
              /\ Solver.solver_result self' = Some best
              /\ Solver.problem self' = Some p'
              /\ OptimizationProblem.solved p' = true
              /\ b = true
              /\ OptimizationProblem.result p'
                 = Some (saved Scenario.three_problem (out_x best))
              /\ (forall j r, nth_error (successes evs) j = Some r ->
                              (out_f best <=? out_f r)%float = true)
              /\ (forall j r, j < k ->
                              nth_error (successes evs) j = Some r ->
                              (out_f best <? out_f r)%float = true)))
  /\ match Solver.start Scenario.half
                        (Scenario.solver_on Scenario.three_problem) 3 None with
     | Ok (self', log) =>
         map out_f (successes log) = [5%float; 2%float; 3%float]
         /\ option_map out_f (Solver.solver_result self') = Some 2%float
         /\ option_map (fun p' => OptimizationProblem.solved p')
                       (Solver.problem self') = Some true
     | Raise _ => False
     end.
Proof.
  assert (H : @ready Scenario.three_successes Scenario.one_entry
                     (Scenario.solver_on Scenario.three_problem)
                     Scenario.three_problem)
    by (apply StubFacts.ready_solver; reflexivity).
  split; [exact H|]. split.
  - exact (@best_successful_trial_selected
             Scenario.three_successes Scenario.one_entry Scenario.half
             (Scenario.solver_on Scenario.three_problem)
             Scenario.three_problem 3 None H).
  - vm_compute. repeat split.
Defined.

(** The spec's end-to-end scenario: [x] in [0, 10], [3 <= x], minimize
    [x]; the constraint sits on its lower bound. *)
Lemma constraint_values_and_activity_witness :
  @ready Scenario.solves_at_once Scenario.one_entry
         (Scenario.solver_on Scenario.once_problem) Scenario.once_problem
  /\ (exists self' log,
        Solver.start Scenario.half (Scenario.solver_on Scenario.once_problem)
                     1 None = Ok (self', log)
        /\ forall p',
             Solver.problem self' = Some p' ->
             OptimizationProblem.solved p' = true ->
             exists best r,
               Solver.solver_result self' = Some best
               /\ OptimizationProblem.result p' = Some r
               /\ List.length (OptimizationResult.constraints r) = 1)
  /\ match Solver.start Scenario.half
                        (Scenario.solver_on Scenario.once_problem) 1 None with
     | Ok (self', _) =>
         option_map
           (fun p' => option_map OptimizationResult.constraints
                                 (OptimizationProblem.result p'))
           (Solver.problem self')
         = Some (Some [ResultComponent.mk (Some "Constraint_1"%string) None
                                          (Some 3%float) true false])
     | Raise _ => False
     end.
Proof.
  assert (H : @ready Scenario.solves_at_once Scenario.one_entry
                     (Scenario.solver_on Scenario.once_problem)
                     Scenario.once_problem)
    by (apply StubFacts.ready_solver; reflexivity).
  split; [exact H|]. split.
  - destruct (@constraint_values_and_activity
                Scenario.solves_at_once Scenario.one_entry Scenario.half
                (Scenario.solver_on Scenario.once_problem)
                Scenario.once_problem 1 None H)
      as (self' & log & E & Hres).
    exists self', log. split; [exact E|].
    intros p' Hp' Hs.
    destruct (Hres p' Hp' Hs) as (best & r & Hb & _ & Hr & Hlen & _).
    exists best, r. auto.
  - vm_compute. reflexivity.
Defined.

(** The optimum [x = 10] sits on the upper bound of the variable, and no
    flag is set on it. *)
Lemma decision_variable_flags_never_set_witness :
  @ready Scenario.solves_at_bound Scenario.one_entry
         (Scenario.solver_on Scenario.bound_problem) Scenario.bound_problem
  /\ decision_flags_clear Scenario.bound_problem
  /\ (exists self' log p',
        Solver.start Scenario.half (Scenario.solver_on Scenario.bound_problem)
                     1 None = Ok (self', log)
        /\ Solver.problem self' = Some p'
        /\ decision_flags_clear p')
  /\ match Solver.start Scenario.half
                        (Scenario.solver_on Scenario.bound_problem) 1 None with
     | Ok (self', _) =>
         option_map
           (fun p' => option_map OptimizationResult.decision_variables
                                 (OptimizationProblem.result p'))
           (Solver.problem self')
         = Some (Some [ResultComponent.mk (Some "x"%string) None
                                          (Some 10%float) false false])
         /\ map (fun v => DecisionVariable.upper_bound v)
                (OptimizationProblem.decision_variables Scenario.bound_problem)
            = [10%float]
     | Raise _ => False
     end.
Proof.
  assert (H : @ready Scenario.solves_at_bound Scenario.one_entry
                     (Scenario.solver_on Scenario.bound_problem)
                     Scenario.bound_problem)
    by (apply StubFacts.ready_solver; reflexivity).
  assert (C : decision_flags_clear Scenario.bound_problem) by exact I.
  split; [exact H|]. split; [exact C|]. split.
  - destruct (@decision_variable_flags_never_set
                Scenario.solves_at_bound Scenario.one_entry Scenario.half
                (Scenario.solver_on Scenario.bound_problem)
                Scenario.bound_problem 1 None H C)
      as (self' & log & p' & E & Hp' & Hclear & _).
    exists self', log, p'. auto.
  - vm_compute. split; reflexivity.
Defined.

Lemma objective_sum_round_trip_witness :
  @ready Scenario.solves_at_once Scenario.one_entry
         (Scenario.solver_on Scenario.once_problem) Scenario.once_problem
  /\ (exists self' log,
        Solver.start Scenario.half (Scenario.solver_on Scenario.once_problem)
                     1 None = Ok (self', log)
        /\ forall p' r,
             Solver.problem self' = Some p' ->
             OptimizationProblem.solved p' = true ->
             OptimizationProblem.result p' = Some r ->
             forall group : option string,
             exists v,
               OptimizationResult.sum_view
                 (OptimizationResult.optimal_objective_values r false group)
               = Ok v
               /\ OptimizationResult.optimal_objective_sum r group = Ok v
               /\ (forall f, v = PyFloat f -> is_finite f = true ->
                             (abs (f - f) <=? 1e-9)%float = true))
  /\ match NonLinearProgramming.solve
             Scenario.half Scenario.once_problem None None 1 with
     | Ok (_, Some r) =>
         OptimizationResult.optimal_objective_sum r None = Ok (PyFloat 3)
         /\ OptimizationResult.optimal_objective_sum r (Some "g"%string)
            = Ok (PyInt 0)
     | _ => False
     end.
Proof.
  assert (H : @ready Scenario.solves_at_once Scenario.one_entry
                     (Scenario.solver_on Scenario.once_problem)
                     Scenario.once_problem)
    by (apply StubFacts.ready_solver; reflexivity).
  split; [exact H|]. split.
  - exact (@objective_sum_round_trip
             Scenario.solves_at_once Scenario.one_entry Scenario.half
             (Scenario.solver_on Scenario.once_problem)
             Scenario.once_problem 1 None H).
  - vm_compute. split; reflexivity.
Defined.

(* ================================================================= *)
(** ** The active-bound views *)

(** For every result and every argument, each active-bound method returns
    what the optimal-value method of the same category returns: the three
    [_extract_*] bodies compute the same thing. *)
Lemma active_bound_views_are_value_views (r : OptimizationResult.t)
      (as_dict : bool) (group : option string) :
  OptimizationResult.active_upper_bounds_constraints r as_dict group
  = OptimizationResult.optimal_constraint_values r as_dict group
  /\ OptimizationResult.active_lower_bounds_constraints r as_dict group
     = OptimizationResult.optimal_constraint_values r as_dict group
  /\ OptimizationResult.active_upper_bounds_decision_variables r as_dict group
     = OptimizationResult.optimal_decision_variables r as_dict group
  /\ OptimizationResult.active_lower_bounds_decision_variables r as_dict group
     = OptimizationResult.optimal_decision_variables r as_dict group.
Proof.
  repeat split; reflexivity.
Qed.

(** C1 fails on the code.  In the end-to-end scenario ([x] in [0, 10],
    [3 <= x], minimize [x], solved at [x = 3]) the constraint has
    [lower_bound_active = True] and [upper_bound_active = False], yet
    [active_lower_bounds_constraints()] and
    [active_upper_bounds_constraints()] both return [[3.0]], and with
    [as_dict=True] the dict [{'Constraint_1': 3.0}]; the decision-variable
    methods return [[3.0]] as well.  The documented views would be
    [[True]] and [[False]]. *)
Theorem active_bound_views_return_optimal_values :
  match NonLinearProgramming.solve
          Scenario.half Scenario.once_problem None None 1 with
  | Ok (p, Some r) =>
      OptimizationProblem.solved p = true
      /\ map ResultComponent.lower_bound_active
             (OptimizationResult.constraints r) = [true]
      /\ map ResultComponent.upper_bound_active
             (OptimizationResult.constraints r) = [false]
      /\ OptimizationResult.active_lower_bounds_constraints r false None
         = OptimizationResult.AsList [PyFloat 3]
      /\ OptimizationResult.active_upper_bounds_constraints r false None
         = OptimizationResult.AsList [PyFloat 3]
      /\ OptimizationResult.active_lower_bounds_constraints r true None
         = OptimizationResult.AsDict
             [(Some "Constraint_1"%string, PyFloat 3)]
      /\ OptimizationResult.active_lower_bounds_decision_variables
           r false None
         = OptimizationResult.AsList [PyFloat 3]
      /\ OptimizationResult.active_upper_bounds_decision_variables
           r false None
         = OptimizationResult.AsList [PyFloat 3]
      /\ OptimizationResult.documented_flags
           ResultComponent.lower_bound_active false None
           (OptimizationResult.constraints r)
         = OptimizationResult.AsList [PyBool true]
      /\ OptimizationResult.documented_flags
           ResultComponent.upper_bound_active false None
           (OptimizationResult.constraints r)
         = OptimizationResult.AsList [PyBool false]
      /\ OptimizationResult.documented_flags
           ResultComponent.lower_bound_active true None
           (OptimizationResult.constraints r)
         = OptimizationResult.AsDict
             [(Some "Constraint_1"%string, PyBool true)]
  | _ => False
  end.
Proof.
  vm_compute. repeat split.
Qed.

(* ================================================================= *)
(** ** Bound validation *)

Lemma eqb_not_ltb (x y : float) :
  (x =? y)%float = true -> (x <? y)%float = false.
Proof.
  rewrite eqb_spec, ltb_spec. unfold SFeqb, SFltb.
  destruct (SFcompare (Prim2SF x) (Prim2SF y)) as [[| |]|];
    congruence.
Qed.

(** C5 fails on the code as stated: the constructors of the component
    classes take crossed bounds without complaint. *)
Lemma constructors_accept_crossed_bounds :
  (1 <? 5)%float = true
  /\ @Constraint.init Scenario.solves_at_once (Stub.Sym "x")
                      5%float 1%float (Some "c"%string) None
     = Ok (@OptimizationComponent.mk
             Scenario.solves_at_once (Some "c"%string) (Stub.Sym "x")
             5%float 1%float None)
  /\ @DecisionVariable.init Scenario.solves_at_once (Stub.Sym "x")
                            5%float 1%float (Some "x"%string) None false
     = Ok (DecisionVariable.mk
             (@OptimizationComponent.mk
                Scenario.solves_at_once (Some "x"%string) (Stub.Sym "x")
                5%float 1%float None)
             false)
  /\ ~ (forall (cd : Casadi) (variable : SX) (lower_bound upper_bound : float)
               (name group : option string),
           (upper_bound <? lower_bound)%float = true ->
           exists e,
             OptimizationComponent.init variable lower_bound upper_bound
                                        name group = Raise e).
Proof.
  split; [reflexivity|]. split; [reflexivity|]. split; [reflexivity|].
  intros H.
  destruct (H Scenario.solves_at_once (Stub.Sym "x") 5%float 1%float
              None None eq_refl) as [e He].
  discriminate.
Qed.

Section BoundValidation.
Context {cd : Casadi}.

(** The two renderings of [add_constraint] agree: the call returns
    exactly when the function does, with the same problem. *)
Lemma add_constraint_call_agrees (p : OptimizationProblem.t cd)
      (equation : SX) (lower_bound upper_bound : float)
      (name group : option string) :
  OptimizationProblem.add_constraint
    p equation lower_bound upper_bound name group
  = match snd (OptimizationProblem.add_constraint_call
                 p equation lower_bound upper_bound name group) with
    | Ok _ =>
        Ok (fst (OptimizationProblem.add_constraint_call
                   p equation lower_bound upper_bound name group))
    | Raise e => Raise e
    end.
Proof.
  unfold OptimizationProblem.add_constraint,
    OptimizationProblem.add_constraint_call.
  destruct (OptimizationProblem._check_bounds upper_bound lower_bound);
    reflexivity.
Qed.

Lemma add_decision_variable_call_agrees (p : OptimizationProblem.t cd)
      (name : string) (lower_bound upper_bound : float)
      (group : option string) :
  OptimizationProblem.add_decision_variable
    p name lower_bound upper_bound group
  = match snd (OptimizationProblem.add_decision_variable_call
                 p name lower_bound upper_bound group) with
    | Ok temp =>
        Ok (fst (OptimizationProblem.add_decision_variable_call
                   p name lower_bound upper_bound group), temp)
    | Raise e => Raise e
    end.
Proof.
  unfold OptimizationProblem.add_decision_variable,
    OptimizationProblem.add_decision_variable_call.
  destruct (OptimizationProblem._check_bounds upper_bound lower_bound);
    reflexivity.
Qed.

(** C5 as amended.  The bounds are checked when a component is added to a
    problem: [add_constraint] and [add_decision_variable] raise
    [ValueError] when [upper_bound < lower_bound], and the problem object
    is after the failed call what it was before it: nothing is appended.
    With [upper_bound == lower_bound] they succeed and append the
    component with these bounds.  The constructors of the component
    classes check nothing: they return a component for any pair of
    bounds. *)
Theorem bounds_checked_when_adding (p : OptimizationProblem.t cd)
        (equation : SX) (name : string) (cname group : option string)
        (lower_bound upper_bound : float) :
  ((upper_bound <? lower_bound)%float = true ->
   OptimizationProblem.add_constraint
     p equation lower_bound upper_bound cname group = Raise ValueError
   /\ OptimizationProblem.add_decision_variable
        p name lower_bound upper_bound group = Raise ValueError
   /\ OptimizationProblem.add_constraint_call
        p equation lower_bound upper_bound cname group
      = (p, Raise ValueError)
   /\ OptimizationProblem.add_decision_variable_call
        p name lower_bound upper_bound group
      = (p, Raise ValueError))
  /\ ((upper_bound =? lower_bound)%float = true ->
      (exists p' c,
          OptimizationProblem.add_constraint
            p equation lower_bound upper_bound cname group = Ok p'
          /\ OptimizationProblem.add_constraint_call
               p equation lower_bound upper_bound cname group
             = (p', Ok tt)
          /\ OptimizationProblem.constraints p'
             = OptimizationProblem.constraints p ++ [c]
          /\ OptimizationComponent.lower_bound c = lower_bound
          /\ OptimizationComponent.upper_bound c = upper_bound)
      /\ (exists p' v,
             OptimizationProblem.add_decision_variable
               p name lower_bound upper_bound group = Ok (p', SX_sym name)
             /\ OptimizationProblem.add_decision_variable_call
                  p name lower_bound upper_bound group
                = (p', Ok (SX_sym name))
             /\ OptimizationProblem.decision_variables p'
                = OptimizationProblem.decision_variables p ++ [v]
             /\ DecisionVariable.lower_bound v = lower_bound
             /\ DecisionVariable.upper_bound v = upper_bound))
  /\ (exists c,
         Constraint.init equation lower_bound upper_bound cname group = Ok c
         /\ OptimizationComponent.lower_bound c = lower_bound
         /\ OptimizationComponent.upper_bound c = upper_bound)
  /\ (exists v,
         DecisionVariable.init equation lower_bound upper_bound
                               (Some name) group false = Ok v
         /\ DecisionVariable.lower_bound v = lower_bound
         /\ DecisionVariable.upper_bound v = upper_bound).
Proof.
  split; [|split; [|split]].
  - intros H.
    unfold OptimizationProblem.add_constraint,
      OptimizationProblem.add_decision_variable,
      OptimizationProblem.add_constraint_call,
      OptimizationProblem.add_decision_variable_call,
      OptimizationProblem._check_bounds.
    rewrite H. repeat split.
  - intros H. apply eqb_not_ltb in H.
    unfold OptimizationProblem.add_constraint,
      OptimizationProblem.add_decision_variable,
      OptimizationProblem.add_constraint_call,
      OptimizationProblem.add_decision_variable_call,
      OptimizationProblem._check_bounds.
    rewrite H. simpl. split; do 2 eexists; repeat split.
  - eexists. repeat split.
  - eexists. repeat split.
Qed.

End BoundValidation.

Lemma bounds_checked_when_adding_witness :
  (1 <? 5)%float = true
  /\ (2 =? 2)%float = true
  /\ OptimizationProblem.add_constraint
       Scenario.once_problem (Stub.Sym "x") 5%float 1%float None None
     = Raise ValueError
  /\ OptimizationProblem.add_decision_variable
       Scenario.once_problem "z"%string 5%float 1%float None
     = Raise ValueError
  /\ OptimizationProblem.add_constraint_call
       Scenario.once_problem (Stub.Sym "x") 5%float 1%float None None
     = (Scenario.once_problem, Raise ValueError)
  /\ OptimizationProblem.add_decision_variable_call
       Scenario.once_problem "z"%string 5%float 1%float None
     = (Scenario.once_problem, Raise ValueError)
  /\ exists p' c,
       OptimizationProblem.add_constraint
         Scenario.once_problem (Stub.Sym "x") 2%float 2%float None None
       = Ok p'
       /\ OptimizationProblem.add_constraint_call
            Scenario.once_problem (Stub.Sym "x") 2%float 2%float None None
          = (p', Ok tt)
       /\ OptimizationProblem.constraints p'
          = OptimizationProblem.constraints Scenario.once_problem ++ [c]
       /\ OptimizationComponent.lower_bound c = 2%float
       /\ OptimizationComponent.upper_bound c = 2%float.
Proof.
  split; [reflexivity|]. split; [reflexivity|].
  pose proof (@bounds_checked_when_adding
                Scenario.solves_at_once Scenario.once_problem
                (Stub.Sym "x") "z"%string None None 5%float 1%float)
    as (Hlt & _).
  pose proof (@bounds_checked_when_adding
                Scenario.solves_at_once Scenario.once_problem
                (Stub.Sym "x") "z"%string None None 2%float 2%float)
    as (_ & Heq & _).
  destruct (Hlt eq_refl) as (Hc & Hv & Hcc & Hvc).
  destruct (Heq eq_refl) as [Hadd _].
  split; [exact Hc|]. split; [exact Hv|]. split; [exact Hcc|].
  split; [exact Hvc|]. exact Hadd.
Defined.

(* ================================================================= *)
(** ** Exhausting the trials *)

Section Exhaustion.
Context {cd : Casadi}.

(** When no trial of a run succeeded, the run returns all the same, the
    solved flag is false, and the result of the problem is the one it
    had before the run: [None] for a problem never solved. *)
Lemma exhaustion_keeps_result (Inv : NlpSolver -> Prop)
      (random : nat -> float) (self : Solver.t cd)
      (p : OptimizationProblem.t cd) (trials : Z)
      (guess : option (list float)) :
  ready Inv self p ->
  exists self' evs b,
    Solver.start random self trials guess
    = Ok (self', Solver.EvSolved false :: evs ++ [Solver.EvSolved b])
    /\ Z.to_nat trials = List.length evs
    /\ (successes evs = [] ->
        exists p',
          Solver.problem self' = Some p'
          /\ OptimizationProblem.solved p' = false
          /\ OptimizationProblem.result p' = OptimizationProblem.result p).
Proof.
  intros Hready.
  destruct (SolverFacts.start_outcome Inv random self p trials guess Hready)
    as (evs & inst & Hlen & Hch & Hout).
  destruct Hout as [(Hnone & E)|(k & best & Hk & Hbest & E)];
    rewrite E; eexists; exists evs; eexists;
    (split; [reflexivity|]); (split; [symmetry; exact Hlen|]).
  - intros _. eexists. repeat split.
  - intros Hnone. rewrite Hnone in Hbest. destruct k; discriminate.
Qed.

End Exhaustion.

(** C6 fails on the code.  A problem is solved once; the contradictory
    constraints [x <= 1] and [5 <= x] are added; a fresh solver is started
    on it with three trials, and the engine reports failure on each.  The
    run returns and the solved flag is false, but the result of the
    problem is not [None]: it is still the result of the first solve, and
    [solve] hands the same stale result to its caller. *)
Theorem failed_resolve_keeps_stale_result :
  match Scenario.solve_then_fail with
  | Ok (solver, log) =>
      List.length (failures log) = 3
      /\ successes log = []
      /\ match Solver.problem solver with
         | Some p =>
             OptimizationProblem.solved p = false
             /\ option_map OptimizationResult.decision_variables
                           (OptimizationProblem.result p)
                = Some [ResultComponent.mk (Some "x"%string) None
                                           (Some 3%float) false false]
             /\ OptimizationProblem.result p <> None
         | None => False
         end
  | Raise _ => False
  end
  /\ match Scenario.solve_twice with
     | Ok (p, returned) =>
         OptimizationProblem.solved p = false /\ returned <> None
     | Raise _ => False
     end.
Proof.
  vm_compute. repeat split; discriminate.
Qed.

(* ================================================================= *)
(** ** Dicts: assignment and lookup *)

Module DictFacts.
Section WithKeys.
Context {K V : Type}.
Variable eqb : K -> K -> bool.
Hypothesis eqb_spec : forall a b, eqb a b = true <-> a = b.

Lemma eqb_refl (k : K) : eqb k k = true.
Proof. apply eqb_spec. reflexivity. Qed.

Lemma eqb_neq (a b : K) : a <> b -> eqb a b = false.
Proof.
  intros H. destruct (eqb a b) eqn:E; [|reflexivity].
  apply eqb_spec in E. contradiction.
Qed.

Lemma getitem_setitem_same (d : Py.dict K V) (k : K) (v : V) :
  Py.getitem eqb (Py.setitem eqb d k v) k = Ok v.
Proof.
  induction d as [|[k' v'] d IH]; simpl.
  - rewrite eqb_refl. reflexivity.
  - destruct (eqb k' k) eqn:E; simpl; rewrite E; [reflexivity|exact IH].
Qed.

Lemma getitem_setitem_other (d : Py.dict K V) (k k' : K) (v : V) :
  k <> k' ->
  Py.getitem eqb (Py.setitem eqb d k v) k' = Py.getitem eqb d k'.
Proof.
  intros Hne. induction d as [|[k0 v0] d IH]; simpl.
  - rewrite (eqb_neq k k' Hne). reflexivity.
  - destruct (eqb k0 k) eqn:E; simpl.
    + apply eqb_spec in E. subst k0.
      rewrite (eqb_neq k k' Hne). reflexivity.
    + rewrite IH. reflexivity.
Qed.

Lemma getitem_missing (d : Py.dict K V) (k : K) :
  ~ In k (map fst d) -> Py.getitem eqb d k = Raise KeyError.
Proof.
  induction d as [|[k' v'] d IH]; simpl; intros H; [reflexivity|].
  rewrite eqb_neq by (intros ->; apply H; left; reflexivity).
  apply IH. intros Hin. apply H. right. exact Hin.
Qed.

Lemma keys_setitem (d : Py.dict K V) (k k' : K) (v : V) :
  In k' (map fst (Py.setitem eqb d k v)) <-> k' = k \/ In k' (map fst d).
Proof.
  induction d as [|[k0 v0] d IH]; simpl.
  - intuition congruence.
  - destruct (eqb k0 k) eqn:E; simpl.
    + apply eqb_spec in E. subst k0. intuition congruence.
    + rewrite IH. intuition congruence.
Qed.

Lemma setitem_fresh (d : Py.dict K V) (k : K) (v : V) :
  ~ In k (map fst d) -> Py.setitem eqb d k v = d ++ [(k, v)].
Proof.
  induction d as [|[k' v'] d IH]; simpl; intros H; [reflexivity|].
  rewrite eqb_neq by (intros ->; apply H; left; reflexivity).
  rewrite IH by (intros Hin; apply H; right; exact Hin).
  reflexivity.
Qed.

(** Assigning a sequence of pairs, one after the other. *)
Lemma getitem_assign_other (kvs : list (K * V)) :
  forall (d : Py.dict K V) (k : K),
    (forall kv, In kv kvs -> fst kv <> k) ->
    Py.getitem eqb
      (fold_left (fun d kv => Py.setitem eqb d (fst kv) (snd kv)) kvs d) k
    = Py.getitem eqb d k.
Proof.
  induction kvs as [|[k0 v0] kvs IH]; intros d k H; simpl; [reflexivity|].
  rewrite IH by (intros kv Hkv; apply H; right; exact Hkv).
  apply getitem_setitem_other. apply (H (k0, v0)). left. reflexivity.
Qed.

Lemma getitem_assign_last (pre post : list (K * V)) (k : K) (v : V)
      (d : Py.dict K V) :
  (forall kv, In kv post -> fst kv <> k) ->
  Py.getitem eqb
    (fold_left (fun d kv => Py.setitem eqb d (fst kv) (snd kv))
               (pre ++ (k, v) :: post) d) k
  = Ok v.
Proof.
  intros H. rewrite fold_left_app. simpl.
  rewrite getitem_assign_other by exact H.
  apply getitem_setitem_same.
Qed.

Lemma keys_assign (kvs : list (K * V)) :
  forall (d : Py.dict K V) (k : K),
    In k (map fst
              (fold_left (fun d kv => Py.setitem eqb d (fst kv) (snd kv))
                         kvs d))
    <-> In k (map fst d) \/ In k (map fst kvs).
Proof.
  induction kvs as [|[k0 v0] kvs IH]; intros d k; simpl.
  - tauto.
  - rewrite IH, keys_setitem. intuition congruence.
Qed.

Lemma assign_fresh (kvs : list (K * V)) :
  forall d : Py.dict K V,
    NoDup (map fst kvs) ->
    (forall k, In k (map fst kvs) -> ~ In k (map fst d)) ->
    fold_left (fun d kv => Py.setitem eqb d (fst kv) (snd kv)) kvs d
    = d ++ kvs.
Proof.
  induction kvs as [|[k0 v0] kvs IH]; intros d Hnd Hd; simpl.
  - rewrite app_nil_r. reflexivity.
  - simpl in Hnd. inversion Hnd as [|? ? Hk0 Hnd']; subst.
    rewrite setitem_fresh by (apply Hd; left; reflexivity).
    rewrite IH.
    + rewrite <- app_assoc. reflexivity.
    + exact Hnd'.
    + intros k Hk Hin. rewrite map_app in Hin. apply in_app_or in Hin.
      destruct Hin as [Hin|[<-|[]]].
      * apply (Hd k); [right; exact Hk|exact Hin].
      * contradiction.
Qed.

End WithKeys.

Lemma optstr_eqb_spec (a b : option string) :
  Py.optstr_eqb a b = true <-> a = b.
Proof.
  destruct a as [x|], b as [y|]; simpl; try (split; congruence).
  rewrite String.eqb_eq. split; congruence.
Qed.

End DictFacts.

(* ================================================================= *)
(** ** The views of a result *)

Module ViewFacts.

Lemma fold_enumerate {A D} (f : D -> nat * A -> D) (h : D -> A -> D)
      (l : list A) :
  (forall d i a, nth_error l i = Some a -> f d (i, a) = h d a) ->
  forall d0, fold_left f (OptimizationResult.enumerate l) d0
             = fold_left h l d0.
Proof.
  unfold OptimizationResult.enumerate.
  assert (G : forall (l : list A) (k : nat),
             (forall d i a, nth_error l i = Some a ->
                            f d (k + i, a) = h d a) ->
             forall d0, fold_left f (combine (seq k (List.length l)) l) d0
                        = fold_left h l d0).
  { clear l. induction l as [|a l IH]; intros k H d0; simpl; [reflexivity|].
    pose proof (H d0 0 a eq_refl) as E. rewrite Nat.add_0_r in E.
    rewrite E. apply IH. intros d i b Hb.
    replace (S k + i) with (k + S i) by lia. apply H. exact Hb. }
  intros H. apply (G l 0). exact H.
Qed.

End ViewFacts.

Module ViewNormalForm.

Lemma fold_left_pairs {A D K V} (set : D -> K -> V -> D)
      (key : A -> K) (val : A -> V) (l : list A) :
  forall d0,
    fold_left (fun d a => set d (key a) (val a)) l d0
    = fold_left (fun d kv => set d (fst kv) (snd kv))
                (map (fun a => (key a, val a)) l) d0.
Proof.
  induction l as [|a l IH]; intros d0; simpl; [reflexivity|apply IH].
Qed.

(** What [_extract_optimal_values] computes, with the two loops over
    [enumerate] read as one assignment per selected component. *)
Lemma extract_normal (as_dict : bool) (group : option string)
      (category : list ResultComponent.t) :
  OptimizationResult._extract_optimal_values as_dict group category
  = if as_dict
    then OptimizationResult.AsDict
           (fold_left
              (fun d kv => Py.setitem Py.optstr_eqb d (fst kv) (snd kv))
              (map (fun o => (ResultComponent.name o,
                              OptimizationResult.value_of o))
                   (selected group category))
              [])
    else OptimizationResult.AsList
           (map OptimizationResult.value_of (selected group category)).
Proof.
  unfold OptimizationResult._extract_optimal_values.
  destruct group as [g|]; simpl; destruct as_dict; try reflexivity; f_equal.
  - rewrite <- (fold_left_pairs (Py.setitem Py.optstr_eqb)
                                ResultComponent.name
                                OptimizationResult.value_of).
    apply ViewFacts.fold_enumerate. intros d i a _. reflexivity.
  - rewrite <- (fold_left_pairs (Py.setitem Py.optstr_eqb)
                                ResultComponent.name
                                OptimizationResult.value_of).
    apply ViewFacts.fold_enumerate. intros d i a Ha.
    f_equal. erewrite nth_error_nth; [reflexivity|].
    rewrite nth_error_map, Ha. reflexivity.
Qed.

End ViewNormalForm.

(** X7. A view restricted to a group is the unrestricted view of the
    components whose group equals the requested one, in their order; a
    component is among them exactly when it is in the category and carries
    that group (a component without group is in no group view). *)
Theorem group_view_is_view_of_filter (as_dict : bool) (g : string)
        (category : list ResultComponent.t) :
  OptimizationResult._extract_optimal_values as_dict (Some g) category
  = OptimizationResult._extract_optimal_values
      as_dict None (filter (OptimizationResult.in_group g) category)
  /\ forall obj,
       In obj (filter (OptimizationResult.in_group g) category)
       <-> In obj category /\ ResultComponent.group obj = Some g.
Proof.
  split.
  - rewrite !ViewNormalForm.extract_normal. reflexivity.
  - intros obj. rewrite filter_In. unfold OptimizationResult.in_group.
    rewrite DictFacts.optstr_eqb_spec. tauto.
Qed.

(** X8. When the selected components have pairwise different names, the
    name-keyed view lists every one of them, in order, under its name, and
    the values of the dict in order are the list view. *)
Theorem dict_view_of_distinct_names (group : option string)
        (category : list ResultComponent.t) :
  NoDup (map ResultComponent.name (selected group category)) ->
  exists d,
    OptimizationResult._extract_optimal_values true group category
    = OptimizationResult.AsDict d
    /\ d = map (fun o => (ResultComponent.name o,
                          OptimizationResult.value_of o))
               (selected group category)
    /\ OptimizationResult._extract_optimal_values false group category
       = OptimizationResult.AsList (map snd d).
Proof.
  intros Hnd. eexists. split; [|split; [reflexivity|]].
  - rewrite ViewNormalForm.extract_normal.
    rewrite (DictFacts.assign_fresh Py.optstr_eqb DictFacts.optstr_eqb_spec).
    + reflexivity.
    + rewrite map_map. exact Hnd.
    + intros k _ [].
  - rewrite ViewNormalForm.extract_normal, map_map. reflexivity.
Qed.

Lemma dict_view_of_distinct_names_witness :
  NoDup (map ResultComponent.name (selected None Cases.pair))
  /\ exists d,
       OptimizationResult._extract_optimal_values true None Cases.pair
       = OptimizationResult.AsDict d
       /\ d = [(Some "a"%string, PyFloat 1); (Some "b"%string, PyFloat 2)]
       /\ OptimizationResult._extract_optimal_values false None Cases.pair
          = OptimizationResult.AsList (map snd d).
Proof.
  assert (H : NoDup (map ResultComponent.name (selected None Cases.pair))).
  { simpl. repeat constructor; simpl; intuition discriminate. }
  split; [exact H|].
  exact (dict_view_of_distinct_names None Cases.pair H).
Defined.

(** X9. When several selected components share a name, the name-keyed
    view keeps the value of the last of them: looking up the name of a
    component that no later selected component shares gives that
    component's value.  Looking up a name no selected component has
    raises [KeyError]. *)
Theorem dict_view_last_write_wins (group : option string)
        (category pre post : list ResultComponent.t)
        (obj : ResultComponent.t) :
  selected group category = pre ++ obj :: post ->
  (forall o, In o post -> ResultComponent.name o <> ResultComponent.name obj) ->
  exists d,
    OptimizationResult._extract_optimal_values true group category
    = OptimizationResult.AsDict d
    /\ Py.getitem Py.optstr_eqb d (ResultComponent.name obj)
       = Ok (OptimizationResult.value_of obj)
    /\ forall n,
         ~ In n (map ResultComponent.name (selected group category)) ->
         Py.getitem Py.optstr_eqb d n = Raise KeyError.
Proof.
  intros Hsel Hpost. eexists.
  split; [exact (ViewNormalForm.extract_normal true group category)|].
  split.
  - rewrite Hsel, map_app. simpl.
    apply (DictFacts.getitem_assign_last
             Py.optstr_eqb DictFacts.optstr_eqb_spec).
    intros kv Hkv. apply in_map_iff in Hkv.
    destruct Hkv as (o & <- & Ho). simpl. apply Hpost. exact Ho.
  - intros n Hn.
    apply (DictFacts.getitem_missing Py.optstr_eqb DictFacts.optstr_eqb_spec).
    rewrite (DictFacts.keys_assign Py.optstr_eqb DictFacts.optstr_eqb_spec).
    rewrite map_map. simpl. tauto.
Qed.

Lemma dict_view_last_write_wins_witness :
  selected None Cases.twins
  = [ResultComponent.mk (Some "c"%string) None (Some 1%float) false false]
      ++ ResultComponent.mk (Some "c"%string) None (Some 2%float) true false
      :: []
  /\ (exists d,
        OptimizationResult._extract_optimal_values true None Cases.twins
        = OptimizationResult.AsDict d
        /\ Py.getitem Py.optstr_eqb d (Some "c"%string) = Ok (PyFloat 2))
  /\ OptimizationResult._extract_optimal_values true None Cases.twins
     = OptimizationResult.AsDict [(Some "c"%string, PyFloat 2)].
Proof.
  split; [reflexivity|]. split; [|reflexivity].
  destruct (dict_view_last_write_wins
              None Cases.twins
              [ResultComponent.mk (Some "c"%string) None (Some 1%float)
                                  false false]
              []
              (ResultComponent.mk (Some "c"%string) None (Some 2%float)
                                  true false)
              eq_refl (fun o (H : In o []) => match H with end))
    as (d & E & Hget & _).
  exists d. split; [exact E|exact Hget].
Defined.

(* ================================================================= *)
(** ** Assembling a problem *)

Module AssemblyFacts.

Import FloatOrder FloatOrderFacts.

Lemma leb_numbers (x y : float) :
  (x <=? y)%float = true -> is_nan x = false /\ is_nan y = false.
Proof.
  rewrite leb_spec. unfold SFleb. intros H.
  split; apply number_iff; intros E; rewrite E in H;
    [ | destruct (Prim2SF x) ]; discriminate.
Qed.

(** Between numbers, [x < y] fails exactly when [y <= x]. *)
Lemma ltb_false_iff (x y : float) :
  (x <? y)%float = false
  <-> ((y <=? x)%float = true \/ is_nan y = true \/ is_nan x = true).
Proof.
  destruct (is_nan x) eqn:Hx.
  { split; [auto|]. intros _.
    destruct (x <? y)%float eqn:E; [|reflexivity].
    apply ltb_numbers in E. destruct E. congruence. }
  destruct (is_nan y) eqn:Hy.
  { split; [auto|]. intros _.
    destruct (x <? y)%float eqn:E; [|reflexivity].
    apply ltb_numbers in E. destruct E. congruence. }
  split.
  - intros H. left. destruct (y <=? x)%float eqn:E; [reflexivity|].
    apply (not_leb_ltb y x Hy Hx) in E. congruence.
  - intros [H|[H|H]]; try discriminate.
    destruct (x <? y)%float eqn:E; [|reflexivity].
    apply (ltb_key x y Hx Hy) in E. apply (leb_key y x Hy Hx) in H.
    exfalso. by_keys.
Qed.

Lemma str_of_nat_inj (n m : nat) :
  Py.str_of_nat n = Py.str_of_nat m -> n = m.
Proof.
  unfold Py.str_of_nat. intros H.
  apply (f_equal NilZero.uint_of_string) in H.
  assert (N : forall k, Nat.to_uint k <> Decimal.Nil).
  { intros k. rewrite <- (DecimalNat.Unsigned.of_to k) at 1.
    rewrite DecimalNat.Unsigned.to_of. apply DecimalFacts.unorm_nonnil. }
  rewrite !NilZero.usu in H by apply N.
  injection H as H. apply DecimalNat.Unsigned.to_uint_inj. exact H.
Qed.

Lemma append_inv_head (s a b : string) :
  (s ++ a)%string = (s ++ b)%string -> a = b.
Proof.
  induction s as [|c s IH]; simpl; intros H; [exact H|].
  injection H as H. apply IH. exact H.
Qed.

Lemma fold_left_ext {A D} (f g : D -> A -> D) (l : list A) :
  (forall d a, f d a = g d a) ->
  forall d0, fold_left f l d0 = fold_left g l d0.
Proof.
  intros H. induction l as [|a l IH]; intros d0; simpl; [reflexivity|].
  rewrite H. apply IH.
Qed.

Section WithCasadi.
Context {cd : Casadi}.

(** The option methods leave everything but the options alone. *)
Lemma reset_frame (p : OptimizationProblem.t cd) (delete_all : bool) :
  let p' := OptimizationProblem.reset_solver_options p delete_all in
  OptimizationProblem.decision_variables p'
  = OptimizationProblem.decision_variables p
  /\ OptimizationProblem.objectives p' = OptimizationProblem.objectives p
  /\ OptimizationProblem.constraints p' = OptimizationProblem.constraints p
  /\ OptimizationProblem.result p' = OptimizationProblem.result p
  /\ OptimizationProblem.solved p' = OptimizationProblem.solved p
  /\ OptimizationProblem.verbose p' = OptimizationProblem.verbose p
  /\ OptimizationProblem.solver_name p' = OptimizationProblem.solver_name p.
Proof.
  unfold OptimizationProblem.reset_solver_options.
  destruct delete_all; simpl; [repeat split|].
  destruct (String.eqb (OptimizationProblem.solver_name p) "ipopt");
    simpl; repeat split.
Qed.

Lemma add_constraint_ok (p : OptimizationProblem.t cd) (equation : SX)
      (lower_bound upper_bound : float) (name group : option string)
      (p' : OptimizationProblem.t cd) :
  OptimizationProblem.add_constraint
    p equation lower_bound upper_bound name group = Ok p' ->
  (upper_bound <? lower_bound)%float = false
  /\ p' = OptimizationProblem.mk
            (OptimizationProblem.decision_variables p)
            (OptimizationProblem.objectives p)
            (OptimizationProblem.constraints p
             ++ [OptimizationComponent.mk
                   (Some match name with
                         | None =>
                             ("Constraint_"
                              ++ Py.str_of_nat
                                   (List.length
                                      (OptimizationProblem.constraints p)
                                    + 1))%string
                         | Some n => n
                         end)
                   equation lower_bound upper_bound group])
            (OptimizationProblem.result p) (OptimizationProblem.verbose p)
            (OptimizationProblem.solved p)
            (OptimizationProblem.solver_name p)
            (OptimizationProblem.solver_options p).
Proof.
  unfold OptimizationProblem.add_constraint,
    OptimizationProblem._check_bounds.
  destruct (upper_bound <? lower_bound)%float; simpl; [discriminate|].
  intros H. injection H as <-. split; reflexivity.
Qed.

Lemma add_decision_variable_ok (p : OptimizationProblem.t cd)
      (name : string) (lower_bound upper_bound : float)
      (group : option string) (p' : OptimizationProblem.t cd) (x : SX) :
  OptimizationProblem.add_decision_variable
    p name lower_bound upper_bound group = Ok (p', x) ->
  (upper_bound <? lower_bound)%float = false
  /\ x = SX_sym name
  /\ p' = OptimizationProblem.mk
            (OptimizationProblem.decision_variables p
             ++ [DecisionVariable.mk
                   (OptimizationComponent.mk
                      (Some name) (SX_sym name) lower_bound upper_bound group)
                   false])
            (OptimizationProblem.objectives p)
            (OptimizationProblem.constraints p)
            (OptimizationProblem.result p) (OptimizationProblem.verbose p)
            (OptimizationProblem.solved p)
            (OptimizationProblem.solver_name p)
            (OptimizationProblem.solver_options p).
Proof.
  unfold OptimizationProblem.add_decision_variable,
    OptimizationProblem._check_bounds.
  destruct (upper_bound <? lower_bound)%float; simpl; [discriminate|].
  intros H. injection H as <- <-. repeat split.
Qed.

Lemma add_objective_ok (p : OptimizationProblem.t cd) (objective : SX)
      (name group : option string) (p' : OptimizationProblem.t cd) :
  OptimizationProblem.add_objective p objective name group = Ok p' ->
  p' = OptimizationProblem.mk
         (OptimizationProblem.decision_variables p)
         (OptimizationProblem.objectives p
          ++ [OptimizationComponent.mk
                (Some match name with
                      | None =>
                          ("Objective_"
                           ++ Py.str_of_nat
                                (List.length (OptimizationProblem.objectives p)
                                 + 1))%string
                      | Some n => n
                      end)
                objective neg_infinity infinity group])
         (OptimizationProblem.constraints p)
         (OptimizationProblem.result p) (OptimizationProblem.verbose p)
         (OptimizationProblem.solved p)
         (OptimizationProblem.solver_name p)
         (OptimizationProblem.solver_options p).
Proof.
  unfold OptimizationProblem.add_objective. simpl.
  intros H. injection H as <-. reflexivity.
Qed.

End WithCasadi.
End AssemblyFacts.

Section Assembling.
Context {cd : Casadi}.

Lemma NoDup_map_inj {A B} (f : A -> B) (l : list A) :
  (forall a b, f a = f b -> a = b) -> NoDup l -> NoDup (map f l).
Proof.
  intros Hinj Hnd. induction Hnd as [|a l Ha Hnd IH]; simpl; constructor.
  - intros Hin. apply in_map_iff in Hin. destruct Hin as (b & Hb & Hin).
    apply Hinj in Hb. subst b. contradiction.
  - exact IH.
Qed.

Lemma unnamed_names (specs : list (SX * (float * float) * option string)) :
  forall p p' : OptimizationProblem.t cd,
    add_unnamed_constraints p specs = Ok p' ->
    OptimizationProblem.names_constraints p'
    = OptimizationProblem.names_constraints p
      ++ map (fun i => Some ("Constraint_" ++ Py.str_of_nat (S i))%string)
             (seq (List.length (OptimizationProblem.constraints p))
                  (List.length specs)).
Proof.
  induction specs as [|[[e [lb ub]] g] specs IH]; intros p p' H; simpl in H.
  - injection H as <-. simpl. rewrite app_nil_r. reflexivity.
  - destruct (OptimizationProblem.add_constraint p e lb ub None g)
      as [p1|] eqn:E; simpl in H; [|discriminate].
    apply AssemblyFacts.add_constraint_ok in E. destruct E as [_ ->].
    rewrite (IH _ _ H). unfold OptimizationProblem.names_constraints.
    simpl. rewrite map_app, length_app. simpl.
    rewrite <- app_assoc. simpl. rewrite !Nat.add_1_r. reflexivity.
Qed.

(** X2. Constraints added without a name to a problem that has none get
    the names [Constraint_1], [Constraint_2], ... in the order they are
    added, and these names are pairwise different. *)
Theorem unnamed_constraints_numbered
        (p p' : OptimizationProblem.t cd)
        (specs : list (SX * (float * float) * option string)) :
  OptimizationProblem.constraints p = [] ->
  add_unnamed_constraints p specs = Ok p' ->
  OptimizationProblem.names_constraints p'
  = map (fun i => Some ("Constraint_" ++ Py.str_of_nat (S i))%string)
        (seq 0 (List.length specs))
  /\ NoDup (OptimizationProblem.names_constraints p')
  /\ List.length (OptimizationProblem.constraints p') = List.length specs.
Proof.
  intros Hempty H.
  assert (E : OptimizationProblem.names_constraints p'
              = map (fun i =>
                       Some ("Constraint_" ++ Py.str_of_nat (S i))%string)
                    (seq 0 (List.length specs))).
  { rewrite (unnamed_names specs p p' H).
    unfold OptimizationProblem.names_constraints. rewrite Hempty.
    reflexivity. }
  split; [exact E|]. split.
  - rewrite E. apply NoDup_map_inj; [|apply seq_NoDup].
    intros a b Hab. injection Hab as Hab.
    apply AssemblyFacts.str_of_nat_inj in Hab. lia.
  - apply (f_equal (@List.length _)) in E.
    unfold OptimizationProblem.names_constraints in E.
    rewrite !length_map, length_seq in E. exact E.
Qed.

(** X3. In every problem assembled through the add-operations and the
    option methods, no constraint and no decision variable has its upper
    bound below its lower bound, and every objective has the bounds
    [-inf] and [inf]. *)
Theorem assembled_bounds_ordered (p : OptimizationProblem.t cd) :
  assembled p ->
  Forall bounds_ordered (OptimizationProblem.constraints p)
  /\ Forall (fun v => bounds_ordered (DecisionVariable.base v))
            (OptimizationProblem.decision_variables p)
  /\ Forall (fun o => OptimizationComponent.lower_bound o = neg_infinity
                      /\ OptimizationComponent.upper_bound o = infinity)
            (OptimizationProblem.objectives p).
Proof.
  induction 1 as [n v|p name lb ub g p' x _ IH H|p e lb ub n g p' _ IH H
                  |p o n g p' _ IH H|p pre kw _ IH|p d _ IH|p n _ IH].
  - unfold OptimizationProblem.init.
    destruct (AssemblyFacts.reset_frame
                (OptimizationProblem.mk [] [] [] None v false n []) false)
      as (-> & -> & -> & _).
    simpl. repeat split; constructor.
  - apply AssemblyFacts.add_decision_variable_ok in H.
    destruct H as (Hb & _ & ->). simpl. destruct IH as (Hc & Hv & Ho).
    repeat split; try assumption.
    apply Forall_app. split; [exact Hv|]. constructor; [exact Hb|constructor].
  - apply AssemblyFacts.add_constraint_ok in H.
    destruct H as (Hb & ->). simpl. destruct IH as (Hc & Hv & Ho).
    repeat split; try assumption.
    apply Forall_app. split; [exact Hc|]. constructor; [exact Hb|constructor].
  - apply AssemblyFacts.add_objective_ok in H. subst p'. simpl.
    destruct IH as (Hc & Hv & Ho). repeat split; try assumption.
    apply Forall_app. split; [exact Ho|]. constructor; [|constructor].
    split; reflexivity.
  - exact IH.
  - destruct (AssemblyFacts.reset_frame p d) as (-> & -> & -> & _).
    exact IH.
  - unfold OptimizationProblem.set_solver_name.
    match goal with
    | |- context [OptimizationProblem.reset_solver_options ?q false] =>
        destruct (AssemblyFacts.reset_frame q false) as (-> & -> & -> & _)
    end.
    exact IH.
Qed.

(** X4. The problem is unsolved and without result as long as it is only
    assembled; every component added has a name; every decision variable
    is continuous ([is_discrete] false) and its symbolic variable is
    [SX.sym] of its name. *)
Theorem assembled_components_named (p : OptimizationProblem.t cd) :
  assembled p ->
  OptimizationProblem.solved p = false
  /\ OptimizationProblem.result p = None
  /\ Forall (fun c => OptimizationComponent.name c <> None)
            (OptimizationProblem.constraints p)
  /\ Forall (fun o => OptimizationComponent.name o <> None)
            (OptimizationProblem.objectives p)
  /\ Forall (fun v => DecisionVariable.is_discrete v = false
                      /\ exists n, DecisionVariable.name v = Some n
                                   /\ DecisionVariable.variable v = SX_sym n)
            (OptimizationProblem.decision_variables p).
Proof.
  induction 1 as [n v|p name lb ub g p' x _ IH H|p e lb ub n g p' _ IH H
                  |p o n g p' _ IH H|p pre kw _ IH|p d _ IH|p n _ IH].
  - unfold OptimizationProblem.init.
    destruct (AssemblyFacts.reset_frame
                (OptimizationProblem.mk [] [] [] None v false n []) false)
      as (-> & -> & -> & -> & -> & _).
    simpl. repeat split; constructor.
  - apply AssemblyFacts.add_decision_variable_ok in H.
    destruct H as (_ & _ & ->). simpl.
    destruct IH as (Hs & Hr & Hc & Ho & Hv).
    repeat split; try assumption.
    apply Forall_app. split; [exact Hv|]. constructor; [|constructor].
    split; [reflexivity|]. exists name. split; reflexivity.
  - apply AssemblyFacts.add_constraint_ok in H.
    destruct H as (_ & ->). simpl.
    destruct IH as (Hs & Hr & Hc & Ho & Hv).
    repeat split; try assumption.
    apply Forall_app. split; [exact Hc|]. constructor; [|constructor].
    simpl. discriminate.
  - apply AssemblyFacts.add_objective_ok in H. subst p'. simpl.
    destruct IH as (Hs & Hr & Hc & Ho & Hv).
    repeat split; try assumption.
    apply Forall_app. split; [exact Ho|]. constructor; [|constructor].
    simpl. discriminate.
  - exact IH.
  - destruct (AssemblyFacts.reset_frame p d) as (-> & -> & -> & -> & -> & _).
    exact IH.
  - unfold OptimizationProblem.set_solver_name.
    match goal with
    | |- context [OptimizationProblem.reset_solver_options ?q false] =>
        destruct (AssemblyFacts.reset_frame q false)
          as (-> & -> & -> & -> & -> & _)
    end.
    exact IH.
Qed.

(** X5. [add_constraint] and [add_decision_variable] succeed exactly when
    [lower_bound <= upper_bound] or one of the two bounds is NaN: the check
    [upper_bound < lower_bound] does not see a NaN. *)
Theorem add_accepts_ordered_or_nan (p : OptimizationProblem.t cd)
        (equation : SX) (name : string) (cname group : option string)
        (lower_bound upper_bound : float) :
  ((exists p', OptimizationProblem.add_constraint
                 p equation lower_bound upper_bound cname group = Ok p')
   <-> ((lower_bound <=? upper_bound)%float = true
        \/ is_nan lower_bound = true \/ is_nan upper_bound = true))
  /\ ((exists p' x, OptimizationProblem.add_decision_variable
                      p name lower_bound upper_bound group = Ok (p', x))
      <-> ((lower_bound <=? upper_bound)%float = true
           \/ is_nan lower_bound = true \/ is_nan upper_bound = true)).
Proof.
  rewrite <- (AssemblyFacts.ltb_false_iff upper_bound lower_bound).
  unfold OptimizationProblem.add_constraint,
    OptimizationProblem.add_decision_variable,
    OptimizationProblem._check_bounds.
  destruct (upper_bound <? lower_bound)%float; simpl; split; split;
    try (intros [p' H]; discriminate);
    try (intros (p' & x & H); discriminate);
    try discriminate; try reflexivity; intros _; eauto.
Qed.

End Assembling.

Section Options.
Context {cd : Casadi}.

Lemma add_solver_options_assign (p : OptimizationProblem.t cd)
      (prefix : option string) (kwargs : Py.dict string optval) :
  OptimizationProblem.solver_options
    (OptimizationProblem.add_solver_options p prefix kwargs)
  = fold_left
      (fun d kv => Py.setitem String.eqb d (fst kv) (snd kv))
      (map (fun kv =>
              ((match prefix with
                | Some s => s ++ "."
                | None => ""
                end ++ fst kv)%string,
               snd kv))
           kwargs)
      (OptimizationProblem.solver_options p).
Proof.
  unfold OptimizationProblem.add_solver_options. simpl.
  rewrite <- (ViewNormalForm.fold_left_pairs
                (Py.setitem String.eqb)
                (fun kv : string * optval =>
                   (match prefix with
                    | Some s => s ++ "."
                    | None => ""
                    end ++ fst kv)%string)
                snd).
  apply AssemblyFacts.fold_left_ext. intros d [k v]. reflexivity.
Qed.

(** X6. After [add_solver_options(prefix, **kwargs)], looking up
    [prefix + "." + key] (the bare key without prefix) gives the value
    passed for [key], whatever was stored under it before; every key that
    is not one of these keeps what it had (or stays missing); nothing but
    the options changes. *)
Theorem added_options_stored (p : OptimizationProblem.t cd)
        (prefix : option string) (kwargs : Py.dict string optval)
        (key : string) (value : optval) :
  NoDup (map fst kwargs) ->
  In (key, value) kwargs ->
  let full k := (match prefix with
                 | Some s => s ++ "."
                 | None => ""
                 end ++ k)%string in
  let p' := OptimizationProblem.add_solver_options p prefix kwargs in
  Py.getitem String.eqb (OptimizationProblem.solver_options p') (full key)
  = Ok value
  /\ (forall k,
         (forall key', In key' (map fst kwargs) -> full key' <> k) ->
         Py.getitem String.eqb (OptimizationProblem.solver_options p') k
         = Py.getitem String.eqb (OptimizationProblem.solver_options p) k)
  /\ OptimizationProblem.decision_variables p'
     = OptimizationProblem.decision_variables p
  /\ OptimizationProblem.constraints p' = OptimizationProblem.constraints p
  /\ OptimizationProblem.objectives p' = OptimizationProblem.objectives p
  /\ OptimizationProblem.solver_name p' = OptimizationProblem.solver_name p.
Proof.
  intros Hnd Hin full p'. subst p'.
  split; [|split; [|repeat split]].
  - rewrite add_solver_options_assign.
    destruct (in_split _ _ Hin) as (l1 & l2 & ->).
    rewrite map_app. simpl.
    apply (DictFacts.getitem_assign_last String.eqb String.eqb_eq).
    intros kv Hkv. apply in_map_iff in Hkv.
    destruct Hkv as ([k2 v2] & <- & Hk2). simpl. intros E.
    apply AssemblyFacts.append_inv_head in E. subst k2.
    rewrite map_app in Hnd. simpl in Hnd.
    apply NoDup_remove_2 in Hnd. apply Hnd. apply in_or_app. right.
    apply in_map_iff. exists (key, v2). split; [reflexivity|exact Hk2].
  - intros k Hk. rewrite add_solver_options_assign.
    apply (DictFacts.getitem_assign_other String.eqb String.eqb_eq).
    intros kv Hkv. apply in_map_iff in Hkv.
    destruct Hkv as ([k2 v2] & <- & Hk2). simpl. apply Hk.
    apply in_map_iff. exists (k2, v2). split; [reflexivity|exact Hk2].
Qed.

(** X1. [reset_solver_options] forgets what was stored: resetting after a
    reset or after [add_solver_options] gives what the last reset alone
    gives (so two resets in a row give the same mapping), [delete_all]
    leaves no option, changing the solver name drops the options added
    before, and a reset touches nothing but the options. *)
Theorem reset_forgets_options (p : OptimizationProblem.t cd)
        (delete_all delete_all' : bool) (prefix : option string)
        (kwargs : Py.dict string optval) (name : string) :
  OptimizationProblem.reset_solver_options
    (OptimizationProblem.reset_solver_options p delete_all) delete_all'
  = OptimizationProblem.reset_solver_options p delete_all'
  /\ OptimizationProblem.reset_solver_options
       (OptimizationProblem.add_solver_options p prefix kwargs) delete_all'
     = OptimizationProblem.reset_solver_options p delete_all'
  /\ OptimizationProblem.solver_options
       (OptimizationProblem.reset_solver_options p true) = []
  /\ OptimizationProblem.set_solver_name
       (OptimizationProblem.add_solver_options p prefix kwargs) name
     = OptimizationProblem.set_solver_name p name
  /\ OptimizationProblem.set_solver_options
       (OptimizationProblem.reset_solver_options p delete_all)
       (OptimizationProblem.solver_options p)
     = p.
Proof.
  destruct p as [dvs os cs r v s n o].
  unfold OptimizationProblem.reset_solver_options,
    OptimizationProblem.add_solver_options,
    OptimizationProblem.set_solver_name,
    OptimizationProblem.set_solver_options.
  repeat split; cbn -[String.eqb];
    destruct delete_all, delete_all', v; cbn -[String.eqb];
    try reflexivity;
    destruct (String.eqb n "ipopt") eqn:E; cbn -[String.eqb];
    rewrite ?E; try reflexivity;
    destruct (String.eqb name "ipopt"); reflexivity.
Qed.

End Options.

Lemma added_options_stored_witness :
  NoDup (map fst Cases.two_options)
  /\ In ("print_level"%string, OInt 0) Cases.two_options
  /\ Py.getitem String.eqb
       (OptimizationProblem.solver_options Scenario.once_problem)
       "ipopt.print_level"%string = Ok (OInt 4)
  /\ Py.getitem String.eqb
       (OptimizationProblem.solver_options
          (OptimizationProblem.add_solver_options
             Scenario.once_problem (Some "ipopt"%string) Cases.two_options))
       "ipopt.print_level"%string = Ok (OInt 0)
  /\ OptimizationProblem.solver_options
       (OptimizationProblem.add_solver_options
          Scenario.once_problem (Some "ipopt"%string) Cases.two_options)
     = [("print_time"%string, OBool false);
        ("ipopt.suppress_all_output"%string, OStr "yes");
        ("ipopt.linear_solver"%string, OStr "mumps");
        ("ipopt.print_level"%string, OInt 0);
        ("ipopt.max_iter"%string, OInt 100)].
Proof.
  assert (Hnd : NoDup (map fst Cases.two_options)).
  { simpl. repeat constructor; simpl; intuition discriminate. }
  assert (Hin : In ("print_level"%string, OInt 0) Cases.two_options)
    by (left; reflexivity).
  split; [exact Hnd|]. split; [exact Hin|]. split; [reflexivity|].
  split; [|reflexivity].
  exact (proj1 (@added_options_stored
                  Scenario.solves_at_once Scenario.once_problem
                  (Some "ipopt"%string) Cases.two_options
                  "print_level"%string (OInt 0) Hnd Hin)).
Defined.

Lemma unnamed_constraints_numbered_witness :
  OptimizationProblem.constraints Cases.with_variable = []
  /\ exists p',
       add_unnamed_constraints Cases.with_variable Cases.two_unnamed = Ok p'
       /\ OptimizationProblem.names_constraints p'
          = [Some "Constraint_1"%string; Some "Constraint_2"%string]
       /\ NoDup (OptimizationProblem.names_constraints p').
Proof.
  split; [reflexivity|].
  destruct (add_unnamed_constraints Cases.with_variable Cases.two_unnamed)
    as [p'|e] eqn:E; [|vm_compute in E; discriminate].
  exists p'. split; [reflexivity|].
  destruct (@unnamed_constraints_numbered
              Scenario.solves_at_once Cases.with_variable p'
              Cases.two_unnamed eq_refl E) as (Hn & Hd & _).
  split; [exact Hn|exact Hd].
Defined.

Lemma assembled_once_problem :
  @assembled Scenario.solves_at_once Scenario.once_problem.
Proof.
  apply (@assembled_objective Scenario.solves_at_once
                              Cases.with_constraint (Stub.Sym "x") None None);
    [|reflexivity].
  apply (@assembled_constraint Scenario.solves_at_once
                               Cases.with_variable (Stub.Sym "x")
                               3%float infinity None None);
    [|reflexivity].
  apply (@assembled_variable Scenario.solves_at_once
                             Cases.fresh "x"%string 0%float 10%float None
                             Cases.with_variable (Stub.Sym "x"));
    [|reflexivity].
  apply assembled_init.
Defined.

Lemma assembled_bounds_ordered_witness :
  @assembled Scenario.solves_at_once Scenario.once_problem
  /\ Forall bounds_ordered
            (OptimizationProblem.constraints Scenario.once_problem)
  /\ map (fun c => (OptimizationComponent.lower_bound c,
                    OptimizationComponent.upper_bound c))
         (OptimizationProblem.constraints Scenario.once_problem)
     = [(3%float, infinity)].
Proof.
  split; [exact assembled_once_problem|]. split; [|reflexivity].
  exact (proj1 (@assembled_bounds_ordered
                  Scenario.solves_at_once Scenario.once_problem
                  assembled_once_problem)).
Defined.

Lemma assembled_components_named_witness :
  @assembled Scenario.solves_at_once Scenario.once_problem
  /\ OptimizationProblem.solved Scenario.once_problem = false
  /\ OptimizationProblem.result Scenario.once_problem = None
  /\ Forall (fun c => OptimizationComponent.name c <> None)
            (OptimizationProblem.constraints Scenario.once_problem).
Proof.
  split; [exact assembled_once_problem|].
  destruct (@assembled_components_named
              Scenario.solves_at_once Scenario.once_problem
              assembled_once_problem) as (Hs & Hr & Hc & _).
  auto.
Defined.

(* ================================================================= *)
(** ** More on what a run leaves behind *)

Module RunFacts.

Lemma enumerate_values {A} (x : list float) :
  forall (l : list A) (pre : list float),
    List.length x = List.length l ->
    map (fun '(count, _) => nth count (pre ++ x) 0%float)
        (combine (seq (List.length pre) (List.length l)) l)
    = x.
Proof.
  induction x as [|v x IH]; intros [|a l] pre Hlen; simpl in *;
    try discriminate; [reflexivity|].
  rewrite app_nth2 by lia. rewrite Nat.sub_diag. simpl. f_equal.
  specialize (IH l (pre ++ [v])).
  rewrite length_app, <- app_assoc in IH. simpl in IH.
  rewrite Nat.add_1_r in IH. apply IH. lia.
Qed.

Section WithCasadi.
Context {cd : Casadi}.

Lemma saved_decision_values (p : OptimizationProblem.t cd) (x : list float) :
  List.length x = List.length (OptimizationProblem.decision_variables p) ->
  map ResultComponent.optimal_value
      (OptimizationResult.decision_variables (saved p x))
  = map Some x.
Proof.
  intros Hlen. unfold saved. cbn [OptimizationResult.decision_variables].
  rewrite map_map.
  transitivity
    (map Some
         (map (fun '(count, _) => nth count ([] ++ x) 0%float)
              (combine
                 (seq (List.length (@nil float))
                      (List.length (OptimizationProblem.decision_variables p)))
                 (OptimizationProblem.decision_variables p)))).
  - rewrite map_map. unfold OptimizationResult.enumerate.
    apply map_ext. intros [count v]. reflexivity.
  - rewrite (enumerate_values
               x (OptimizationProblem.decision_variables p) [] Hlen).
    reflexivity.
Qed.

Lemma map_enumerate_snd {A B} (f : A -> B) (l : list A) :
  map (fun cv => f (snd cv)) (OptimizationResult.enumerate l) = map f l.
Proof.
  unfold OptimizationResult.enumerate.
  assert (G : forall k, map (fun cv : nat * A => f (snd cv))
                            (combine (seq k (List.length l)) l)
                        = map f l).
  { induction l as [|a l IH]; intros k; simpl; [reflexivity|].
    rewrite IH. reflexivity. }
  exact (G 0).
Qed.

Lemma saved_decision_names (p : OptimizationProblem.t cd) (x : list float) :
  map ResultComponent.name
      (OptimizationResult.decision_variables (saved p x))
  = map (fun v => DecisionVariable.name v)
        (OptimizationProblem.decision_variables p)
  /\ map ResultComponent.group
         (OptimizationResult.decision_variables (saved p x))
     = map (fun v => DecisionVariable.group v)
           (OptimizationProblem.decision_variables p).
Proof.
  unfold saved. cbn [OptimizationResult.decision_variables].
  rewrite !map_map. split.
  - rewrite <- (map_enumerate_snd (fun v => DecisionVariable.name v)).
    apply map_ext. intros [count v]. reflexivity.
  - rewrite <- (map_enumerate_snd (fun v => DecisionVariable.group v)).
    apply map_ext. intros [count v]. reflexivity.
Qed.

Lemma tally (p : OptimizationProblem.t cd) (n : nat)
      (evs : list Solver.event) :
  forall g,
    chained p n g evs ->
    List.length (successes evs) + List.length (failures evs)
    = List.length evs.
Proof.
  induction evs as [|[v|a r [|]] evs IH]; intros g H; simpl in *;
    try contradiction; try reflexivity;
    destruct H as (_ & _ & _ & H); specialize (IH _ H); lia.
Qed.

End WithCasadi.
End RunFacts.

Section Aftermath.
Context {cd : Casadi}.

Variable Inv : NlpSolver -> Prop.
Variable random : nat -> float.
Variable self : Solver.t cd.
Variable p : OptimizationProblem.t cd.

(** X10. After a run that ends solved, the result mirrors the problem
    category by category: the names and groups of its components are those
    of the problem's constraints, decision variables and objectives, in
    order; the optimal values of the decision variables are the entries of
    the primal vector of the selected trial; the optimal value of every
    objective is its own expression evaluated there, and no flag is set on
    an objective.  The components of the problem are as before the run. *)
Theorem result_mirrors_problem (trials : Z) (guess : option (list float)) :
  ready Inv self p ->
  exists self' log,
    Solver.start random self trials guess = Ok (self', log)
    /\ forall p',
         Solver.problem self' = Some p' ->
         OptimizationProblem.solved p' = true ->
         exists best r,
           Solver.solver_result self' = Some best
           /\ OptimizationProblem.result p' = Some r
           /\ map ResultComponent.name (OptimizationResult.constraints r)
              = OptimizationProblem.names_constraints p
           /\ map ResultComponent.group (OptimizationResult.constraints r)
              = map (fun c => OptimizationComponent.group c)
                    (OptimizationProblem.constraints p)
           /\ map ResultComponent.name
                  (OptimizationResult.decision_variables r)
              = map (fun v => DecisionVariable.name v)
                    (OptimizationProblem.decision_variables p)
           /\ map ResultComponent.group
                  (OptimizationResult.decision_variables r)
              = map (fun v => DecisionVariable.group v)
                    (OptimizationProblem.decision_variables p)
           /\ map ResultComponent.name (OptimizationResult.objectives r)
              = map (fun o => OptimizationComponent.name o)
                    (OptimizationProblem.objectives p)
           /\ map ResultComponent.group (OptimizationResult.objectives r)
              = map (fun o => OptimizationComponent.group o)
                    (OptimizationProblem.objectives p)
           /\ map ResultComponent.optimal_value
                  (OptimizationResult.decision_variables r)
              = map Some (out_x best)
           /\ map ResultComponent.optimal_value
                  (OptimizationResult.objectives r)
              = map (fun o =>
                       Some (value_at p (out_x best)
                                      (OptimizationComponent.variable o)))
                    (OptimizationProblem.objectives p)
           /\ Forall (fun rc =>
                        ResultComponent.lower_bound_active rc = false
                        /\ ResultComponent.upper_bound_active rc = false)
                     (OptimizationResult.objectives r)
           /\ OptimizationProblem.constraints p'
              = OptimizationProblem.constraints p
           /\ OptimizationProblem.decision_variables p'
              = OptimizationProblem.decision_variables p
           /\ OptimizationProblem.objectives p'
              = OptimizationProblem.objectives p.
Proof.
  intros Hready.
  destruct (SolverFacts.start_outcome Inv random self p trials guess Hready)
    as (evs & inst & Hlen & Hch & Hout).
  destruct Hout as [(Hnone & E)|(k & best & Hk & Hbest & E)];
    rewrite E; do 2 eexists; (split; [reflexivity|]);
    intros p' Hp' Hsolved; simpl in Hp'; injection Hp' as <-;
    simpl in Hsolved; [discriminate|].
  assert (Hx : List.length (out_x best)
               = List.length (OptimizationProblem.decision_variables p)).
  { apply (SolverFacts.chained_successes p _ evs _ best Hch).
    eapply nth_error_In. exact Hbest. }
  exists best, (saved p (out_x best)).
  split; [reflexivity|]. split; [reflexivity|].
  destruct (RunFacts.saved_decision_names p (out_x best)) as [Hn Hg].
  split.
  { unfold OptimizationProblem.names_constraints, saved.
    cbn [OptimizationResult.constraints]. rewrite map_map. reflexivity. }
  split.
  { unfold saved. cbn [OptimizationResult.constraints].
    rewrite map_map. reflexivity. }
  split; [exact Hn|]. split; [exact Hg|].
  split.
  { unfold saved. cbn [OptimizationResult.objectives].
    rewrite map_map. reflexivity. }
  split.
  { unfold saved. cbn [OptimizationResult.objectives].
    rewrite map_map. reflexivity. }
  split; [exact (RunFacts.saved_decision_values p (out_x best) Hx)|].
  split.
  { unfold saved. cbn [OptimizationResult.objectives].
    rewrite map_map. reflexivity. }
  split; [|repeat split].
  apply Forall_forall. intros rc Hrc. apply in_map_iff in Hrc.
  destruct Hrc as (o & <- & _). split; reflexivity.
Qed.

End Aftermath.

Module ActivityFacts.

Lemma infinity_spec (b : float) :
  is_infinity b = true -> exists s, Prim2SF b = S754_infinity s.
Proof.
  unfold is_infinity. rewrite eqb_spec, abs_spec.
  change (Prim2SF infinity) with (S754_infinity false).
  destruct (Prim2SF b) as [s|s| |s m e]; simpl; intros H;
    try discriminate; eauto.
Qed.

(** Nothing is within 1e-5 of an infinite bound. *)
Lemma far_from_infinity (b v : float) :
  is_infinity b = true -> (abs (b - v) <? 1e-5)%float = false.
Proof.
  intros H. destruct (infinity_spec b H) as [s Hs].
  rewrite ltb_spec, abs_spec, sub_spec, Hs.
  destruct (Prim2SF v) as [sv|sv| |sv mv ev]; destruct s; try destruct sv;
    vm_compute; reflexivity.
Qed.

(** A value that is a finite bound is within 1e-5 of it. *)
Lemma on_finite_bound (b : float) :
  is_finite b = true -> (abs (b - b) <? 1e-5)%float = true.
Proof.
  intros H. rewrite ltb_spec, abs_spec, sub_spec.
  destruct (SumFacts.finite_spec b H) as [[s ->]|(s & m & e & ->)].
  - destruct s; vm_compute; reflexivity.
  - unfold SF64sub, SFsub. rewrite Z.sub_diag. vm_compute. reflexivity.
Qed.

End ActivityFacts.

Section AftermathViews.
Context {cd : Casadi}.

Variable Inv : NlpSolver -> Prop.
Variable random : nat -> float.
Variable self : Solver.t cd.
Variable p : OptimizationProblem.t cd.

(** X11. After a run that ends solved, the list views of the result give
    back the solution: [optimal_decision_variables()] is the primal vector
    of the selected trial, [optimal_constraint_values()] and
    [optimal_objective_values()] are the constraint and objective
    expressions evaluated there, in the order of the problem, and
    [optimal_objective_sum()] is the sum over the latter. *)
Theorem views_of_solved_result (trials : Z) (guess : option (list float)) :
  ready Inv self p ->
  exists self' log,
    Solver.start random self trials guess = Ok (self', log)
    /\ forall p',
         Solver.problem self' = Some p' ->
         OptimizationProblem.solved p' = true ->
         exists best r,
           Solver.solver_result self' = Some best
           /\ OptimizationProblem.result p' = Some r
           /\ OptimizationResult.optimal_decision_variables r false None
              = OptimizationResult.AsList (map PyFloat (out_x best))
           /\ OptimizationResult.optimal_constraint_values r false None
              = OptimizationResult.AsList
                  (map (fun c =>
                          PyFloat (value_at p (out_x best)
                                            (OptimizationComponent.variable c)))
                       (OptimizationProblem.constraints p))
           /\ OptimizationResult.optimal_objective_values r false None
              = OptimizationResult.AsList
                  (map (fun o =>
                          PyFloat (value_at p (out_x best)
                                            (OptimizationComponent.variable o)))
                       (OptimizationProblem.objectives p))
           /\ OptimizationResult.optimal_objective_sum r None
              = Py.sum
                  (map (fun o =>
                          PyFloat (value_at p (out_x best)
                                            (OptimizationComponent.variable o)))
                       (OptimizationProblem.objectives p)).
Proof.
  intros Hready.
  destruct (SolverFacts.start_outcome Inv random self p trials guess Hready)
    as (evs & inst & Hlen & Hch & Hout).
  destruct Hout as [(Hnone & E)|(k & best & Hk & Hbest & E)];
    rewrite E; do 2 eexists; (split; [reflexivity|]);
    intros p' Hp' Hsolved; simpl in Hp'; injection Hp' as <-;
    simpl in Hsolved; [discriminate|].
  assert (Hx : List.length (out_x best)
               = List.length (OptimizationProblem.decision_variables p)).
  { apply (SolverFacts.chained_successes p _ evs _ best Hch).
    eapply nth_error_In. exact Hbest. }
  exists best, (saved p (out_x best)).
  split; [reflexivity|]. split; [reflexivity|].
  unfold OptimizationResult.optimal_decision_variables,
    OptimizationResult.optimal_constraint_values,
    OptimizationResult.optimal_objective_values,
    OptimizationResult.optimal_objective_sum.
  rewrite !ViewNormalForm.extract_normal. unfold selected.
  split.
  { f_equal.
    transitivity
      (map (fun ov => match ov with
                      | Some f => PyFloat f
                      | None => PyNone
                      end)
           (map ResultComponent.optimal_value
                (OptimizationResult.decision_variables
                   (saved p (out_x best))))).
    - rewrite map_map. reflexivity.
    - rewrite (RunFacts.saved_decision_values p (out_x best) Hx).
      rewrite map_map. reflexivity. }
  unfold saved.
  cbn [OptimizationResult.constraints OptimizationResult.objectives
       OptimizationResult.sum_view].
  rewrite !map_map. repeat split.
Qed.

(** X12. A run ends with the problem solved exactly when at least one
    trial reported success.  Every trial is counted once, as successful or
    as failed.  When none succeeded the run writes neither the result of
    the problem nor the solver result kept by the solver. *)
Theorem solved_exactly_when_a_trial_succeeded (trials : Z)
        (guess : option (list float)) :
  ready Inv self p ->
  exists self' evs b p',
    Solver.start random self trials guess
    = Ok (self', Solver.EvSolved false :: evs ++ [Solver.EvSolved b])
    /\ Solver.problem self' = Some p'
    /\ OptimizationProblem.solved p' = b
    /\ (b = true <-> successes evs <> [])
    /\ List.length (successes evs) + List.length (failures evs)
       = Z.to_nat trials
    /\ (b = false ->
        OptimizationProblem.result p' = OptimizationProblem.result p
        /\ Solver.solver_result self' = Solver.solver_result self).
Proof.
  intros Hready.
  destruct (SolverFacts.start_outcome Inv random self p trials guess Hready)
    as (evs & inst & Hlen & Hch & Hout).
  pose proof (RunFacts.tally p _ evs _ Hch) as Htally.
  destruct Hout as [(Hnone & E)|(k & best & Hk & Hbest & E)];
    rewrite E; eexists; exists evs; do 2 eexists;
    (split; [reflexivity|]); (split; [reflexivity|]);
    (split; [reflexivity|]).
  - split; [|split; [lia|intros _; split; reflexivity]].
    rewrite Hnone. split; [discriminate|congruence].
  - split; [|split; [lia|discriminate]].
    split; [|reflexivity]. intros _ Hnone.
    rewrite Hnone in Hbest. destruct k; discriminate.
Qed.

(** X15. After a run that ends solved, a constraint bound that is
    infinite is never marked active, whatever the constraint evaluates to,
    and a constraint whose value is exactly its finite upper (lower) bound
    has [upper_bound_active] ([lower_bound_active]) set. *)
Theorem infinite_bounds_never_active (trials : Z)
        (guess : option (list float)) :
  ready Inv self p ->
  exists self' log,
    Solver.start random self trials guess = Ok (self', log)
    /\ forall p',
         Solver.problem self' = Some p' ->
         OptimizationProblem.solved p' = true ->
         exists r,
           OptimizationProblem.result p' = Some r
           /\ forall i c,
                nth_error (OptimizationProblem.constraints p) i = Some c ->
                exists rc,
                  nth_error (OptimizationResult.constraints r) i = Some rc
                  /\ (is_infinity (OptimizationComponent.upper_bound c)
                      = true ->
                      ResultComponent.upper_bound_active rc = false)
                  /\ (is_infinity (OptimizationComponent.lower_bound c)
                      = true ->
                      ResultComponent.lower_bound_active rc = false)
                  /\ (is_finite (OptimizationComponent.upper_bound c)
                      = true ->
                      ResultComponent.optimal_value rc
                      = Some (OptimizationComponent.upper_bound c) ->
                      ResultComponent.upper_bound_active rc = true)
                  /\ (is_finite (OptimizationComponent.lower_bound c)
                      = true ->
                      ResultComponent.optimal_value rc
                      = Some (OptimizationComponent.lower_bound c) ->
                      ResultComponent.lower_bound_active rc = true).
Proof.
  intros Hready.
  destruct (SolverFacts.start_outcome Inv random self p trials guess Hready)
    as (evs & inst & Hlen & Hch & Hout).
  destruct Hout as [(Hnone & E)|(k & best & Hk & Hbest & E)];
    rewrite E; do 2 eexists; (split; [reflexivity|]);
    intros p' Hp' Hsolved; simpl in Hp'; injection Hp' as <-;
    simpl in Hsolved; [discriminate|].
  exists (saved p (out_x best)). split; [reflexivity|].
  intros i c Hc. eexists. split.
  { unfold saved. cbn [OptimizationResult.constraints].
    unfold Constraint.t in Hc. rewrite nth_error_map, Hc. reflexivity. }
  cbn [ResultComponent.upper_bound_active ResultComponent.lower_bound_active
       ResultComponent.optimal_value].
  unfold Solver.activation_epsilon.
  split; [intros H; apply ActivityFacts.far_from_infinity; exact H|].
  split; [intros H; apply ActivityFacts.far_from_infinity; exact H|].
  split; intros Hf Hv; injection Hv as Hv; rewrite Hv;
    apply ActivityFacts.on_finite_bound; exact Hf.
Qed.

End AftermathViews.

(* ================================================================= *)
(** ** Checking a candidate, replacing infinities, solving *)

Section Candidates.
Context {cd : Casadi}.

Lemma check_loop_spec (p : OptimizationProblem.t cd) (candidate : list float)
      (todo : list (Constraint.t cd)) :
  forall acc,
    (Forall (satisfied p candidate) todo
     /\ Solver.check_loop p candidate todo acc
        = Some (acc ++ map (constraint_value p candidate) todo))
    \/ (Exists (fun c => ~ satisfied p candidate c) todo
        /\ Solver.check_loop p candidate todo acc = None).
Proof.
  induction todo as [|c todo IH]; intros acc; simpl.
  - left. rewrite app_nil_r. split; [constructor|reflexivity].
  - fold (value_at p candidate (OptimizationComponent.variable c)).
    fold (constraint_value p candidate c).
    destruct (OptimizationComponent.lower_bound c
              <=? constraint_value p candidate c)%float eqn:Hl;
      [destruct (constraint_value p candidate c
                 <=? OptimizationComponent.upper_bound c)%float eqn:Hu|];
      simpl.
    + destruct (IH (acc ++ [constraint_value p candidate c]))
        as [[Hall E]|[Hex E]].
      * left. split; [constructor; [split; assumption|exact Hall]|].
        rewrite E, <- app_assoc. reflexivity.
      * right. split; [apply Exists_cons_tl; exact Hex|exact E].
    + right. split; [|reflexivity]. apply Exists_cons_hd.
      intros [_ H]. congruence.
    + right. split; [|reflexivity]. apply Exists_cons_hd.
      intros [H _]. congruence.
Qed.

(** X13. [_check_constraints(candidate)] returns the list of the constraint
    values, in order, when every constraint value lies between the bounds
    of its constraint (both inclusive), and [None] as soon as one does
    not; a constraint that evaluates to NaN is never kept, so such a
    candidate is rejected. *)
Theorem check_constraints_accepts_exactly (self : Solver.t cd)
        (p : OptimizationProblem.t cd) (candidate : list float) :
  Solver.problem self = Some p ->
  ((Forall (satisfied p candidate) (OptimizationProblem.constraints p)
    /\ Solver._check_constraints self candidate
       = Ok (Some (map (constraint_value p candidate)
                       (OptimizationProblem.constraints p))))
   \/ (Exists (fun c => ~ satisfied p candidate c)
              (OptimizationProblem.constraints p)
       /\ Solver._check_constraints self candidate = Ok None))
  /\ forall c,
       is_nan (constraint_value p candidate c) = true ->
       ~ satisfied p candidate c.
Proof.
  intros Hp. split.
  - unfold Solver._check_constraints. rewrite Hp.
    destruct (check_loop_spec p candidate
                              (OptimizationProblem.constraints p) [])
      as [[Hall E]|[Hex E]]; rewrite E; [left|right]; auto.
  - intros c Hnan [Hl _].
    apply AssemblyFacts.leb_numbers in Hl. destruct Hl. congruence.
Qed.

(** X16. [solve] raises [NotImplementedError] whenever the solver name in
    force (the one passed, else the one of the problem) is not ['ipopt']. *)
Theorem solve_rejects_other_solvers (random : nat -> float)
        (p : OptimizationProblem.t cd) (solver_name : option string)
        (guess : option (list float)) (trials : Z) :
  match solver_name with
  | Some n => n
  | None => OptimizationProblem.solver_name p
  end <> "ipopt"%string ->
  NonLinearProgramming.solve random p solver_name guess trials
  = Raise NotImplementedError.
Proof.
  intros H. unfold NonLinearProgramming.solve, Solver.init.
  destruct solver_name as [n|]; cbn -[String.eqb].
  - destruct (String.eqb n "ipopt") eqn:E; [|reflexivity].
    apply String.eqb_eq in E. contradiction.
  - destruct (String.eqb (OptimizationProblem.solver_name p) "ipopt") eqn:E;
      [|reflexivity].
    apply String.eqb_eq in E. contradiction.
Qed.

(** X17. Whenever [solve] returns on a problem that carried no result,
    what it returns is the result of the problem after the call: a result
    when the problem ends solved, [None] when it does not.  The solver
    name in force was ['ipopt'], and the components of the problem are as
    before.  Nothing is assumed of the engine. *)
Theorem solve_returns_result_iff_solved (random : nat -> float)
        (p p' : OptimizationProblem.t cd) (solver_name : option string)
        (guess : option (list float)) (trials : Z)
        (returned : option OptimizationResult.t) :
  OptimizationProblem.result p = None ->
  NonLinearProgramming.solve random p solver_name guess trials
  = Ok (p', returned) ->
  returned = OptimizationProblem.result p'
  /\ (OptimizationProblem.solved p' = true <-> returned <> None)
  /\ match solver_name with
     | Some n => n
     | None => OptimizationProblem.solver_name p
     end = "ipopt"%string
  /\ OptimizationProblem.solver_name p' = "ipopt"%string
  /\ OptimizationProblem.constraints p' = OptimizationProblem.constraints p
  /\ OptimizationProblem.decision_variables p'
     = OptimizationProblem.decision_variables p
  /\ OptimizationProblem.objectives p' = OptimizationProblem.objectives p.
Proof.
  intros Hres. unfold NonLinearProgramming.solve.
  set (p1 := match solver_name with
             | Some n => OptimizationProblem.mk _ _ _ _ _ _ n _
             | None => p
             end).
  assert (Hsame :
    OptimizationProblem.result p1 = OptimizationProblem.result p
    /\ OptimizationProblem.constraints p1 = OptimizationProblem.constraints p
    /\ OptimizationProblem.decision_variables p1
       = OptimizationProblem.decision_variables p
    /\ OptimizationProblem.objectives p1 = OptimizationProblem.objectives p
    /\ OptimizationProblem.solver_name p1
       = match solver_name with
         | Some n => n
         | None => OptimizationProblem.solver_name p
         end).
  { subst p1. destruct solver_name; repeat split. }
  destruct Hsame as (Hr1 & Hc1 & Hd1 & Ho1 & Hn1).
  rewrite <- Hn1. clearbody p1.
  unfold Solver.init.
  destruct (String.eqb (OptimizationProblem.solver_name p1) "ipopt") eqn:En;
    cbn [negb Py.bind]; [|discriminate].
  apply String.eqb_eq in En.
  destruct (Solver.start random _ trials guess) as [[solver log]|] eqn:E;
    cbn [Py.bind]; [|discriminate].
  destruct (SolverFacts.start_returned
              random
              (Solver.mk (Some p1) (OptimizationProblem.solver_name p1)
                         None None)
              solver p1 trials guess log eq_refl En E)
    as (evs & b & inst & p2 & _ & _ & _ & Hp2 & Hb & Hc & Hd & Ho & Hn
        & Hfalse & Htrue).
  rewrite Hp2. intros H. injection H as <- <-.
  split; [reflexivity|]. split.
  - destruct b.
    + destruct (Htrue eq_refl) as (r & Hr). rewrite Hr.
      split; [discriminate|intros _; exact Hb].
    + rewrite (Hfalse eq_refl), Hr1, Hres, Hb.
      split; [discriminate|congruence].
  - split; [exact En|]. split; [congruence|].
    split; [congruence|]. split; congruence.
Qed.

End Candidates.

(** X14. [replace_inf] with its default replacement never returns an
    infinity, returns what it is given unless that is an infinity, and
    applying it twice is applying it once. *)
Theorem replace_inf_removes_infinities (value : float) :
  let r := Functions.replace_inf value Functions.default_replace_value in
  (r =? infinity)%float = false
  /\ (r =? neg_infinity)%float = false
  /\ (is_infinity value = false -> r = value)
  /\ Functions.replace_inf r Functions.default_replace_value = r.
Proof.
  unfold Functions.replace_inf, Functions.default_replace_value.
  assert (Hinf : is_infinity value = false ->
                 (value =? infinity)%float = false
                 /\ (value =? neg_infinity)%float = false).
  { unfold is_infinity. rewrite !eqb_spec, abs_spec.
    change (Prim2SF infinity) with (S754_infinity false).
    change (Prim2SF neg_infinity) with (S754_infinity true).
    destruct (Prim2SF value) as [s|s| |s m e]; simpl; try (split; reflexivity);
      destruct s; simpl; intros H; try discriminate; split; reflexivity. }
  destruct (value =? infinity)%float eqn:E1.
  - repeat split; try reflexivity.
    intros H. apply Hinf in H. destruct H. congruence.
  - destruct (value =? neg_infinity)%float eqn:E2.
    + repeat split; try reflexivity.
      intros H. apply Hinf in H. destruct H. congruence.
    + rewrite E1, E2. repeat split; assumption.
Qed.

Lemma ready_once :
  @ready Scenario.solves_at_once Scenario.one_entry
         (Scenario.solver_on Scenario.once_problem) Scenario.once_problem.
Proof.
  apply StubFacts.ready_solver. reflexivity.
Defined.

Lemma result_mirrors_problem_witness :
  @ready Scenario.solves_at_once Scenario.one_entry
         (Scenario.solver_on Scenario.once_problem) Scenario.once_problem
  /\ (exists self' log,
        Solver.start Scenario.half (Scenario.solver_on Scenario.once_problem)
                     1 None = Ok (self', log)
        /\ forall p',
             Solver.problem self' = Some p' ->
             OptimizationProblem.solved p' = true ->
             exists best r,
               Solver.solver_result self' = Some best
               /\ OptimizationProblem.result p' = Some r
               /\ map ResultComponent.name (OptimizationResult.constraints r)
                  = [Some "Constraint_1"%string]
               /\ map ResultComponent.optimal_value
                      (OptimizationResult.decision_variables r)
                  = map Some (out_x best)).
Proof.
  split; [exact ready_once|].
  destruct (@result_mirrors_problem
              Scenario.solves_at_once Scenario.one_entry Scenario.half
              (Scenario.solver_on Scenario.once_problem)
              Scenario.once_problem 1 None ready_once)
    as (self' & log & E & H).
  exists self', log. split; [exact E|].
  intros p' Hp' Hs.
  destruct (H p' Hp' Hs)
    as (best & r & Hb & Hr & Hn & _ & _ & _ & _ & _ & Hv & _).
  exists best, r. auto.
Defined.

Lemma views_of_solved_result_witness :
  @ready Scenario.solves_at_once Scenario.one_entry
         (Scenario.solver_on Scenario.once_problem) Scenario.once_problem
  /\ (exists self' log,
        Solver.start Scenario.half (Scenario.solver_on Scenario.once_problem)
                     1 None = Ok (self', log)
        /\ forall p',
             Solver.problem self' = Some p' ->
             OptimizationProblem.solved p' = true ->
             exists best r,
               Solver.solver_result self' = Some best
               /\ OptimizationProblem.result p' = Some r
               /\ OptimizationResult.optimal_decision_variables r false None
                  = OptimizationResult.AsList (map PyFloat (out_x best)))
  /\ match NonLinearProgramming.solve
             Scenario.half Scenario.once_problem None None 1 with
     | Ok (_, Some r) =>
         OptimizationResult.optimal_decision_variables r false None
         = OptimizationResult.AsList [PyFloat 3]
         /\ OptimizationResult.optimal_decision_variables r true None
            = OptimizationResult.AsDict [(Some "x"%string, PyFloat 3)]
     | _ => False
     end.
Proof.
  split; [exact ready_once|]. split.
  - destruct (@views_of_solved_result
                Scenario.solves_at_once Scenario.one_entry Scenario.half
                (Scenario.solver_on Scenario.once_problem)
                Scenario.once_problem 1 None ready_once)
      as (self' & log & E & H).
    exists self', log. split; [exact E|].
    intros p' Hp' Hs.
    destruct (H p' Hp' Hs) as (best & r & Hb & Hr & Hd & _).
    exists best, r. auto.
  - vm_compute. split; reflexivity.
Defined.

Lemma solved_exactly_when_a_trial_succeeded_witness :
  @ready Scenario.fails_then_solves Scenario.one_entry
         (Scenario.solver_on Scenario.warm_problem) Scenario.warm_problem
  /\ (exists self' evs b p',
        Solver.start Scenario.half (Scenario.solver_on Scenario.warm_problem)
                     2 (Some [1.5%float])
        = Ok (self', Solver.EvSolved false :: evs ++ [Solver.EvSolved b])
        /\ Solver.problem self' = Some p'
        /\ OptimizationProblem.solved p' = b
        /\ (b = true <-> successes evs <> [])
        /\ List.length (successes evs) + List.length (failures evs)
           = Z.to_nat 2)
  /\ match Solver.start Scenario.half
                        (Scenario.solver_on Scenario.warm_problem)
                        2 (Some [1.5%float]) with
     | Ok (_, log) =>
         List.length (successes log) = 1 /\ List.length (failures log) = 1
     | Raise _ => False
     end.
Proof.
  assert (H : @ready Scenario.fails_then_solves Scenario.one_entry
                     (Scenario.solver_on Scenario.warm_problem)
                     Scenario.warm_problem)
    by (apply StubFacts.ready_solver; reflexivity).
  split; [exact H|]. split.
  - destruct (@solved_exactly_when_a_trial_succeeded
                Scenario.fails_then_solves Scenario.one_entry Scenario.half
                (Scenario.solver_on Scenario.warm_problem)
                Scenario.warm_problem 2 (Some [1.5%float]) H)
      as (self' & evs & b & p' & E & Hp & Hs & Hiff & Hcount & _).
    exists self', evs, b, p'. auto.
  - vm_compute. split; reflexivity.
Defined.

(** The constraint [3 <= x] at [x = 3]: the lower bound 3 is active, the
    upper bound [inf] is not. *)
Lemma infinite_bounds_never_active_witness :
  @ready Scenario.solves_at_once Scenario.one_entry
         (Scenario.solver_on Scenario.once_problem) Scenario.once_problem
  /\ (exists self' log,
        Solver.start Scenario.half (Scenario.solver_on Scenario.once_problem)
                     1 None = Ok (self', log)
        /\ forall p',
             Solver.problem self' = Some p' ->
             OptimizationProblem.solved p' = true ->
             exists r, OptimizationProblem.result p' = Some r)
  /\ map (fun c => (is_finite (OptimizationComponent.lower_bound c),
                    is_infinity (OptimizationComponent.upper_bound c)))
         (OptimizationProblem.constraints Scenario.once_problem)
     = [(true, true)]
  /\ match NonLinearProgramming.solve
             Scenario.half Scenario.once_problem None None 1 with
     | Ok (_, Some r) =>
         map (fun rc => (ResultComponent.optimal_value rc,
                         ResultComponent.lower_bound_active rc,
                         ResultComponent.upper_bound_active rc))
             (OptimizationResult.constraints r)
         = [(Some 3%float, true, false)]
     | _ => False
     end.
Proof.
  split; [exact ready_once|]. split; [|split; [reflexivity|]].
  - destruct (@infinite_bounds_never_active
                Scenario.solves_at_once Scenario.one_entry Scenario.half
                (Scenario.solver_on Scenario.once_problem)
                Scenario.once_problem 1 None ready_once)
      as (self' & log & E & H).
    exists self', log. split; [exact E|].
    intros p' Hp' Hs. destruct (H p' Hp' Hs) as (r & Hr & _).
    exists r. exact Hr.
  - vm_compute. reflexivity.
Defined.

(** The candidate [x = 5] keeps [3 <= x]; the candidate [x = 1] does not. *)
Lemma check_constraints_accepts_exactly_witness :
  Solver.problem (Scenario.solver_on Scenario.once_problem)
  = Some Scenario.once_problem
  /\ Solver._check_constraints (Scenario.solver_on Scenario.once_problem)
                               [5%float] = Ok (Some [5%float])
  /\ Solver._check_constraints (Scenario.solver_on Scenario.once_problem)
                               [1%float] = Ok None
  /\ Solver._check_constraints (Scenario.solver_on Scenario.once_problem)
                               [nan] = Ok None
  /\ forall c,
       is_nan (constraint_value Scenario.once_problem [nan] c) = true ->
       ~ satisfied Scenario.once_problem [nan] c.
Proof.
  split; [reflexivity|]. split; [reflexivity|]. split; [reflexivity|].
  split; [reflexivity|].
  exact (proj2 (@check_constraints_accepts_exactly
                  Scenario.solves_at_once
                  (Scenario.solver_on Scenario.once_problem)
                  Scenario.once_problem [nan] eq_refl)).
Defined.

Lemma solve_rejects_other_solvers_witness :
  "bonmin"%string <> "ipopt"%string
  /\ NonLinearProgramming.solve
       Scenario.half Scenario.once_problem (Some "bonmin"%string) None 1
     = Raise NotImplementedError.
Proof.
  assert (H : "bonmin"%string <> "ipopt"%string) by discriminate.
  split; [exact H|].
  exact (@solve_rejects_other_solvers
           Scenario.solves_at_once Scenario.half Scenario.once_problem
           (Some "bonmin"%string) None 1 H).
Defined.

Lemma solve_returns_result_iff_solved_witness :
  OptimizationProblem.result Scenario.once_problem = None
  /\ NonLinearProgramming.solve
       Scenario.half Scenario.once_problem None None 1
     = Ok (fst Cases.solved_once, snd Cases.solved_once)
  /\ snd Cases.solved_once
     = OptimizationProblem.result (fst Cases.solved_once)
  /\ (OptimizationProblem.solved (fst Cases.solved_once) = true
      <-> snd Cases.solved_once <> None)
  /\ OptimizationProblem.solved (fst Cases.solved_once) = true.
Proof.
  assert (E : NonLinearProgramming.solve
                Scenario.half Scenario.once_problem None None 1
              = Ok (fst Cases.solved_once, snd Cases.solved_once))
    by (vm_compute; reflexivity).
  split; [reflexivity|]. split; [exact E|].
  destruct (@solve_returns_result_iff_solved
              Scenario.solves_at_once Scenario.half Scenario.once_problem
              (fst Cases.solved_once) None None 1 (snd Cases.solved_once)
              eq_refl E)
    as (Hr & Hiff & _).
  split; [exact Hr|]. split; [exact Hiff|]. reflexivity.
Defined.

Section Naming.
Context {cd : Casadi}.

Lemma unnamed_objective_names (specs : list (SX * option string)) :
  forall p p' : OptimizationProblem.t cd,
    add_unnamed_objectives p specs = Ok p' ->
    map (fun o => OptimizationComponent.name o)
        (OptimizationProblem.objectives p')
    = map (fun o => OptimizationComponent.name o)
          (OptimizationProblem.objectives p)
      ++ map (fun i => Some ("Objective_" ++ Py.str_of_nat (S i))%string)
             (seq (List.length (OptimizationProblem.objectives p))
                  (List.length specs)).
Proof.
  induction specs as [|[o g] specs IH]; intros p p' H; simpl in H.
  - injection H as <-. simpl. rewrite app_nil_r. reflexivity.
  - destruct (OptimizationProblem.add_objective p o None g)
      as [p1|] eqn:E; simpl in H; [|discriminate].
    apply AssemblyFacts.add_objective_ok in E. subst p1.
    rewrite (IH _ _ H). simpl. rewrite map_app, length_app. simpl.
    rewrite <- app_assoc. simpl. rewrite !Nat.add_1_r. reflexivity.
Qed.

(** X18. Objectives added without a name to a problem that has none are
    all accepted and get the names [Objective_1], [Objective_2], ... in
    the order they are added; these names are pairwise different. *)
Theorem unnamed_objectives_numbered (p : OptimizationProblem.t cd)
        (specs : list (SX * option string)) :
  OptimizationProblem.objectives p = [] ->
  exists p',
    add_unnamed_objectives p specs = Ok p'
    /\ map (fun o => OptimizationComponent.name o)
           (OptimizationProblem.objectives p')
       = map (fun i => Some ("Objective_" ++ Py.str_of_nat (S i))%string)
             (seq 0 (List.length specs))
    /\ NoDup (map (fun o => OptimizationComponent.name o)
                  (OptimizationProblem.objectives p')).
Proof.
  intros Hempty.
  assert (Hok : forall specs (q : OptimizationProblem.t cd),
             exists q', add_unnamed_objectives q specs = Ok q').
  { clear. induction specs as [|[o g] specs IH]; intros q.
    - simpl. eauto.
    - cbn [add_unnamed_objectives].
      unfold OptimizationProblem.add_objective, Objective.init,
        OptimizationComponent.init.
      cbn [Py.bind]. apply IH. }
  destruct (Hok specs p) as [p' H]. exists p'. split; [exact H|].
  assert (E : map (fun o => OptimizationComponent.name o)
                  (OptimizationProblem.objectives p')
              = map (fun i =>
                       Some ("Objective_" ++ Py.str_of_nat (S i))%string)
                    (seq 0 (List.length specs))).
  { rewrite (unnamed_objective_names specs p p' H), Hempty. reflexivity. }
  split; [exact E|]. rewrite E.
  apply NoDup_map_inj; [|apply seq_NoDup].
  intros a b Hab. injection Hab as Hab.
  apply AssemblyFacts.str_of_nat_inj in Hab. lia.
Qed.

(** X19. Names are not kept unique.  Giving a constraint the name the
    next unnamed constraint will get by default is accepted, and the
    unnamed constraint added after it then carries the same name. *)
Theorem default_name_can_repeat_given_name
        (p : OptimizationProblem.t cd) (e1 e2 : SX)
        (lb1 ub1 lb2 ub2 : float) (g1 g2 : option string) :
  (ub1 <? lb1)%float = false ->
  (ub2 <? lb2)%float = false ->
  let taken :=
    ("Constraint_"
     ++ Py.str_of_nat (List.length (OptimizationProblem.constraints p) + 2))
      %string in
  exists p1 p2,
    OptimizationProblem.add_constraint p e1 lb1 ub1 (Some taken) g1 = Ok p1
    /\ OptimizationProblem.add_constraint p1 e2 lb2 ub2 None g2 = Ok p2
    /\ OptimizationProblem.names_constraints p2
       = OptimizationProblem.names_constraints p ++ [Some taken; Some taken]
    /\ ~ NoDup (OptimizationProblem.names_constraints p2).
Proof.
  intros H1 H2 taken.
  unfold OptimizationProblem.add_constraint,
    OptimizationProblem._check_bounds.
  rewrite H1, H2. cbn [Py.bind Constraint.init OptimizationComponent.init].
  do 2 eexists. split; [reflexivity|]. split; [reflexivity|].
  match goal with
  | |- ?a = ?b /\ _ => assert (E : a = b)
  end.
  { unfold OptimizationProblem.names_constraints.
    cbn [OptimizationProblem.constraints].
    rewrite !map_app, length_app. simpl. rewrite <- app_assoc. simpl.
    subst taken.
    replace (List.length (OptimizationProblem.constraints p) + 1 + 1)
      with (List.length (OptimizationProblem.constraints p) + 2) by lia.
    reflexivity. }
  split; [exact E|]. rewrite E. intros Hnd.
  apply (NoDup_remove_2 (OptimizationProblem.names_constraints p)
                        [Some taken] (Some taken)) in Hnd.
  apply Hnd. apply in_or_app. right. left. reflexivity.
Qed.

End Naming.

Lemma unnamed_objectives_numbered_witness :
  OptimizationProblem.objectives Cases.with_variable = []
  /\ exists p',
       add_unnamed_objectives
         Cases.with_variable
         [(Stub.Sym "x", None); (Stub.Num 1%float, Some "g"%string)] = Ok p'
       /\ map (fun o => OptimizationComponent.name o)
              (OptimizationProblem.objectives p')
          = [Some "Objective_1"%string; Some "Objective_2"%string].
Proof.
  split; [reflexivity|].
  destruct (@unnamed_objectives_numbered
              Scenario.solves_at_once Cases.with_variable
              [(Stub.Sym "x", None); (Stub.Num 1%float, Some "g"%string)]
              eq_refl) as (p' & E & Hn & _).
  exists p'. split; [exact E|exact Hn].
Defined.

Lemma default_name_can_repeat_given_name_witness :
  (1 <? 0)%float = false
  /\ exists p1 p2,
       OptimizationProblem.add_constraint
         Cases.with_variable (Stub.Sym "x") 0%float 1%float
         (Some "Constraint_2"%string) None = Ok p1
       /\ OptimizationProblem.add_constraint
            p1 (Stub.Sym "x") 0%float 1%float None None = Ok p2
       /\ OptimizationProblem.names_constraints p2
          = [Some "Constraint_2"%string; Some "Constraint_2"%string].
Proof.
  split; [reflexivity|].
  destruct (@default_name_can_repeat_given_name
              Scenario.solves_at_once Cases.with_variable
              (Stub.Sym "x") (Stub.Sym "x") 0%float 1%float 0%float 1%float
              None None eq_refl eq_refl)
    as (p1 & p2 & E1 & E2 & Hn & _).
  exists p1, p2. split; [exact E1|]. split; [exact E2|exact Hn].
Defined.

(* ================================================================= *)
(** ** The caller's guess and runs without trials *)

Section CallerGuess.
Context {cd : Casadi}.

Variable Inv : NlpSolver -> Prop.
Variable self : Solver.t cd.
Variable p : OptimizationProblem.t cd.


(** X21. With [trials <= 0] the loop body never runs: the engine is built
    but never invoked, whatever engine it is; the problem ends not solved,
    also when it was solved before, and its result and the solver result
    kept by the solver stay as they were. *)
Theorem without_trials_engine_idle (random : nat -> float) (trials : Z)
        (guess : option (list float)) :
  Solver.problem self = Some p ->
  Solver.name self = "ipopt"%string ->
  (trials <= 0)%Z ->
  exists self' p',
    Solver.start random self trials guess
    = Ok (self', [Solver.EvSolved false; Solver.EvSolved false])
    /\ Solver.problem self' = Some p'
    /\ OptimizationProblem.solved p' = false
    /\ OptimizationProblem.result p' = OptimizationProblem.result p
    /\ Solver.solver_result self' = Solver.solver_result self
    /\ Solver.solver_instance self'
       = Some (nlpsol (OptimizationProblem.solver_name p) (Solver.nlp_of p)
                      (OptimizationProblem.solver_options p)).
Proof.
  intros Hp Hname Htrials.
  unfold Solver.start. rewrite Hname. cbn [String.eqb Ascii.eqb Bool.eqb].
  unfold Solver._ipopt_start. rewrite Hp.
  replace (Z.to_nat trials) with 0 by lia.
  cbn [Solver.trial_loop Py.bind]. unfold Solver.conclude.
  cbn [Solver.successful_trials Solver.instance Solver.log].
  rewrite (SolverFacts.save_unsolved
             _ (OptimizationProblem.set_solved
                  (OptimizationProblem.set_solved p false) false))
    by reflexivity.
  cbn [Py.bind app]. do 2 eexists. split; [reflexivity|].
  repeat split.
Qed.

End CallerGuess.


Lemma without_trials_engine_idle_witness :
  (0 <= 0)%Z
  /\ (exists self' p',
        Solver.start Scenario.half
                     (Scenario.solver_on
                        (OptimizationProblem.set_solved
                           Scenario.once_problem true))
                     0 None
        = Ok (self', [Solver.EvSolved false; Solver.EvSolved false])
        /\ Solver.problem self' = Some p'
        /\ OptimizationProblem.solved p' = false)
  /\ (exists self',
        Solver.start Scenario.half
                     (Scenario.solver_on Scenario.once_problem) (-2) None
        = Ok (self', [Solver.EvSolved false; Solver.EvSolved false])).
Proof.
  split; [lia|]. split.
  - destruct (@without_trials_engine_idle
                Scenario.solves_at_once
                (Scenario.solver_on
                   (OptimizationProblem.set_solved
                      Scenario.once_problem true))
                (OptimizationProblem.set_solved Scenario.once_problem true)
                Scenario.half 0 None eq_refl eq_refl)
      as (self' & p' & E & Hp & Hs & _).
    + lia.
    + exists self', p'. split; [exact E|]. split; [exact Hp|exact Hs].
  - destruct (@without_trials_engine_idle
                Scenario.solves_at_once
                (Scenario.solver_on Scenario.once_problem)
                Scenario.once_problem Scenario.half (-2) None
                eq_refl eq_refl)
      as (self' & p' & E & _).
    + lia.
    + exists self'. exact E.
Defined.
